(** * Fluster: the test-suite orchestrator of [fluster/fluster.py]

    A shallow embedding of the [Context] and [Fluster] classes of
    [fluster/fluster.py] and of the enumerations of [fluster/codec.py],
    followed by the properties of the orchestration logic: selection of
    suites and decoders, the reference-mode check, the run loop with its
    fail-fast policy, the summary table, the catalogue loader and the
    download command.

    The classes [TestSuite], [TestVector] and [Decoder] live in modules
    that are not part of the verified sources ([fluster/test_suite.py],
    [fluster/decoder.py]).  Their data is modelled by records holding
    the attributes the orchestrator reads; their methods ([from_json_file],
    [run], [download]) and the registry [DECODERS] are parameters of the
    development, and so is the built-in [str.lower]. *)

From Stdlib Require Import String Ascii List Bool Arith ZArith Lia DecimalString Permutation.
Import ListNotations.
Local Open Scope string_scope.
Local Open Scope list_scope.

(** ** Python strings

    Names are byte strings.  [str.lower] itself is a parameter of the
    orchestrator; [lower_ascii] is its restriction to strings of ASCII
    characters, where it folds the letters A to Z, and serves the sample
    installation, whose names are all ASCII. *)

Module PyStr.

Definition nl : string := String "010"%char EmptyString.

Definition is_upper (c : ascii) : bool :=
  let n := nat_of_ascii c in ((65 <=? n) && (n <=? 90))%nat.

Definition lower_char (c : ascii) : ascii :=
  if is_upper c then ascii_of_nat (nat_of_ascii c + 32) else c.

Fixpoint lower_ascii (s : string) : string :=
  match s with
  | EmptyString => EmptyString
  | String c s' => String (lower_char c) (lower_ascii s')
  end.

(** [sep.join(l)] *)
Fixpoint join (sep : string) (l : list string) : string :=
  match l with
  | [] => EmptyString
  | [x] => x
  | x :: rest => x ++ sep ++ join sep rest
  end.

(** [s * n] *)
Fixpoint repeat_str (s : string) (n : nat) : string :=
  match n with
  | O => EmptyString
  | S n' => s ++ repeat_str s n'
  end.

(** The concatenation of a list of strings. *)
Definition cat (l : list string) : string := fold_right String.append EmptyString l.

(** [str(n)] for a non-negative integer. *)
Definition of_nat (n : nat) : string := NilEmpty.string_of_uint (Nat.to_uint n).

(** [x in l] for a list of strings. *)
Definition mem (x : string) (l : list string) : bool :=
  existsb (String.eqb x) l.

(** [s.endswith(suffix)] *)
Fixpoint endswith (s suffix : string) : bool :=
  if String.eqb s suffix then true
  else match s with
       | EmptyString => false
       | String _ s' => endswith s' suffix
       end.

Definition slash : ascii := "/"%char.
Definition dot : ascii := "."%char.

(** [os.path.join(a, b)] on POSIX. *)
Definition path_join (a b : string) : string :=
  match b with
  | String c _ => if Ascii.eqb c slash then b
                  else if (String.eqb a EmptyString) || endswith a "/" then a ++ b
                  else a ++ "/" ++ b
  | EmptyString => if (String.eqb a EmptyString) || endswith a "/" then a
                   else a ++ "/"
  end.

(** [os.path.splitext(p)[1]] on POSIX: the extension starts at the last
    dot of the last path component, unless that component has only
    leading dots before it.  [ext_of] scans one component: [seen] tells
    whether a character other than a dot came before. *)
Fixpoint ext_scan (s : string) (seen : bool) (best : string) : string :=
  match s with
  | EmptyString => best
  | String c s' =>
      if Ascii.eqb c slash then ext_scan s' false EmptyString
      else if Ascii.eqb c dot then
             ext_scan s' seen (if seen then s else best)
           else ext_scan s' true best
  end.

Definition splitext_ext (p : string) : string := ext_scan p false EmptyString.

End PyStr.

Import PyStr.

(** ** [fluster/codec.py] *)

Inductive Codec := Dummy | H264 | H265 | VP8.

Definition Codec_value (c : Codec) : string :=
  match c with
  | Dummy => "Dummy"
  | H264 => "H.264"
  | H265 => "H.265"
  | VP8 => "VP8"
  end.

Definition Codec_eqb (a b : Codec) : bool :=
  match a, b with
  | Dummy, Dummy | H264, H264 | H265, H265 | VP8, VP8 => true
  | _, _ => false
  end.

Inductive PixelFormat := yuv420p | yuv420p10le.

Definition to_gst (p : PixelFormat) : string :=
  match p with
  | yuv420p => "I420"
  | yuv420p10le => "I420_10LE"
  end.

(** ** Data read by the orchestrator

    The attributes of [TestVector], [TestSuite] and [Decoder] objects.
    A suite's [test_vectors] is a Python dict from vector name to vector:
    an association list in insertion order.  The object a suite run
    returns is itself a [TestSuite], carrying the vectors' [errors] and
    the count [test_vectors_success]. *)

Record TestVector := {
  tv_name : string;
  tv_source : string;
  tv_source_checksum : string;
  tv_input_file : string;
  tv_output_format : PixelFormat;
  tv_result : string;
  tv_errors : list string
}.

Record TestSuite := {
  ts_filename : string;
  ts_resources_dir : string;
  ts_name : string;
  ts_codec : Codec;
  ts_description : string;
  ts_test_vectors : list (string * TestVector);
  ts_test_vectors_success : nat
}.

Record Decoder := {
  dec_name : string;
  dec_codec : Codec
}.

(** [d[key]]: the first binding of [key]. *)
Fixpoint dict_get {V : Type} (d : list (string * V)) (key : string) : option V :=
  match d with
  | [] => None
  | (k, v) :: rest => if String.eqb k key then Some v else dict_get rest key
  end.

Definition dict_keys {V : Type} (d : list (string * V)) : list string := map fst d.
Definition dict_values {V : Type} (d : list (string * V)) : list V := map snd d.

(** The truth value of a list. *)
Definition nonempty {A : Type} (l : list A) : bool :=
  match l with [] => false | _ :: _ => true end.

(** ** [class Context]

    The attributes [test_suites] and [decoders] hold what the caller
    passed ([None] or a list of names) until [_normalize_context]
    replaces them by the selected objects; [Sel] is the union of the two.
    [cx_test_suite] is the attribute [test_suite], which [__init__] does
    not create ([None] here: the attribute does not exist). *)

Inductive Sel (A : Type) :=
| Names (l : option (list string))
| Objects (l : list A).
Arguments Names {A} l.
Arguments Objects {A} l.

Record Context := {
  cx_jobs : Z;
  cx_timeout : Z;
  cx_test_suites : Sel TestSuite;
  cx_decoders : Sel Decoder;
  cx_test_vectors : option (list string);
  cx_failfast : bool;
  cx_quiet : bool;
  cx_reference : bool;
  cx_summary : bool;
  cx_keep_files : bool;
  cx_test_suite : option TestSuite
}.

(** [Context.__init__]: every list argument defaults to [None], every
    flag to [False]. *)
Definition Context_init (jobs timeout : Z) (test_suites decoders test_vectors : option (list string))
    (failfast quiet reference summary keep_files : bool) : Context :=
  {| cx_jobs := jobs; cx_timeout := timeout;
     cx_test_suites := Names test_suites;
     cx_decoders := Names decoders;
     cx_test_vectors := test_vectors;
     cx_failfast := failfast; cx_quiet := quiet; cx_reference := reference;
     cx_summary := summary; cx_keep_files := keep_files;
     cx_test_suite := None |}.

(** The context of one suite run ([fluster.test_suite.Context]) as
    [to_test_suite_context] fills it. *)
Record SuiteContext := {
  sc_jobs : Z;
  sc_decoder : Decoder;
  sc_timeout : Z;
  sc_failfast : bool;
  sc_quiet : bool;
  sc_results_dir : string;
  sc_reference : bool;
  sc_test_vectors : option (list string);
  sc_keep_files : bool
}.

Definition to_test_suite_context (self : Context) (decoder : Decoder)
    (results_dir : string) (test_vectors : option (list string)) : SuiteContext :=
  {| sc_jobs := cx_jobs self; sc_decoder := decoder; sc_timeout := cx_timeout self;
     sc_failfast := cx_failfast self; sc_quiet := cx_quiet self;
     sc_results_dir := results_dir; sc_reference := cx_reference self;
     sc_test_vectors := test_vectors; sc_keep_files := cx_keep_files self |}.

(** ** [class Fluster] *)

Record Fluster := {
  fl_test_suites_dir : string;
  fl_decoders_dir : string;
  fl_resources_dir : string;
  fl_results_dir : string;
  fl_verbose : bool;
  fl_test_suites : list TestSuite;
  fl_decoders : list Decoder
}.

(** ** Effects

    What a command does besides changing its objects: lines printed,
    suite runs and suite downloads, in the order they happen. *)

Inductive Event :=
| Print (line : string)
| SuiteRun (suite : TestSuite) (c : SuiteContext) (res : option TestSuite)
| SuiteDownload (suite : TestSuite) (jobs : Z) (out_dir : string) (verify keep_file : bool).

(** Exceptions.  [NoMatch name in_list] is
    [Exception(f'No {name} found matching {in_list}')]; the other
    messages are kept as text. *)
Inductive Exn :=
| NoMatch (name : string) (in_list : list string)
| PyException (msg : string)
| KeyError (key : string)
| IndexError
| AttributeError
| TypeError.

Inductive Outcome (A : Type) :=
| Return (a : A)
| Raise (e : Exn)
| SysExit (code : Z).
Arguments Return {A} a.
Arguments Raise {A} e.
Arguments SysExit {A} code.

(** ** The orchestrator over its collaborators *)

Section Engine.

(** The world outside the process: the file system and the decoders. *)
Variable World : Type.

(** [str.lower], the built-in of Python strings.  How it folds the
    letters of each alphabet is not written out: the development holds
    for any such function. *)
Variable lower : string -> string.

(** [fluster.decoder.DECODERS], the registry filled at import time. *)
Variable DECODERS : list Decoder.

(** [os.walk(top)]: for every directory, its path and its file names. *)
Variable os_walk : World -> string -> list (string * list string).

(** [TestSuite.from_json_file(filename, resources_dir)]: the suite, or the
    text of the exception it raises. *)
Variable from_json_file : World -> string -> string -> TestSuite + string.

(** [TestSuite.run(ctx)]: the suite with its results, or [None]. *)
Variable suite_run : TestSuite -> SuiteContext -> World -> option TestSuite * World.

(** [TestSuite.download(jobs, out_dir, verify, keep_file)]. *)
Variable suite_download : TestSuite -> Z -> string -> bool -> bool -> World -> World.

(** The process: the world, what has happened so far, the [Fluster]
    instance, whether [lru_cache] holds an entry of [_load_test_suites]
    for that instance, and the [Context] object of the command. *)
Record Proc := {
  world : World;
  trace : list Event;
  self : Fluster;
  load_cached : bool;
  ctx : Context
}.

Definition M (A : Type) : Type := Proc -> Outcome A * Proc.

Definition ret {A : Type} (a : A) : M A := fun p => (Return a, p).

Definition bind {A B : Type} (m : M A) (k : A -> M B) : M B :=
  fun p =>
    match m p with
    | (Return a, p') => k a p'
    | (Raise e, p') => (Raise e, p')
    | (SysExit code, p') => (SysExit code, p')
    end.

Notation "x <- m ;; k" := (bind m (fun x => k))
  (at level 61, m at next level, right associativity).
Notation "m ;; k" := (bind m (fun _ => k))
  (at level 61, right associativity).

Definition lift {A : Type} (o : Outcome A) : M A := fun p => (o, p).
Definition raise {A : Type} (e : Exn) : M A := lift (Raise e).
Definition sys_exit {A : Type} (code : Z) : M A := lift (SysExit code).

Definition get_self : M Fluster := fun p => (Return (self p), p).
Definition get_ctx : M Context := fun p => (Return (ctx p), p).
Definition get_world : M World := fun p => (Return (world p), p).

Definition emit (e : Event) (p : Proc) : Proc :=
  {| world := world p; trace := trace p ++ [e]; self := self p;
     load_cached := load_cached p; ctx := ctx p |}.

Definition with_world (w : World) (p : Proc) : Proc :=
  {| world := w; trace := trace p; self := self p;
     load_cached := load_cached p; ctx := ctx p |}.

Definition with_self (s : Fluster) (p : Proc) : Proc :=
  {| world := world p; trace := trace p; self := s;
     load_cached := load_cached p; ctx := ctx p |}.

Definition with_ctx (c : Context) (p : Proc) : Proc :=
  {| world := world p; trace := trace p; self := self p;
     load_cached := load_cached p; ctx := c |}.

Definition with_cached (b : bool) (p : Proc) : Proc :=
  {| world := world p; trace := trace p; self := self p;
     load_cached := b; ctx := ctx p |}.

Definition print (line : string) : M unit := fun p => (Return tt, emit (Print line) p).
Definition put_self (s : Fluster) : M unit := fun p => (Return tt, with_self s p).
Definition put_ctx (c : Context) : M unit := fun p => (Return tt, with_ctx c p).

Definition when (b : bool) (m : M unit) : M unit := if b then m else ret tt.

(** [for x in l: body], threading the local variables [acc]. *)
Fixpoint for_each {A B : Type} (l : list A) (body : B -> A -> M B) (acc : B) : M B :=
  match l with
  | [] => ret acc
  | x :: rest => acc' <- body acc x ;; for_each rest body acc'
  end.

(** *** [Fluster.__init__] *)

Definition Fluster_init (test_suites_dir decoders_dir resources_dir results_dir : string)
    (verbose : bool) : Fluster :=
  {| fl_test_suites_dir := test_suites_dir; fl_decoders_dir := decoders_dir;
     fl_resources_dir := resources_dir; fl_results_dir := results_dir;
     fl_verbose := verbose; fl_test_suites := []; fl_decoders := DECODERS |}.

Definition append_test_suite (s : Fluster) (t : TestSuite) : Fluster :=
  {| fl_test_suites_dir := fl_test_suites_dir s; fl_decoders_dir := fl_decoders_dir s;
     fl_resources_dir := fl_resources_dir s; fl_results_dir := fl_results_dir s;
     fl_verbose := fl_verbose s; fl_test_suites := fl_test_suites s ++ [t];
     fl_decoders := fl_decoders s |}.

(** *** [Fluster._load_test_suites] *)

(** The body of the inner loop, for one [file] of the directory [root]. *)
Definition load_file (root file : string) : M unit :=
  if String.eqb (splitext_ext file) ".json" then
    s <- get_self ;;
    when (fl_verbose s) (print ("Test suite found: " ++ file)) ;;
    w <- get_world ;;
    match from_json_file w (path_join root file) (fl_resources_dir s) with
    | inl test_suite => put_self (append_test_suite s test_suite)
    | inr ex => print ("Error loading test suite " ++ file ++ ": " ++ ex)
    end
  else ret tt.

(** The function under the decorator. *)
Definition load_test_suites_body : M unit :=
  s <- get_self ;;
  w <- get_world ;;
  for_each (os_walk w (fl_test_suites_dir s))
    (fun _ '(root, files) => for_each files (fun _ file => load_file root file) tt) tt.

(** [@lru_cache(maxsize=None)]: a call that returns is remembered under
    its argument [self], and a later call with the same instance returns
    the remembered value without running the body. *)
Definition _load_test_suites : M unit :=
  fun p =>
    if load_cached p then (Return tt, p)
    else match load_test_suites_body p with
         | (Return r, p') => (Return r, with_cached true p')
         | other => other
         end.

(** *** [Fluster._get_run_param] and [Fluster._normalize_context] *)

(** The truth value and the items of a name list that may be [None]. *)
Definition truthy (v : option (list string)) : bool :=
  match v with Some (_ :: _) => true | _ => false end.

Definition items (v : option (list string)) : list string :=
  match v with Some l => l | None => [] end.

Definition _get_run_param {A : Type} (name_of : A -> string)
    (in_list : option (list string)) (check_list : list A) (name : string)
    : Outcome (list A) :=
  if truthy in_list then
    let run := filter (fun x => mem (lower (name_of x)) (items in_list)) check_list in
    if negb (nonempty run) then Raise (NoMatch name (items in_list))
    else Return run
  else Return check_list.

(** [if v: v = [x.lower() for x in v]]: the name list the attribute holds
    afterwards.  A value without items is left as it is; objects have no
    [lower]. *)
Definition lowered {A : Type} (v : Sel A) : Outcome (option (list string)) :=
  match v with
  | Names l => Return (option_map (map lower) l)
  | Objects [] => Return (Some [])
  | Objects (_ :: _) => Raise AttributeError
  end.

Definition set_test_suites (c : Context) (v : Sel TestSuite) : Context :=
  {| cx_jobs := cx_jobs c; cx_timeout := cx_timeout c; cx_test_suites := v;
     cx_decoders := cx_decoders c; cx_test_vectors := cx_test_vectors c;
     cx_failfast := cx_failfast c; cx_quiet := cx_quiet c;
     cx_reference := cx_reference c; cx_summary := cx_summary c;
     cx_keep_files := cx_keep_files c; cx_test_suite := cx_test_suite c |}.

Definition set_decoders (c : Context) (v : Sel Decoder) : Context :=
  {| cx_jobs := cx_jobs c; cx_timeout := cx_timeout c;
     cx_test_suites := cx_test_suites c; cx_decoders := v;
     cx_test_vectors := cx_test_vectors c;
     cx_failfast := cx_failfast c; cx_quiet := cx_quiet c;
     cx_reference := cx_reference c; cx_summary := cx_summary c;
     cx_keep_files := cx_keep_files c; cx_test_suite := cx_test_suite c |}.

Definition set_test_vectors (c : Context) (v : option (list string)) : Context :=
  {| cx_jobs := cx_jobs c; cx_timeout := cx_timeout c;
     cx_test_suites := cx_test_suites c; cx_decoders := cx_decoders c;
     cx_test_vectors := v;
     cx_failfast := cx_failfast c; cx_quiet := cx_quiet c;
     cx_reference := cx_reference c; cx_summary := cx_summary c;
     cx_keep_files := cx_keep_files c; cx_test_suite := cx_test_suite c |}.

Definition set_test_suite (c : Context) (v : option TestSuite) : Context :=
  {| cx_jobs := cx_jobs c; cx_timeout := cx_timeout c;
     cx_test_suites := cx_test_suites c; cx_decoders := cx_decoders c;
     cx_test_vectors := cx_test_vectors c;
     cx_failfast := cx_failfast c; cx_quiet := cx_quiet c;
     cx_reference := cx_reference c; cx_summary := cx_summary c;
     cx_keep_files := cx_keep_files c; cx_test_suite := v |}.

Definition _normalize_context : M unit :=
  c <- get_ctx ;;
  suites_filter <- lift (lowered (cx_test_suites c)) ;;
  put_ctx (set_test_suites c (Names suites_filter)) ;;
  c <- get_ctx ;;
  decoders_filter <- lift (lowered (cx_decoders c)) ;;
  put_ctx (set_decoders c (Names decoders_filter)) ;;
  c <- get_ctx ;;
  put_ctx (set_test_vectors c (option_map (map lower) (cx_test_vectors c))) ;;
  c <- get_ctx ;;
  s <- get_self ;;
  run <- lift (_get_run_param ts_name suites_filter (fl_test_suites s) "test suite") ;;
  put_ctx (set_test_suites c (Objects run)) ;;
  c <- get_ctx ;;
  s <- get_self ;;
  run <- lift (_get_run_param dec_name decoders_filter (fl_decoders s) "decoders") ;;
  put_ctx (set_decoders c (Objects run)).

(** *** [Fluster._generate_summary] *)

(** The two cells, as the UTF-8 bytes of the source's literals. *)
Definition check_mark : string := "✔️|".
Definition cross_mark : string := "❌|".

(** The inner loop of a row: one cell for each result set. *)
Fixpoint summary_cells (name : string) (test_suites : list TestSuite) (output : string)
    : Outcome string :=
  match test_suites with
  | [] => Return output
  | test_suite :: rest =>
      match dict_get (ts_test_vectors test_suite) name with
      | None => Raise (KeyError name)
      | Some tvector =>
          summary_cells name rest
            (output ++ (if negb (nonempty (tv_errors tvector)) then check_mark else cross_mark))%string
      end
  end.

(** The loop over the vectors of the first result set. *)
Fixpoint summary_rows (vectors : list TestVector) (test_suites : list TestSuite)
    (output : string) : Outcome string :=
  match vectors with
  | [] => Return output
  | test_vector :: rest =>
      match summary_cells (tv_name test_vector) test_suites
              (output ++ nl ++ "|" ++ tv_name test_vector ++ "|")%string with
      | Return output' => summary_rows rest test_suites output'
      | other => other
      end
  end.

Definition summary_total (output : string) (test_suite : TestSuite) : string :=
  output ++ of_nat (ts_test_vectors_success test_suite) ++ "/"
         ++ of_nat (length (ts_test_vectors test_suite)) ++ "|".

Definition summary_header (output : string) (r : Decoder * TestSuite) : string :=
  output ++ dec_name (fst r) ++ "|".

(** The text of the table, or the exception raised while building it. *)
Definition summary_output (results : list (Decoder * TestSuite)) : Outcome string :=
  match results with
  | [] => Raise IndexError
  | (_, first) :: _ =>
      let test_suites := map snd results in
      let output := "|Test|" in
      let output := fold_left summary_header results output in
      let output := (output ++ nl ++ "|-|" ++ repeat_str "-|" (length results))%string in
      match summary_rows (dict_values (ts_test_vectors first)) test_suites output with
      | Return output =>
          let output := (output ++ nl ++ "|TOTAL|")%string in
          Return (fold_left summary_total test_suites output)
      | other => other
      end
  end.

Definition _generate_summary (results : list (Decoder * TestSuite)) : M unit :=
  match results with
  | [] => raise IndexError
  | (_, first) :: _ =>
      let test_suite_name := ts_name first in
      let decoder_names := map (fun r => dec_name (fst r)) results in
      print ("Generating summary for test suite " ++ test_suite_name
             ++ " and decoders " ++ join ", " decoder_names ++ ":" ++ nl) ;;
      output <- lift (summary_output results) ;;
      print output
  end.

(** *** [Fluster.run_test_suites] *)

(** The objects an attribute holds once [_normalize_context] has run,
    which is when the code below reads it; iterating [None] or reading
    [codec] or [name] of a string fails. *)
Definition objects_of {A : Type} (v : Sel A) : Outcome (list A) :=
  match v with
  | Objects l => Return l
  | Names None => Raise TypeError
  | Names (Some []) => Return []
  | Names (Some (_ :: _)) => Raise AttributeError
  end.

(** The loop over the vectors of a result, with its [break]. *)
Fixpoint all_vectors_pass (vectors : list TestVector) : bool :=
  match vectors with
  | [] => true
  | test_vector :: rest =>
      if nonempty (tv_errors test_vector) then false else all_vectors_pass rest
  end.

Definition run_suite_with (suite : TestSuite) (c : SuiteContext) : M (option TestSuite) :=
  fun p =>
    let (res, w) := suite_run suite c (world p) in
    (Return res, emit (SuiteRun suite c res) (with_world w p)).

Definition Results : Type := list (Decoder * TestSuite).

(** The body of the loop over the decoders; the locals are [results] and
    [error].  A suite object returned by [run] counts as true. *)
Definition run_decoder (acc : Results * bool) (decoder : Decoder) : M (Results * bool) :=
  let (results, error) := acc in
  c <- get_ctx ;;
  match cx_test_suite c with
  | None => raise AttributeError
  | Some test_suite =>
      if negb (Codec_eqb (dec_codec decoder) (ts_codec test_suite)) then ret (results, error)
      else
        s <- get_self ;;
        test_suite_res <- run_suite_with test_suite
          (to_test_suite_context c decoder (fl_results_dir s) (cx_test_vectors c)) ;;
        match test_suite_res with
        | None => ret (results, error)
        | Some res =>
            let results := results ++ [(decoder, res)] in
            if all_vectors_pass (dict_values (ts_test_vectors res)) then ret (results, error)
            else if cx_failfast c then sys_exit 1
            else ret (results, true)
        end
  end.

(** The body of the loop [for ctx.test_suite in ctx.test_suites]. *)
Definition run_suite (error : bool) (test_suite : TestSuite) : M bool :=
  c <- get_ctx ;;
  put_ctx (set_test_suite c (Some test_suite)) ;;
  c <- get_ctx ;;
  decoders <- lift (objects_of (cx_decoders c)) ;;
  acc <- for_each decoders run_decoder ([], error) ;;
  c <- get_ctx ;;
  when (cx_summary c && nonempty (fst acc)) (_generate_summary (fst acc)) ;;
  ret (snd acc).

Definition reference_message (decoders : list Decoder) : string :=
  "Only one decoder can be the reference. Given: " ++ join ", " (map dec_name decoders).

(** The reference-mode check and its announcement. *)
Definition reference_check : M unit :=
  c <- get_ctx ;;
  when (cx_reference c)
    (decoders <- lift (objects_of (cx_decoders c)) ;;
     if negb (nonempty decoders) || (1 <? length decoders)%nat
     then raise (PyException (reference_message decoders))
     else ret tt) ;;
  when (cx_reference c) (print "Reference mode").

(** The loop over the selected suites and the exit status. *)
Definition run_loop : M unit :=
  c <- get_ctx ;;
  test_suites <- lift (objects_of (cx_test_suites c)) ;;
  error <- for_each test_suites run_suite false ;;
  if error then sys_exit 1 else ret tt.

Definition run_test_suites : M unit :=
  _load_test_suites ;;
  _normalize_context ;;
  reference_check ;;
  run_loop.

(** *** [Fluster.download_test_suites] *)

Definition download_suite (jobs : Z) (keep_file : bool) (test_suite : TestSuite) : M unit :=
  fun p =>
    let out_dir := fl_resources_dir (self p) in
    (Return tt,
     emit (SuiteDownload test_suite jobs out_dir true keep_file)
          (with_world (suite_download test_suite jobs out_dir true keep_file (world p)) p)).

Definition download_test_suites (test_suites : option (list string)) (jobs : Z)
    (keep_file : bool) : M unit :=
  _load_test_suites ;;
  s <- get_self ;;
  let selected :=
    if negb (truthy test_suites) then fl_test_suites s
    else filter (fun t => mem (ts_name t) (items test_suites)) (fl_test_suites s) in
  for_each selected (fun _ t => download_suite jobs keep_file t) tt.

End Engine.

Arguments world {World} p.
Arguments trace {World} p.
Arguments self {World} p.
Arguments load_cached {World} p.
Arguments ctx {World} p.
Arguments emit {World} e p.
Arguments with_world {World} w p.
Arguments with_self {World} s p.
Arguments with_ctx {World} c p.
Arguments with_cached {World} b p.
Arguments ret {World A} a p.
Arguments bind {World A B} m k p.
Arguments lift {World A} o p.
Arguments raise {World A} e p.
Arguments sys_exit {World A} code p.
Arguments get_self {World} p.
Arguments get_ctx {World} p.
Arguments get_world {World} p.
Arguments print {World} line p.
Arguments put_self {World} s p.
Arguments put_ctx {World} c p.
Arguments when {World} b m p.
Arguments for_each {World A B} l body acc p.
Arguments run_suite_with {World} suite_run suite c p.
Arguments download_suite {World} suite_download jobs keep_file test_suite p.
Arguments _load_test_suites {World} os_walk from_json_file p.
Arguments load_test_suites_body {World} os_walk from_json_file p.
Arguments load_file {World} from_json_file root file p.
Arguments _normalize_context {World} lower p.
Arguments reference_check {World} p.
Arguments run_loop {World} suite_run p.
Arguments run_suite {World} suite_run error test_suite p.
Arguments run_decoder {World} suite_run acc decoder p.
Arguments _generate_summary {World} results p.
Arguments run_test_suites {World} lower os_walk from_json_file suite_run p.
Arguments download_test_suites {World} os_walk from_json_file suite_download test_suites jobs keep_file p.

(** ** Observations on a run

    The vocabulary of the statements below: what a trace shows, and the
    declarative descriptions the code is compared with. *)

(** The events a command added: those of [p'] after the ones of [p]. *)
Definition since {World : Type} (p p' : Proc World) : list Event :=
  skipn (length (trace p)) (trace p').

Definition is_suite_run (e : Event) : bool :=
  match e with SuiteRun _ _ _ => true | _ => false end.

Definition is_download (e : Event) : bool :=
  match e with SuiteDownload _ _ _ _ _ => true | _ => false end.

(** The (suite, decoder) pairs executed, in order. *)
Fixpoint pairs_of (t : list Event) : list (TestSuite * Decoder) :=
  match t with
  | [] => []
  | SuiteRun suite c _ :: rest => (suite, sc_decoder c) :: pairs_of rest
  | _ :: rest => pairs_of rest
  end.

(** A result has a vector with errors. *)
Definition has_errors (res : TestSuite) : bool :=
  existsb (fun tv => nonempty (tv_errors tv)) (dict_values (ts_test_vectors res)).

Definition failed_run (e : Event) : bool :=
  match e with
  | SuiteRun _ _ (Some res) => has_errors res
  | _ => false
  end.

(** The selected pairs whose codecs agree, suite by suite. *)
Definition codec_match (suite : TestSuite) (decoder : Decoder) : bool :=
  Codec_eqb (dec_codec decoder) (ts_codec suite).

Definition matching_pairs (suites : list TestSuite) (decoders : list Decoder)
    : list (TestSuite * Decoder) :=
  flat_map (fun suite => map (pair suite) (filter (codec_match suite) decoders)) suites.

(** Case-insensitive match of a name against a filter. *)
Definition matches_ci (lower : string -> string) (name : string) (names : list string)
    : Prop :=
  exists n, In n names /\ lower n = lower name.

(** The context once the filters [suites_filter] and [decoders_filter]
    are lower-cased, and once the selection is stored. *)
Definition lowercased (lower : string -> string) (c : Context)
    (suites_filter decoders_filter : option (list string)) : Context :=
  set_test_vectors
    (set_decoders (set_test_suites c (Names suites_filter)) (Names decoders_filter))
    (option_map (map lower) (cx_test_vectors c)).

Definition normalized (lower : string -> string) (c : Context) (suites : list TestSuite)
    (decoders : list Decoder) : Context :=
  {| cx_jobs := cx_jobs c; cx_timeout := cx_timeout c;
     cx_test_suites := Objects suites; cx_decoders := Objects decoders;
     cx_test_vectors := option_map (map lower) (cx_test_vectors c);
     cx_failfast := cx_failfast c; cx_quiet := cx_quiet c;
     cx_reference := cx_reference c; cx_summary := cx_summary c;
     cx_keep_files := cx_keep_files c; cx_test_suite := cx_test_suite c |}.

(** The keys of a dict of vectors are the names of its vectors. *)
Definition well_keyed (d : list (string * TestVector)) : Prop :=
  Forall (fun kv => tv_name (snd kv) = fst kv) d.

(** *** The loops, declaratively *)

(** A postcondition on a computation's result: [I] when it returns, [E]
    when it raises or exits. *)
Definition post {World B : Type} (I : B -> Proc World -> Prop)
    (E : Outcome B -> Proc World -> Prop) (r : Outcome B * Proc World) : Prop :=
  match fst r with
  | Return b => I b (snd r)
  | o => E o (snd r)
  end.

(** The context [TestSuite.run] gets for [decoder] from the process [q],
    and the process after that run. *)
Definition suite_context_for {World : Type} (q : Proc World) (decoder : Decoder)
    : SuiteContext :=
  to_test_suite_context (ctx q) decoder (fl_results_dir (self q)) (cx_test_vectors (ctx q)).

Definition after_suite_run {World : Type}
    (suite_run : TestSuite -> SuiteContext -> World -> option TestSuite * World)
    (suite : TestSuite) (decoder : Decoder) (q : Proc World) : Proc World :=
  let c := suite_context_for q decoder in
  emit (SuiteRun suite c (fst (suite_run suite c (world q))))
       (with_world (snd (suite_run suite c (world q))) q).

(** A suite run in a trace was for a decoder of the suite's codec. *)
Definition codec_ok (e : Event) : Prop :=
  match e with
  | SuiteRun suite c _ => dec_codec (sc_decoder c) = ts_codec suite
  | _ => True
  end.

(** No suite run of the trace has a vector with errors. *)
Definition clean (t : list Event) : Prop := forall e, In e t -> failed_run e = false.

(** A trace of printed lines only. *)
Definition quiet (t : list Event) : Prop := forall e, In e t -> exists line, e = Print line.

(** How a run under fail-fast may stop: on an exception after clean
    runs, or on [sys.exit(1)] right after the first failing run. *)
Definition failfast_stop {B : Type} (t : list Event) (o : Outcome B) : Prop :=
  (clean t /\ exists e, o = Raise e) \/
  (exists t' ev, t = t' ++ [ev] /\ clean t' /\ failed_run ev = true /\ o = SysExit 1%Z).

(** The two contexts differ at most in the attribute [test_suite]. *)
Definition same_settings (c c' : Context) : Prop :=
  exists current, c' = set_test_suite c current.

(** The two contexts agree on the attributes a run only reads. *)
Definition same_flags (c c' : Context) : Prop :=
  cx_jobs c' = cx_jobs c /\ cx_timeout c' = cx_timeout c /\
  cx_failfast c' = cx_failfast c /\ cx_quiet c' = cx_quiet c /\
  cx_reference c' = cx_reference c /\ cx_summary c' = cx_summary c /\
  cx_keep_files c' = cx_keep_files c.

(** The results of the oracle come from the suite that was run: same
    vector names, each vector under its own name. *)
Definition faithful_results {World : Type}
    (suite_run : TestSuite -> SuiteContext -> World -> option TestSuite * World) : Prop :=
  forall suite c w res w',
    suite_run suite c w = (Some res, w') ->
    dict_keys (ts_test_vectors res) = dict_keys (ts_test_vectors suite) /\
    well_keyed (ts_test_vectors res) .

(** The results of the oracle for one suite under the same settings,
    whatever the decoder and the world, name the same vectors: every
    vector of one result is found under its name in the other.  This is
    what the summary needs of the results it is given, and what a
    [TestSuite.run] that reports the vectors it ran provides. *)
Definition consistent_results {World : Type}
    (suite_run : TestSuite -> SuiteContext -> World -> option TestSuite * World) : Prop :=
  forall suite (c : Context) (results_dir : string) (test_vectors : option (list string))
         d1 d2 w1 w2 r1 r2,
    fst (suite_run suite (to_test_suite_context c d1 results_dir test_vectors) w1) = Some r1 ->
    fst (suite_run suite (to_test_suite_context c d2 results_dir test_vectors) w2) = Some r2 ->
    forall tv, In tv (dict_values (ts_test_vectors r1)) ->
      In (tv_name tv) (dict_keys (ts_test_vectors r2)).

(** The invariants of the two loops, relative to the process [q0] at the
    start of the loop. *)
Section Invariants.

Variable World : Type.
Variable suite_run : TestSuite -> SuiteContext -> World -> option TestSuite * World.
Variable q0 : Proc World.

Definition frame_inner (q : Proc World) : Prop :=
  ctx q = ctx q0 /\ self q = self q0 /\ load_cached q = load_cached q0.

Definition frame_outer (q : Proc World) : Prop :=
  same_settings (ctx q0) (ctx q) /\ self q = self q0 /\ load_cached q = load_cached q0.

(** Every run so far was for a matching codec; under fail-fast no run
    so far has failed and the error flag is untouched. *)
Definition inner_inv (error0 : bool) (acc : Results * bool) (q : Proc World) : Prop :=
  frame_inner q /\
  exists new, trace q = trace q0 ++ new /\ Forall codec_ok new /\
    (cx_failfast (ctx q0) = true -> clean new /\ snd acc = error0).

(** The loop over the decoders stops only by the fail-fast exit, right
    after a failing run. *)
Definition inner_stop (o : Outcome (Results * bool)) (q : Proc World) : Prop :=
  frame_inner q /\
  exists t' ev, trace q = trace q0 ++ t' ++ [ev] /\ Forall codec_ok (t' ++ [ev]) /\
    clean t' /\ failed_run ev = true /\ o = SysExit 1%Z /\ cx_failfast (ctx q0) = true.

Definition outer_inv (error0 : bool) (done : list TestSuite) (error : bool)
    (q : Proc World) : Prop :=
  frame_outer q /\
  cx_test_suite (ctx q) = last (map Some done) (cx_test_suite (ctx q0)) /\
  exists new, trace q = trace q0 ++ new /\ Forall codec_ok new /\
    (cx_failfast (ctx q0) = true -> clean new /\ error = error0).

Definition outer_stop {B : Type} (o : Outcome B) (q : Proc World) : Prop :=
  frame_outer q /\
  exists new, trace q = trace q0 ++ new /\ Forall codec_ok new /\
    (cx_failfast (ctx q0) = true -> failfast_stop new o).

(** Without fail-fast: the pairs run so far are the matching pairs of
    the items handled, the error flag tells whether a run has failed,
    and the results collected were returned by runs of [suite] under the
    settings of the loop. *)
Definition from_suite (suite : TestSuite) (r : Decoder * TestSuite) : Prop :=
  exists decoder w,
    fst (suite_run suite (suite_context_for q0 decoder) w) = Some (snd r).

Definition complete_inner (suite : TestSuite) (error0 : bool) (done : list Decoder)
    (acc : Results * bool) (q : Proc World) : Prop :=
  frame_inner q /\
  exists new, trace q = trace q0 ++ new /\
    pairs_of new = map (pair suite) (filter (codec_match suite) done) /\
    snd acc = error0 || existsb failed_run new /\
    Forall (from_suite suite) (fst acc).

Definition complete_outer (decoders : list Decoder) (error0 : bool) (done : list TestSuite)
    (error : bool) (q : Proc World) : Prop :=
  frame_outer q /\
  exists new, trace q = trace q0 ++ new /\
    pairs_of new = matching_pairs done decoders /\
    error = error0 || existsb failed_run new.

Definition never {B : Type} (o : Outcome B) (q : Proc World) : Prop := False.

End Invariants.

Arguments frame_inner {World} q0 q.
Arguments frame_outer {World} q0 q.
Arguments inner_inv {World} q0 error0 acc q.
Arguments inner_stop {World} q0 o q.
Arguments outer_inv {World} q0 error0 done error q.
Arguments outer_stop {World} q0 {B} o q.
Arguments from_suite {World} suite_run q0 suite r.
Arguments complete_inner {World} suite_run q0 suite error0 done acc q.
Arguments complete_outer {World} q0 decoders error0 done error q.
Arguments never {World B} o q.

(** *** The catalogue, declaratively *)

Definition is_definition (file : string) : bool :=
  String.eqb (splitext_ext file) ".json".

(** The definitions of a directory listing, as (directory, file) pairs. *)
Definition definitions (listing : list (string * list string)) : list (string * string) :=
  flat_map (fun entry => map (pair (fst entry)) (filter is_definition (snd entry))) listing.

Section Catalogue.

Variable World : Type.
Variable from_json_file : World -> string -> string -> TestSuite + string.
Variables (w : World) (verbose : bool) (resources_dir : string).

Definition parse_definition (d : string * string) : TestSuite + string :=
  from_json_file w (path_join (fst d) (snd d)) resources_dir.

Definition parsed (d : string * string) : list TestSuite :=
  match parse_definition d with inl suite => [suite] | inr _ => [] end.

Definition parse_error (d : string * string) : list Event :=
  match parse_definition d with
  | inl _ => []
  | inr ex => [Print ("Error loading test suite " ++ snd d ++ ": " ++ ex)]
  end.

Definition definition_events (d : string * string) : list Event :=
  (if verbose then [Print ("Test suite found: " ++ snd d)] else []) ++ parse_error d.

End Catalogue.

Arguments parse_definition {World} from_json_file w resources_dir d.
Arguments parsed {World} from_json_file w resources_dir d.
Arguments parse_error {World} from_json_file w resources_dir d.
Arguments definition_events {World} from_json_file w verbose resources_dir d.

Definition add_test_suites (s : Fluster) (l : list TestSuite) : Fluster :=
  {| fl_test_suites_dir := fl_test_suites_dir s; fl_decoders_dir := fl_decoders_dir s;
     fl_resources_dir := fl_resources_dir s; fl_results_dir := fl_results_dir s;
     fl_verbose := fl_verbose s; fl_test_suites := fl_test_suites s ++ l;
     fl_decoders := fl_decoders s |}.

(** The process after the definitions [defs] have been read: the suites
    that parse are appended, the others reported. *)
Definition after_definitions {World : Type}
    (from_json_file : World -> string -> string -> TestSuite + string)
    (defs : list (string * string)) (p : Proc World) : Proc World :=
  {| world := world p;
     trace := trace p ++
              flat_map (definition_events from_json_file (world p) (fl_verbose (self p))
                          (fl_resources_dir (self p))) defs;
     self := add_test_suites (self p)
               (flat_map (parsed from_json_file (world p) (fl_resources_dir (self p))) defs);
     load_cached := load_cached p;
     ctx := ctx p |}.

(** The process after a first call of the loader. *)
Definition after_scan {World : Type}
    (os_walk : World -> string -> list (string * list string))
    (from_json_file : World -> string -> string -> TestSuite + string)
    (p : Proc World) : Proc World :=
  with_cached true
    (after_definitions from_json_file
       (definitions (os_walk (world p) (fl_test_suites_dir (self p)))) p).

(** *** The summary table, declaratively

    One row for each vector of the suite with one cell for each decoder,
    and for each decoder the number of vectors without errors over the
    number of vectors. *)

Record Table := {
  tb_decoders : list string;
  tb_rows : list (string * list bool);
  tb_totals : list (nat * nat)
}.

Definition vector_passes (res : TestSuite) (name : string) : bool :=
  match dict_get (ts_test_vectors res) name with
  | Some tv => negb (nonempty (tv_errors tv))
  | None => false
  end.

Definition passed_count (res : TestSuite) : nat :=
  length (filter (fun tv => negb (nonempty (tv_errors tv))) (dict_values (ts_test_vectors res))).

Definition spec_table (results : list (Decoder * TestSuite)) : Table :=
  {| tb_decoders := map (fun r => dec_name (fst r)) results;
     tb_rows :=
       match results with
       | [] => []
       | (_, first) :: _ =>
           map (fun name => (name, map (fun r => vector_passes (snd r) name) results))
               (dict_keys (ts_test_vectors first))
       end;
     tb_totals :=
       map (fun r => (passed_count (snd r), length (ts_test_vectors (snd r)))) results |}.

Definition render_cell (pass : bool) : string :=
  if pass then check_mark else cross_mark.

Definition render_row (row : string * list bool) : string :=
  nl ++ "|" ++ fst row ++ "|" ++ cat (map render_cell (snd row)).

Definition render_total (t : nat * nat) : string :=
  of_nat (fst t) ++ "/" ++ of_nat (snd t) ++ "|".

Definition render_table (t : Table) : string :=
  "|Test|" ++ cat (map (fun n => (n ++ "|")%string) (tb_decoders t))
  ++ nl ++ "|-|" ++ repeat_str "-|" (length (tb_decoders t))
  ++ cat (map render_row (tb_rows t))
  ++ nl ++ "|TOTAL|" ++ cat (map render_total (tb_totals t)).

(** The line printed above the table. *)
Definition summary_heading (results : Results) (first : TestSuite) : string :=
  "Generating summary for test suite " ++ ts_name first ++ " and decoders "
  ++ join ", " (map (fun r => dec_name (fst r)) results) ++ ":" ++ nl.

(** The success count of a result is the number of its vectors without
    errors. *)
Definition count_derived (res : TestSuite) : Prop :=
  ts_test_vectors_success res = passed_count res.

(** ** The listing commands

    [list_decoders] and [list_test_suites] print objects; what
    [str(decoder)], [str(test_suite)] and [str(test_vector)] give, and
    what [decoder.check()] answers on the current system, belongs to the
    classes that are parameters here. *)

(** [str(codec)] of an [Enum] member, and the member's name. *)
Definition Codec_name (c : Codec) : string :=
  match c with
  | Dummy => "Dummy"
  | H264 => "H264"
  | H265 => "H265"
  | VP8 => "VP8"
  end.

Definition Codec_str (c : Codec) : string := "Codec." ++ Codec_name c.

(** [s.split('.')]: [cur] is the piece being read. *)
Fixpoint split_dot (s cur : string) : list string :=
  match s with
  | EmptyString => [cur]
  | String c s' =>
      if Ascii.eqb c dot then cur :: split_dot s' EmptyString
      else split_dot s' (cur ++ String c EmptyString)
  end.

(** [f'{codec}'.split('.')[1]] *)
Definition codec_heading (c : Codec) : Outcome string :=
  match nth_error (split_dot (Codec_str c) EmptyString) 1 with
  | Some piece => Return piece
  | None => Raise IndexError
  end.

(** The dict [decoders_dict], from codec to the list of its decoders, in
    insertion order. *)
Definition CodecDict : Type := list (Codec * list Decoder).

(** [codec in decoders_dict] *)
Definition codec_in (d : CodecDict) (c : Codec) : bool :=
  existsb (fun entry => Codec_eqb (fst entry) c) d.

(** [decoders_dict[codec].append(dec)], the key being there. *)
Fixpoint codec_append (d : CodecDict) (c : Codec) (dec : Decoder) : CodecDict :=
  match d with
  | [] => []
  | (c', l) :: rest =>
      if Codec_eqb c' c then (c', l ++ [dec]) :: rest
      else (c', l) :: codec_append rest c dec
  end.

(** The body of the first loop of [list_decoders]. *)
Definition group_decoder (d : CodecDict) (dec : Decoder) : CodecDict :=
  let d := if negb (codec_in d (dec_codec dec)) then d ++ [(dec_codec dec, [])] else d in
  codec_append d (dec_codec dec) dec.

Definition group_decoders (decoders : list Decoder) : CodecDict :=
  fold_left group_decoder decoders [].

Definition available_mark : string := " ✔️".
Definition missing_mark : string := " ❌".

Section Listing.

Variable World : Type.
Variable lower : string -> string.
Variable os_walk : World -> string -> list (string * list string).
Variable from_json_file : World -> string -> string -> TestSuite + string.

(** [str(decoder)], [decoder.check()], [str(test_suite)] and
    [str(test_vector)]. *)
Variable decoder_str : Decoder -> string.
Variable decoder_check : World -> Decoder -> bool.
Variable suite_str : TestSuite -> string.
Variable vector_str : TestVector -> string.

Notation "x <- m ;; k" := (bind m (fun x => k))
  (at level 61, m at next level, right associativity).
Notation "m ;; k" := (bind m (fun _ => k))
  (at level 61, right associativity).

(** *** [Fluster.list_decoders] *)

(** The line of one decoder. *)
Definition decoder_line (check : bool) (w : World) (decoder : Decoder) : string :=
  let string := decoder_str decoder in
  if check then
    (string ++ (if decoder_check w decoder then available_mark else missing_mark))%string
  else string.

(** The body of the loop over the codecs of the dict. *)
Definition list_codec (check : bool) (entry : Codec * list Decoder) : M World unit :=
  heading <- lift (codec_heading (fst entry)) ;;
  print heading ;;
  for_each (snd entry)
    (fun _ decoder => w <- get_world ;; print (decoder_line check w decoder)) tt.

Definition list_decoders (check : bool) : M World unit :=
  print (nl ++ "List of available decoders:" ++ nl) ;;
  s <- get_self ;;
  let decoders_dict := group_decoders (fl_decoders s) in
  for_each decoders_dict (fun _ entry => list_codec check entry) tt.

(** *** [Fluster.list_test_suites] *)

(** The body of the loop over the loaded suites; [test_suites] is the
    filter after its lower-casing. *)
Definition list_suite (show_test_vectors : bool) (test_suites : option (list string))
    (test_suite : TestSuite) : M World unit :=
  if truthy test_suites && negb (mem (lower (ts_name test_suite)) (items test_suites))
  then ret tt
  else
    print (suite_str test_suite) ;;
    when show_test_vectors
      (for_each (dict_values (ts_test_vectors test_suite))
         (fun _ test_vector => print (vector_str test_vector)) tt).

Definition list_test_suites (show_test_vectors : bool) (test_suites : option (list string))
    : M World unit :=
  _load_test_suites os_walk from_json_file ;;
  print (nl ++ "List of available test suites:") ;;
  let test_suites :=
    if truthy test_suites then Some (map lower (items test_suites)) else test_suites in
  s <- get_self ;;
  for_each (fl_test_suites s)
    (fun _ test_suite => list_suite show_test_vectors test_suites test_suite) tt.

End Listing.

Arguments decoder_line {World} decoder_str decoder_check check w decoder.
Arguments list_codec {World} decoder_str decoder_check check entry p.
Arguments list_decoders {World} decoder_str decoder_check check p.
Arguments list_suite {World} lower suite_str vector_str show_test_vectors test_suites test_suite p.
Arguments list_test_suites {World} lower os_walk from_json_file suite_str vector_str
  show_test_vectors test_suites p.

(** ** [PixelFormat.to_gst], as the dict the method builds

    [mapping[self]] raises [KeyError] for a member the dict leaves out. *)

Definition PixelFormat_eqb (a b : PixelFormat) : bool :=
  match a, b with
  | yuv420p, yuv420p | yuv420p10le, yuv420p10le => true
  | _, _ => false
  end.

Definition PixelFormat_name (p : PixelFormat) : string :=
  match p with
  | yuv420p => "yuv420p"
  | yuv420p10le => "yuv420p10le"
  end.

Definition gst_mapping : list (PixelFormat * string) :=
  [(yuv420p, "I420"); (yuv420p10le, "I420_10LE")].

Fixpoint mapping_get (m : list (PixelFormat * string)) (key : PixelFormat) : Outcome string :=
  match m with
  | [] => Raise (KeyError (PixelFormat_name key))
  | (k, v) :: rest => if PixelFormat_eqb k key then Return v else mapping_get rest key
  end.

Definition to_gst_lookup (self : PixelFormat) : Outcome string := mapping_get gst_mapping self.

(** ** [scripts/gen_vp8.py] *)

Module PyPath.

(** [os.path.basename(p)] on POSIX: what follows the last slash. *)
Fixpoint basename_scan (s best : string) : string :=
  match s with
  | EmptyString => best
  | String c s' =>
      if Ascii.eqb c slash then basename_scan s' s' else basename_scan s' best
  end.

Definition basename (p : string) : string := basename_scan p p.

(** [os.path.splitext(p)[0]]: the path without its extension. *)
Definition splitext_root (p : string) : string :=
  substring 0 (String.length p - String.length (splitext_ext p)) p.

End PyPath.

Import PyPath.

(** [d[key] = value]: the value of a key that is there is replaced where
    it stands; a new key goes to the end. *)
Fixpoint dict_set {V : Type} (d : list (string * V)) (key : string) (value : V)
    : list (string * V) :=
  match d with
  | [] => [(key, value)]
  | (k, v) :: rest =>
      if String.eqb k key then (k, value) :: rest else (k, v) :: dict_set rest key value
  end.

Module GenVP8.

Definition API_URL : string := "https://api.github.com".
Definition VP8_REPO : string := "webmproject/vp8-test-vectors".
Definition GITHUB_RAW_BASE_URL : string :=
  "https://github.com/webmproject/vp8-test-vectors/raw/master/".
Definition BITSTREAM_EXT : string := ".ivf".
Definition MD5_EXT : string := ".md5".

Record VP8Generator := {
  gen_name : string;
  gen_suite_name : string;
  gen_codec : Codec;
  gen_description : string;
  gen_github_mirror : string
}.

Definition is_test_vector (filename : string) : bool := endswith filename BITSTREAM_EXT.

(** [TestVector(name, source, source_checksum, input_file, output_format,
    result)] and [TestSuite(filename, resources_dir, name, codec,
    description, test_vectors)]: a new vector has no errors, a new suite
    no successes. *)
Definition TestVector_new (name source source_checksum input_file : string)
    (output_format : PixelFormat) (result : string) : TestVector :=
  {| tv_name := name; tv_source := source; tv_source_checksum := source_checksum;
     tv_input_file := input_file; tv_output_format := output_format;
     tv_result := result; tv_errors := [] |}.

Definition TestSuite_new (filename resources_dir name : string) (codec : Codec)
    (description : string) (test_vectors : list (string * TestVector)) : TestSuite :=
  {| ts_filename := filename; ts_resources_dir := resources_dir; ts_name := name;
     ts_codec := codec; ts_description := description; ts_test_vectors := test_vectors;
     ts_test_vectors_success := 0 |}.

Definition set_vectors (s : TestSuite) (vectors : list (string * TestVector)) : TestSuite :=
  {| ts_filename := ts_filename s; ts_resources_dir := ts_resources_dir s;
     ts_name := ts_name s; ts_codec := ts_codec s; ts_description := ts_description s;
     ts_test_vectors := vectors; ts_test_vectors_success := ts_test_vectors_success s |}.

Definition set_source_checksum (v : TestVector) (checksum : string) : TestVector :=
  {| tv_name := tv_name v; tv_source := tv_source v; tv_source_checksum := checksum;
     tv_input_file := tv_input_file v; tv_output_format := tv_output_format v;
     tv_result := tv_result v; tv_errors := tv_errors v |}.

(** What the script does to the outside, in order. *)
Inductive Effect :=
| Downloaded (suite : TestSuite) (jobs : Z) (out_dir : string)
    (verify extract_all keep_file : bool)
| Written (suite : TestSuite) (filename : string)
| Printed (line : string).

Section Generate.

Variable World : Type.

(** The names of the files [repo.get_contents("")] lists for a mirror. *)
Variable repo_contents : World -> string -> list string.

(** [TestSuite.download(jobs, out_dir, verify, extract_all, keep_file)]. *)
Variable suite_download :
  TestSuite -> Z -> string -> bool -> bool -> bool -> World -> World.

(** [utils.file_checksum(path)]. *)
Variable file_checksum : World -> string -> string.

(** [TestSuite.to_json_file(filename)]. *)
Variable to_json_file : TestSuite -> string -> World -> World.

(** The body of the loop over the files of the repository. *)
Definition add_content (vectors : list (string * TestVector)) (content_name : string)
    : list (string * TestVector) :=
  if negb (is_test_vector content_name) then vectors
  else
    let file_url := content_name in
    let url := (GITHUB_RAW_BASE_URL ++ file_url)%string in
    let name := splitext_root file_url in
    let test_vector := TestVector_new name url "" file_url yuv420p "" in
    dict_set vectors name test_vector.

(** The body of the loop that fills in the checksums. *)
Definition checksum_vector (w : World) (test_suite : TestSuite) (test_vector : TestVector)
    : TestVector :=
  let dest_dir :=
    path_join (path_join (ts_resources_dir test_suite) (ts_name test_suite))
              (tv_name test_vector) in
  let dest_path := path_join dest_dir (basename (tv_source test_vector)) in
  set_source_checksum test_vector (file_checksum w dest_path).

(** [VP8Generator.generate]: the suite written, the world and the
    effects. *)
Definition generate (self : VP8Generator) (download : bool) (jobs : Z) (w : World)
    : TestSuite * World * list Effect :=
  let output_filepath := (gen_suite_name self ++ ".json")%string in
  let test_suite :=
    TestSuite_new output_filepath "resources" (gen_suite_name self) (gen_codec self)
                  (gen_description self) [] in
  let contents := repo_contents w (gen_github_mirror self) in
  let test_suite := set_vectors test_suite (fold_left add_content contents []) in
  let w1 :=
    if download
    then suite_download test_suite jobs (ts_resources_dir test_suite) false true true w
    else w in
  let downloads :=
    if download
    then [Downloaded test_suite jobs (ts_resources_dir test_suite) false true true]
    else [] in
  let test_suite :=
    set_vectors test_suite
      (map (fun kv => (fst kv, checksum_vector w1 test_suite (snd kv)))
           (ts_test_vectors test_suite)) in
  (test_suite,
   to_json_file test_suite output_filepath w1,
   downloads ++
   [Written test_suite output_filepath;
    Printed ("Generate new test suite: " ++ ts_name test_suite ++ ".json")]).

End Generate.

(** The generator the script builds. *)
Definition main_generator : VP8Generator :=
  {| gen_name := "VP8"; gen_suite_name := "WebM-VP8"; gen_codec := VP8;
     gen_description := "WebM VP8 Test Vector Catalogue"; gen_github_mirror := VP8_REPO |}.

End GenVP8.

(** ** A sample installation

    Three suites, three decoders and deterministic collaborators, used
    to run the model on concrete inputs.  The world counts the vectors
    decoded so far.  Decoder [B] fails the second vector of each Dummy
    suite; the other decoders pass every vector.  Every name is made of
    ASCII characters, on which [str.lower] is [lower_ascii]. *)

Module Sample.

Definition vector (name : string) (errors : list string) : TestVector :=
  {| tv_name := name; tv_source := "https://example.org/" ++ name ++ ".bin";
     tv_source_checksum := "0"; tv_input_file := name ++ ".bin";
     tv_output_format := yuv420p; tv_result := "0"; tv_errors := errors |}.

Definition suite (file name : string) (codec : Codec) (vectors : list string) : TestSuite :=
  {| ts_filename := file; ts_resources_dir := "resources"; ts_name := name;
     ts_codec := codec; ts_description := name;
     ts_test_vectors := map (fun n => (n, vector n [])) vectors;
     ts_test_vectors_success := 0 |}.

Definition suiteA : TestSuite := suite "test_suites/dummy-a.json" "Dummy-A" Dummy ["v1"; "v2"; "v3"].
Definition suiteB : TestSuite := suite "test_suites/dummy-b.json" "Dummy-B" Dummy ["w1"; "w2"].
Definition suiteH : TestSuite := suite "test_suites/h264.json" "H264-Main" H264 ["h1"].

Definition decA : Decoder := {| dec_name := "A"; dec_codec := Dummy |}.
Definition decB : Decoder := {| dec_name := "B"; dec_codec := Dummy |}.
Definition decH : Decoder := {| dec_name := "H"; dec_codec := H264 |}.

Definition DECODERS : list Decoder := [decA; decB; decH].

Definition World : Type := nat.

(** [catalogue] holds one well-formed and one malformed definition;
    every other directory is the full tree. *)
Definition os_walk (w : World) (top : string) : list (string * list string) :=
  if String.eqb top "catalogue" then
    [(top, ["good.json"; "broken.json"])]
  else
    [(top, ["dummy-a.json"; "README.md"; "dummy-b.json"]);
     (path_join top "video", ["h264.json"; "broken.json"; ".json"])].

Definition from_json_file (w : World) (filename resources_dir : string) : TestSuite + string :=
  if String.eqb filename "test_suites/dummy-a.json" then inl suiteA
  else if String.eqb filename "test_suites/dummy-b.json" then inl suiteB
  else if String.eqb filename "test_suites/video/h264.json" then inl suiteH
  else if String.eqb filename "catalogue/good.json" then inl suiteA
  else inr "Expecting value: line 1 column 1 (char 0)".

Definition fails (decoder : Decoder) (name : string) : bool :=
  String.eqb (dec_name decoder) "B" && (String.eqb name "v2" || String.eqb name "w2").

Definition is_selected (c : SuiteContext) (name : string) : bool :=
  if truthy (sc_test_vectors c) then mem (lower_ascii name) (items (sc_test_vectors c)) else true.

Definition run_vector (c : SuiteContext) (kv : string * TestVector) : string * TestVector :=
  (fst kv,
   vector (fst kv)
     (if is_selected c (fst kv) && fails (sc_decoder c) (fst kv)
      then ["checksum mismatch"] else [])).

Definition suite_run (s : TestSuite) (c : SuiteContext) (w : World) : option TestSuite * World :=
  let names := filter (is_selected c) (dict_keys (ts_test_vectors s)) in
  (Some {| ts_filename := ts_filename s; ts_resources_dir := ts_resources_dir s;
           ts_name := ts_name s; ts_codec := ts_codec s;
           ts_description := ts_description s;
           ts_test_vectors := map (run_vector c) (ts_test_vectors s);
           ts_test_vectors_success :=
             length (filter (fun n => negb (fails (sc_decoder c) n)) names) |},
   w + length names).

Definition suite_download (s : TestSuite) (jobs : Z) (out_dir : string)
    (verify keep_file : bool) (w : World) : World := w.

Definition fluster : Fluster :=
  Fluster_init DECODERS "test_suites" "decoders" "resources" "results" false.

Definition start (s : Fluster) (c : Context) : Proc World :=
  {| world := 0; trace := []; self := s; load_cached := false; ctx := c |}.

Definition run (c : Context) : Outcome unit * Proc World :=
  run_test_suites lower_ascii os_walk from_json_file suite_run (start fluster c).

Definition download (names : option (list string)) : Outcome unit * Proc World :=
  download_test_suites os_walk from_json_file suite_download names 2 false
    (start fluster (Context_init 2 30 None None None false false false false false)).

(** The same installation over the directory [catalogue]. *)
Definition small : Fluster :=
  Fluster_init DECODERS "catalogue" "decoders" "resources" "results" false.

Definition no_filter (failfast reference summary : bool) : Context :=
  Context_init 4 30 None None None failfast false reference summary false.

Definition only (suites decoders vectors : option (list string)) : Context :=
  Context_init 4 30 suites decoders vectors false false false false false.

Definition broken_line : Event :=
  Print "Error loading test suite broken.json: Expecting value: line 1 column 1 (char 0)".

(** The event of running suite [s] with decoder [d] under context [c]. *)
Definition run_event (c : Context) (s : TestSuite) (d : Decoder) : Event :=
  let sc := to_test_suite_context c d "results" (option_map (map lower_ascii) (cx_test_vectors c)) in
  SuiteRun s sc (fst (suite_run s sc 0)).

(** The results of suite [Dummy-A] with decoders [A] and [B]. *)
Definition results_AB : list (Decoder * TestSuite) :=
  let c := Context_init 4 30 None None None false false false true false in
  [(decA, match fst (suite_run suiteA (to_test_suite_context c decA "results" None) 0) with
          | Some r => r | None => suiteA end);
   (decB, match fst (suite_run suiteA (to_test_suite_context c decB "results" None) 0) with
          | Some r => r | None => suiteA end)].

End Sample.

(** ** The shape of a run's trace

    What every event of the run loop looks like, whatever the flags:
    the invariants used for the properties of whole runs that hold
    without assumptions on the collaborators. *)

(** [e] is a run of [suite] with one of [decoders], under the context
    made from [c] and [results_dir]. *)
Definition suite_run_of (c : Context) (results_dir : string) (suite : TestSuite)
    (decoders : list Decoder) (e : Event) : Prop :=
  exists decoder res,
    In decoder decoders /\
    e = SuiteRun suite (to_test_suite_context c decoder results_dir (cx_test_vectors c)) res.

(** [e] is an event of the loop over [suites] and [decoders]: a suite
    run, or a line of a summary when summaries are asked for. *)
Definition loop_event (c : Context) (results_dir : string) (suites : list TestSuite)
    (decoders : list Decoder) (e : Event) : Prop :=
  (exists suite, In suite suites /\ suite_run_of c results_dir suite decoders e) \/
  (cx_summary c = true /\ exists line, e = Print line).

Section Shapes.

Variable World : Type.
Variable q0 : Proc World.

Definition shape_inner (suite : TestSuite) (decoders : list Decoder) (error0 : bool)
    (done : list Decoder) (acc : Results * bool) (q : Proc World) : Prop :=
  frame_inner q0 q /\
  exists new, trace q = trace q0 ++ new /\
    Forall (suite_run_of (ctx q0) (fl_results_dir (self q0)) suite decoders) new /\
    pairs_of new = map (pair suite) (filter (codec_match suite) done) /\
    snd acc = error0 || existsb failed_run new.

Definition stop_inner (suite : TestSuite) (decoders : list Decoder)
    (o : Outcome (Results * bool)) (q : Proc World) : Prop :=
  frame_inner q0 q /\
  exists new tail, trace q = trace q0 ++ new /\
    Forall (suite_run_of (ctx q0) (fl_results_dir (self q0)) suite decoders) new /\
    map (pair suite) (filter (codec_match suite) decoders) = pairs_of new ++ tail /\
    existsb failed_run new = true /\
    o = SysExit 1%Z /\ cx_failfast (ctx q0) = true.

Definition shape_outer (suites : list TestSuite) (decoders : list Decoder) (error0 : bool)
    (done : list TestSuite) (error : bool) (q : Proc World) : Prop :=
  frame_outer q0 q /\
  exists new, trace q = trace q0 ++ new /\
    Forall (loop_event (ctx q0) (fl_results_dir (self q0)) suites decoders) new /\
    pairs_of new = matching_pairs done decoders /\
    error = error0 || existsb failed_run new.

Definition stop_outer {B : Type} (suites : list TestSuite) (decoders : list Decoder)
    (o : Outcome B) (q : Proc World) : Prop :=
  frame_outer q0 q /\
  exists new tail, trace q = trace q0 ++ new /\
    Forall (loop_event (ctx q0) (fl_results_dir (self q0)) suites decoders) new /\
    matching_pairs suites decoders = pairs_of new ++ tail /\
    ((o = SysExit 1%Z /\ cx_failfast (ctx q0) = true /\ existsb failed_run new = true) \/
     (exists key, o = Raise (KeyError key) /\ cx_summary (ctx q0) = true)).

End Shapes.

Arguments shape_inner {World} q0 suite decoders error0 done acc q.
Arguments stop_inner {World} q0 suite decoders o q.
Arguments shape_outer {World} q0 suites decoders error0 done error q.
Arguments stop_outer {World} q0 {B} suites decoders o q.

(** How a run may end. *)
Inductive run_ending : Outcome unit -> Prop :=
| ends_returning : run_ending (Return tt)
| ends_exit_1 : run_ending (SysExit 1%Z)
| ends_no_suite (f : list string) : run_ending (Raise (NoMatch "test suite" f))
| ends_no_decoder (f : list string) : run_ending (Raise (NoMatch "decoders" f))
| ends_reference (decoders : list Decoder) :
    run_ending (Raise (PyException (reference_message decoders)))
| ends_summary_key (key : string) : run_ending (Raise (KeyError key))
| ends_used_context : run_ending (Raise AttributeError).

(** The codecs of a list of decoders, each once, in order of first
    appearance. *)
Definition first_codecs (decoders : list Decoder) : list Codec :=
  fold_left
    (fun seen d => if existsb (fun c => Codec_eqb c (dec_codec d)) seen then seen
                   else seen ++ [dec_codec d])
    decoders [].

Definition of_codec (c : Codec) (decoders : list Decoder) : list Decoder :=
  filter (fun d => Codec_eqb c (dec_codec d)) decoders.

(** The lines one suite gives in the listing of suites, the suites a
    filter lets through, and the lines one codec gives in the listing of
    decoders. *)
Definition suite_lines (suite_str : TestSuite -> string)
    (vector_str : TestVector -> string) (show_test_vectors : bool) (s : TestSuite)
    : list Event :=
  Print (suite_str s)
  :: (if show_test_vectors
      then map (fun v => Print (vector_str v)) (dict_values (ts_test_vectors s))
      else []).

Definition listed (lower : string -> string) (names : option (list string)) (s : TestSuite)
    : bool :=
  negb (truthy names) || mem (lower (ts_name s)) (map lower (items names)).

Definition codec_lines {World : Type} (decoder_str : Decoder -> string)
    (decoder_check : World -> Decoder -> bool) (check : bool) (w : World)
    (entry : Codec * list Decoder) : list Event :=
  Print (Codec_name (fst entry))
  :: map (fun d => Print (decoder_line decoder_str decoder_check check w d)) (snd entry).

(** The vector the generator makes for a listed file. *)
Definition listed_vector (file : string) : TestVector :=
  GenVP8.TestVector_new (splitext_root file) (GenVP8.GITHUB_RAW_BASE_URL ++ file) ""
    file yuv420p "".

(** ** Cases of the sample installation

    Starting states over the sample installation, for runs under
    particular filters and flags. *)

Module Cases.

Definition start (c : Context) : Proc Sample.World := Sample.start Sample.fluster c.

(** No filter and no flag. *)
Definition plain : Proc Sample.World := start (Sample.no_filter false false false).

(** A vector filter written in upper case. *)
Definition upper_vector : Proc Sample.World := start (Sample.only None None (Some ["V1"])).

Definition upper_vector_context : SuiteContext :=
  to_test_suite_context (ctx upper_vector) Sample.decA "results" (Some ["v1"]).

(** Reference mode with the single decoder [A], summaries off. *)
Definition reference_A : Proc Sample.World :=
  start (Context_init 4 30 None (Some ["a"]) None false false true false false).

(** Fail-fast over every suite and decoder. *)
Definition failing : Proc Sample.World := start (Sample.no_filter true false false).

(** The H.264 suite alone: its one decoder passes. *)
Definition h264_only : Proc Sample.World :=
  start (Sample.only (Some ["h264-main"]) None None).

(** Filters written in lower case. *)
Definition lower_filters : Proc Sample.World :=
  start (Sample.only (Some ["dummy-a"]) (Some ["a"]) (Some ["v1"])).

(** Reference mode with the H.264 suite and the Dummy decoder [A]: no
    pair of equal codec. *)
Definition no_pair : Proc Sample.World :=
  start (Context_init 4 30 (Some ["H264-Main"]) (Some ["A"]) None
           false false true false false).

(** An oracle whose results are not consistent: for decoder [B] it
    reports the first vector of the suite only. *)
Definition first_only (r : TestSuite) : TestSuite :=
  {| ts_filename := ts_filename r; ts_resources_dir := ts_resources_dir r;
     ts_name := ts_name r; ts_codec := ts_codec r; ts_description := ts_description r;
     ts_test_vectors := firstn 1 (ts_test_vectors r);
     ts_test_vectors_success := ts_test_vectors_success r |}.

Definition partial_run (s : TestSuite) (c : SuiteContext) (w : Sample.World)
    : option TestSuite * Sample.World :=
  let (res, w') := Sample.suite_run s c w in
  (if String.eqb (dec_name (sc_decoder c)) "B" then option_map first_only res else res, w').

(** Summaries on, no fail-fast. *)
Definition summaries : Proc Sample.World := start (Sample.no_filter false false true).

End Cases.

(** ** Properties *)

Section Facts.

Variable World : Type.
Variable lower : string -> string.
Variable os_walk : World -> string -> list (string * list string).
Variable from_json_file : World -> string -> string -> TestSuite + string.
Variable suite_run : TestSuite -> SuiteContext -> World -> option TestSuite * World.
Variable suite_download : TestSuite -> Z -> string -> bool -> bool -> World -> World.

Local Abbreviation load := (_load_test_suites os_walk from_json_file).
Local Abbreviation run := (run_test_suites lower os_walk from_json_file suite_run).
Local Abbreviation download := (download_test_suites os_walk from_json_file suite_download).
Local Abbreviation loop := (run_loop suite_run).
Local Abbreviation State := (Proc World).

(** *** Records and traces *)

Lemma proc_eta (p : State) :
  {| world := world p; trace := trace p; self := self p;
     load_cached := load_cached p; ctx := ctx p |} = p.
Proof. destruct p; reflexivity. Qed.

Lemma add_test_suites_nil (s : Fluster) : add_test_suites s [] = s.
Proof. destruct s; unfold add_test_suites; simpl; rewrite app_nil_r; reflexivity. Qed.

Lemma add_test_suites_app (s : Fluster) (l1 l2 : list TestSuite) :
  add_test_suites (add_test_suites s l1) l2 = add_test_suites s (l1 ++ l2).
Proof. unfold add_test_suites; simpl; rewrite app_assoc; reflexivity. Qed.

Lemma append_is_add (s : Fluster) (t : TestSuite) :
  append_test_suite s t = add_test_suites s [t].
Proof. reflexivity. Qed.

Lemma after_definitions_nil (p : State) : after_definitions from_json_file [] p = p.
Proof.
  unfold after_definitions; simpl.
  rewrite app_nil_r, add_test_suites_nil. apply proc_eta.
Qed.

Lemma after_definitions_app (d1 d2 : list (string * string)) (p : State) :
  after_definitions from_json_file d2 (after_definitions from_json_file d1 p)
  = after_definitions from_json_file (d1 ++ d2) p.
Proof.
  unfold after_definitions; simpl.
  rewrite !flat_map_app, add_test_suites_app, app_assoc. reflexivity.
Qed.

(** *** The loader *)

Lemma load_file_spec (root file : string) (p : State) :
  load_file from_json_file root file p
  = (Return tt,
     if is_definition file then after_definitions from_json_file [(root, file)] p else p).
Proof.
  unfold load_file, is_definition.
  destruct (String.eqb (splitext_ext file) ".json"); [| reflexivity].
  unfold bind, get_self, get_world, when, after_definitions, definition_events,
    parse_error, parsed, parse_definition; simpl.
  destruct (fl_verbose (self p)); simpl;
    destruct (from_json_file _ _ _); simpl; unfold put_self, print, with_self, emit; simpl;
    rewrite ?app_nil_r, ?add_test_suites_nil, <- ?app_assoc; reflexivity.
Qed.

Lemma load_files_spec (root : string) (files : list string) (p : State) :
  for_each files (fun _ file => load_file from_json_file root file) tt p
  = (Return tt,
     after_definitions from_json_file (map (pair root) (filter is_definition files)) p).
Proof.
  revert p. induction files as [| file files IH]; intros p; simpl.
  - rewrite after_definitions_nil. reflexivity.
  - unfold bind. rewrite load_file_spec. rewrite IH.
    destruct (is_definition file); simpl; [| reflexivity].
    rewrite after_definitions_app. reflexivity.
Qed.

Lemma load_listing_spec (listing : list (string * list string)) (p : State) :
  for_each listing
    (fun _ '(root, files) =>
       for_each files (fun _ file => load_file from_json_file root file) tt) tt p
  = (Return tt, after_definitions from_json_file (definitions listing) p).
Proof.
  revert p. induction listing as [| [root files] listing IH]; intros p; simpl.
  - rewrite after_definitions_nil. reflexivity.
  - unfold bind. rewrite load_files_spec, IH, after_definitions_app. reflexivity.
Qed.

Lemma load_spec (p : State) :
  load p = (Return tt, if load_cached p then p else after_scan os_walk from_json_file p).
Proof.
  unfold _load_test_suites, after_scan.
  destruct (load_cached p); [reflexivity |].
  unfold load_test_suites_body, bind, get_self, get_world.
  rewrite load_listing_spec. reflexivity.
Qed.

Lemma since_extends (p p' : State) (new : list Event) :
  trace p' = trace p ++ new -> since p p' = new.
Proof.
  intros H. unfold since. rewrite H.
  rewrite skipn_app, skipn_all, Nat.sub_diag. reflexivity.
Qed.

Lemma since_refl_trace (p p' : State) : trace p' = trace p -> since p p' = [].
Proof. intros H. apply since_extends. rewrite H, app_nil_r. reflexivity. Qed.

Lemma parsed_or_reported (w : World) (res : string) (defs : list (string * string)) :
  length (flat_map (parsed from_json_file w res) defs)
  + length (flat_map (parse_error from_json_file w res) defs) = length defs.
Proof.
  induction defs as [| d defs IH]; simpl; [reflexivity |].
  rewrite !length_app. unfold parsed at 1, parse_error at 1.
  destruct (parse_definition from_json_file w res d); simpl; lia.
Qed.

(** C8: scanning the catalogue always returns; the suite list grows by
    the definitions that parse, in scan order, and the output by one
    report for each definition that does not.  A directory with one
    well-formed and one malformed definition gives one suite and one
    report. *)
Theorem load_keeps_parsed_and_reports_malformed (p : State) :
  load_cached p = false ->
  let w := world p in
  let res := fl_resources_dir (self p) in
  let listing := os_walk w (fl_test_suites_dir (self p)) in
  let defs := definitions listing in
  let p' := snd (load p) in
  fst (load p) = Return tt /\
  fl_test_suites (self p')
    = fl_test_suites (self p) ++ flat_map (parsed from_json_file w res) defs /\
  since p p' = flat_map (definition_events from_json_file w (fl_verbose (self p)) res) defs /\
  (forall d suite, In d defs -> parse_definition from_json_file w res d = inl suite ->
     In suite (fl_test_suites (self p'))) /\
  (forall d ex, In d defs -> parse_definition from_json_file w res d = inr ex ->
     In (Print ("Error loading test suite " ++ snd d ++ ": " ++ ex)) (since p p')) /\
  length (flat_map (parsed from_json_file w res) defs)
  + length (flat_map (parse_error from_json_file w res) defs) = length defs /\
  (forall root good bad suite ex,
     listing = [(root, [good; bad])] ->
     is_definition good = true -> is_definition bad = true ->
     parse_definition from_json_file w res (root, good) = inl suite ->
     parse_definition from_json_file w res (root, bad) = inr ex ->
     fl_verbose (self p) = false -> fl_test_suites (self p) = [] ->
     fl_test_suites (self p') = [suite] /\
     since p p' = [Print ("Error loading test suite " ++ bad ++ ": " ++ ex)]).
Proof.
  intros Hc w res listing defs p'.
  assert (Hp' : p' = after_scan os_walk from_json_file p).
  { unfold p'. rewrite load_spec, Hc. reflexivity. }
  assert (Hs : fl_test_suites (self p')
               = fl_test_suites (self p) ++ flat_map (parsed from_json_file w res) defs).
  { rewrite Hp'. reflexivity. }
  assert (Ht : since p p'
               = flat_map (definition_events from_json_file w (fl_verbose (self p)) res) defs).
  { apply since_extends. rewrite Hp'. reflexivity. }
  split; [rewrite load_spec; reflexivity |].
  split; [exact Hs |]. split; [exact Ht |].
  split; [| split; [| split; [apply parsed_or_reported |]]].
  - intros d suite Hd Hparse. rewrite Hs. apply in_or_app. right.
    apply in_flat_map. exists d. split; [exact Hd |].
    unfold parsed. rewrite Hparse. left. reflexivity.
  - intros d ex Hd Hparse. rewrite Ht.
    apply in_flat_map. exists d. split; [exact Hd |].
    unfold definition_events. apply in_or_app. right.
    unfold parse_error. rewrite Hparse. left. reflexivity.
  - intros root good bad suite ex Hl Hg Hb Hpg Hpb Hv Hnil.
    rewrite Hs, Ht, Hnil, Hv. unfold defs. rewrite Hl. simpl. rewrite Hg, Hb. simpl.
    unfold definition_events, parsed, parse_error. rewrite Hpg, Hpb. simpl.
    split; reflexivity.
Qed.

(** C9: a call of the loader records the instance in the cache, and any
    later call for that instance, whatever happened to the file system,
    the output and the context in between, returns at once: the suite
    list, the output and the world are left as they were. *)
Theorem load_twice_is_load_once (p : State) (w2 : World) (t2 : list Event) (c2 : Context) :
  let p1 := snd (load p) in
  let later := {| world := w2; trace := t2; self := self p1;
                  load_cached := load_cached p1; ctx := c2 |} in
  load_cached p1 = true /\
  load p1 = (Return tt, p1) /\
  load later = (Return tt, later) /\
  fl_test_suites (self (snd (load later))) = fl_test_suites (self p1) /\
  (forall n, Nat.iter n (fun q => snd (load q)) p1 = p1).
Proof.
  intros p1 later.
  assert (H1 : load_cached p1 = true).
  { unfold p1. rewrite load_spec. simpl. destruct (load_cached p) eqn:E; [exact E | reflexivity]. }
  assert (H2 : forall q, load_cached q = true -> load q = (Return tt, q)).
  { intros q Hq. rewrite load_spec, Hq. reflexivity. }
  split; [exact H1 |]. split; [apply H2, H1 |].
  split; [apply H2; exact H1 |].
  split; [rewrite (H2 later H1); reflexivity |].
  induction n as [| n IH]; simpl; [reflexivity |].
  rewrite IH, (H2 p1 H1). reflexivity.
Qed.

(** *** Selection *)

Lemma mem_In (x : string) (l : list string) : mem x l = true <-> In x l.
Proof.
  unfold mem. rewrite existsb_exists. split.
  - intros [y [Hy E]]. apply String.eqb_eq in E. subst. exact Hy.
  - intros H. exists x. split; [exact H | apply String.eqb_refl].
Qed.

Lemma matches_ci_In (name : string) (names : list string) :
  matches_ci lower name names <-> In (lower name) (map lower names).
Proof.
  unfold matches_ci. rewrite in_map_iff. split.
  - intros [n [Hn E]]. exists n. split; assumption.
  - intros [n [E Hn]]. exists n. split; assumption.
Qed.

Lemma nonempty_false {A : Type} (l : list A) : nonempty l = false <-> l = [].
Proof. destruct l; simpl; split; congruence. Qed.

Lemma truthy_some (f : list string) : f <> [] -> truthy (Some (map lower f)) = true.
Proof. destruct f; simpl; congruence. Qed.

Lemma get_run_param_no_match {A : Type} (name_of : A -> string) (f : option (list string))
    (check_list : list A) (name : string) :
  truthy f = true ->
  (forall x, In x check_list -> ~ In (lower (name_of x)) (items f)) ->
  _get_run_param lower name_of f check_list name = Raise (NoMatch name (items f)).
Proof.
  intros Ht Hno. unfold _get_run_param. rewrite Ht.
  replace (filter _ check_list) with (@nil A); [reflexivity |].
  symmetry. apply nonempty_false.
  destruct (filter _ check_list) as [| x l] eqn:E; [reflexivity |].
  assert (Hx : In x (filter (fun x => mem (lower (name_of x)) (items f)) check_list)).
  { rewrite E. left. reflexivity. }
  apply filter_In in Hx. destruct Hx as [Hin Hm].
  apply mem_In in Hm. exfalso. exact (Hno x Hin Hm).
Qed.

Lemma get_run_param_no_filter {A : Type} (name_of : A -> string) (f : option (list string))
    (check_list : list A) (name : string) :
  truthy f = false -> _get_run_param lower name_of f check_list name = Return check_list.
Proof. intros Ht. unfold _get_run_param. rewrite Ht. reflexivity. Qed.

Lemma get_run_param_filter {A : Type} (name_of : A -> string) (f : option (list string))
    (check_list run : list A) (name : string) :
  truthy f = true ->
  _get_run_param lower name_of f check_list name = Return run ->
  run = filter (fun x => mem (lower (name_of x)) (items f)) check_list /\ run <> [].
Proof.
  unfold _get_run_param. intros Ht. rewrite Ht.
  destruct (filter _ check_list) as [| x l] eqn:E; simpl; intros H; inversion H.
  split; [reflexivity | discriminate].
Qed.

Lemma get_run_param_no_exit {A : Type} (name_of : A -> string) (f : option (list string))
    (check_list : list A) (name : string) (code : Z) :
  _get_run_param lower name_of f check_list name <> SysExit code.
Proof.
  unfold _get_run_param. destruct (truthy f); [| discriminate].
  destruct (negb _); discriminate.
Qed.

Lemma lowered_no_exit {A : Type} (v : Sel A) (code : Z) : lowered lower v <> SysExit code.
Proof. destruct v as [l | [| x l]]; discriminate. Qed.

(** What [_normalize_context] does to a context whose filters are name
    lists, as [Context.__init__] leaves them. *)
Lemma normalize_fresh (p : State) (sf df : option (list string)) :
  cx_test_suites (ctx p) = Names sf -> cx_decoders (ctx p) = Names df ->
  let sf' := option_map (map lower) sf in
  let df' := option_map (map lower) df in
  _normalize_context lower p =
    match _get_run_param lower ts_name sf' (fl_test_suites (self p)) "test suite" with
    | Raise e => (Raise e, with_ctx (lowercased lower (ctx p) sf' df') p)
    | SysExit code => (SysExit code, with_ctx (lowercased lower (ctx p) sf' df') p)
    | Return suites =>
        match _get_run_param lower dec_name df' (fl_decoders (self p)) "decoders" with
        | Raise e =>
            (Raise e, with_ctx (set_test_suites (lowercased lower (ctx p) sf' df') (Objects suites)) p)
        | SysExit code =>
            (SysExit code,
             with_ctx (set_test_suites (lowercased lower (ctx p) sf' df') (Objects suites)) p)
        | Return decoders => (Return tt, with_ctx (normalized lower (ctx p) suites decoders) p)
        end
    end.
Proof.
  intros Hs Hd sf' df'.
  unfold _normalize_context, bind, lift, get_ctx, get_self, put_ctx; simpl.
  rewrite Hs; simpl. rewrite Hd; simpl. fold sf' df'.
  destruct (_get_run_param lower ts_name sf' _ _); reflexivity.
Qed.

(** Whatever the context, a normalization that returns has stored a
    selection; nothing but the context changes. *)
Lemma normalize_return (p p' : State) :
  _normalize_context lower p = (Return tt, p') ->
  exists sf df suites decoders,
    lowered lower (cx_test_suites (ctx p)) = Return sf /\
    lowered lower (cx_decoders (ctx p)) = Return df /\
    _get_run_param lower ts_name sf (fl_test_suites (self p)) "test suite" = Return suites /\
    _get_run_param lower dec_name df (fl_decoders (self p)) "decoders" = Return decoders /\
    p' = with_ctx (normalized lower (ctx p) suites decoders) p.
Proof.
  unfold _normalize_context, bind, lift, get_ctx, get_self, put_ctx; simpl.
  destruct (lowered lower (cx_test_suites (ctx p))) as [sf | |] eqn:E1; try discriminate.
  destruct (lowered lower (cx_decoders (ctx p))) as [df | |] eqn:E2; try discriminate.
  destruct (_get_run_param lower ts_name sf _ _) as [suites | |] eqn:E3; try discriminate.
  destruct (_get_run_param lower dec_name df _ _) as [decoders | |] eqn:E4; try discriminate.
  intros H. inversion H. exists sf, df, suites, decoders. repeat split; assumption.
Qed.

(** Normalization touches nothing but the context, and in the context
    nothing but the two selections and the vector filter. *)
Lemma normalize_frame (p : State) :
  let p' := snd (_normalize_context lower p) in
  world p' = world p /\ trace p' = trace p /\ self p' = self p /\
  load_cached p' = load_cached p /\
  cx_jobs (ctx p') = cx_jobs (ctx p) /\ cx_timeout (ctx p') = cx_timeout (ctx p) /\
  cx_failfast (ctx p') = cx_failfast (ctx p) /\ cx_quiet (ctx p') = cx_quiet (ctx p) /\
  cx_reference (ctx p') = cx_reference (ctx p) /\ cx_summary (ctx p') = cx_summary (ctx p) /\
  cx_keep_files (ctx p') = cx_keep_files (ctx p) /\
  cx_test_suite (ctx p') = cx_test_suite (ctx p).
Proof.
  unfold _normalize_context, bind, lift, get_ctx, get_self, put_ctx; simpl.
  destruct (lowered lower (cx_test_suites (ctx p))); simpl; try (repeat split; reflexivity).
  destruct (lowered lower (cx_decoders (ctx p))); simpl; try (repeat split; reflexivity).
  destruct (_get_run_param lower ts_name _ _ _); simpl; try (repeat split; reflexivity).
  destruct (_get_run_param lower dec_name _ _ _); simpl; repeat split; reflexivity.
Qed.

Lemma load_frame (p : State) :
  let p1 := snd (load p) in
  world p1 = world p /\ ctx p1 = ctx p /\
  fl_decoders (self p1) = fl_decoders (self p) /\
  fl_results_dir (self p1) = fl_results_dir (self p) /\
  fl_resources_dir (self p1) = fl_resources_dir (self p).
Proof.
  rewrite load_spec. simpl.
  destruct (load_cached p); simpl; repeat split; reflexivity.
Qed.

Lemma run_unfold (p : State) :
  run p = bind (_normalize_context lower) (fun _ => bind reference_check (fun _ => loop))
            (snd (load p)).
Proof.
  unfold run_test_suites at 1. unfold bind at 1. rewrite load_spec. reflexivity.
Qed.

Lemma truthy_lower (f : option (list string)) :
  truthy (option_map (map lower) f) = truthy f.
Proof. destruct f as [[| x l] |]; reflexivity. Qed.

(** A suite filter that matches nothing stops the run right after the
    loading. *)
Lemma run_unmatched_suites (p : State) (f : list string) (df : option (list string)) :
  cx_test_suites (ctx p) = Names (Some f) ->
  cx_decoders (ctx p) = Names df ->
  f <> [] ->
  (forall t, In t (fl_test_suites (self (snd (load p)))) -> ~ matches_ci lower (ts_name t) f) ->
  exists c', run p = (Raise (NoMatch "test suite" (map lower f)), with_ctx c' (snd (load p))).
Proof.
  intros Hs Hd Hne Hno.
  destruct (load_frame p) as [_ [Hc _]].
  rewrite run_unfold. unfold bind at 1.
  rewrite (normalize_fresh (snd (load p)) (Some f) df) by (rewrite Hc; assumption).
  simpl. rewrite get_run_param_no_match.
  - eexists. reflexivity.
  - apply truthy_some. exact Hne.
  - intros t Ht Hin. apply (Hno t Ht). apply matches_ci_In. exact Hin.
Qed.

(** What the resolver does with the two filters it checks: a filter
    with names in it that matches no entry raises, with no event after
    the loading; without filters everything is selected; a filter that
    matches selects the entries it matches. *)
Lemma resolver_checks_suites_and_decoders (p : State) (sf df : option (list string)) :
  cx_test_suites (ctx p) = Names sf ->
  cx_decoders (ctx p) = Names df ->
  let p1 := snd (load p) in
  let catalogue := fl_test_suites (self p1) in
  let registry := fl_decoders (self p1) in
  (forall f, sf = Some f -> f <> [] ->
     (forall t, In t catalogue -> ~ matches_ci lower (ts_name t) f) ->
     fst (run p) = Raise (NoMatch "test suite" (map lower f)) /\
     since p1 (snd (run p)) = [] /\ world (snd (run p)) = world p) /\
  (forall f suites, df = Some f -> f <> [] ->
     _get_run_param lower ts_name (option_map (map lower) sf) catalogue "test suite"
       = Return suites ->
     (forall d, In d registry -> ~ matches_ci lower (dec_name d) f) ->
     fst (run p) = Raise (NoMatch "decoders" (map lower f)) /\
     since p1 (snd (run p)) = [] /\ world (snd (run p)) = world p) /\
  (truthy sf = false -> truthy df = false ->
     _normalize_context lower p1
       = (Return tt, with_ctx (normalized lower (ctx p) catalogue registry) p1)) /\
  (forall p2 suites decoders,
     _normalize_context lower p1 = (Return tt, p2) ->
     cx_test_suites (ctx p2) = Objects suites ->
     cx_decoders (ctx p2) = Objects decoders ->
     (truthy sf = false -> suites = catalogue) /\
     (truthy df = false -> decoders = registry) /\
     (forall f, sf = Some f -> f <> [] ->
        forall t, In t suites <-> In t catalogue /\ matches_ci lower (ts_name t) f) /\
     (forall f, df = Some f -> f <> [] ->
        forall d, In d decoders <-> In d registry /\ matches_ci lower (dec_name d) f)).
Proof.
  intros Hs Hd p1 catalogue registry.
  destruct (load_frame p) as [Hw [Hc _]]. fold p1 in Hw, Hc.
  assert (Hs1 : cx_test_suites (ctx p1) = Names sf) by (rewrite Hc; exact Hs).
  assert (Hd1 : cx_decoders (ctx p1) = Names df) by (rewrite Hc; exact Hd).
  pose proof (normalize_fresh p1 sf df Hs1 Hd1) as Hn. simpl in Hn.
  fold catalogue registry in Hn.
  split; [| split; [| split]].
  - intros f Hf Hne Hno. subst sf.
    destruct (run_unmatched_suites p f df Hs Hd Hne Hno) as [c' Hrun]. fold p1 in Hrun.
    rewrite Hrun. simpl.
    split; [reflexivity |]. split; [apply since_refl_trace; reflexivity | exact Hw].
  - intros f suites Hf Hne Hsuites Hno. subst df.
    assert (Hrun : exists c', run p = (Raise (NoMatch "decoders" (map lower f)),
                                        with_ctx c' p1)).
    { rewrite run_unfold. fold p1. unfold bind at 1. rewrite Hn. rewrite Hsuites. simpl.
      rewrite get_run_param_no_match.
      - eexists. reflexivity.
      - apply truthy_some. exact Hne.
      - intros d Hin Hm. apply (Hno d Hin). apply matches_ci_In. exact Hm. }
    destruct Hrun as [c' Hrun]. rewrite Hrun. simpl.
    split; [reflexivity |]. split; [apply since_refl_trace; reflexivity | exact Hw].
  - intros Hts Htd. rewrite Hn.
    rewrite !get_run_param_no_filter by (rewrite truthy_lower; assumption).
    rewrite Hc. reflexivity.
  - intros p2 suites decoders Hret Hsu Hde. rewrite Hn in Hret.
    destruct (_get_run_param lower ts_name _ catalogue _) as [su | |] eqn:E1; try discriminate.
    destruct (_get_run_param lower dec_name _ registry _) as [de | |] eqn:E2; try discriminate.
    inversion Hret; subst p2. simpl in Hsu, Hde. inversion Hsu; inversion Hde; subst su de.
    split; [| split; [| split]].
    + intros Ht. rewrite get_run_param_no_filter in E1 by (rewrite truthy_lower; exact Ht).
      inversion E1. reflexivity.
    + intros Ht. rewrite get_run_param_no_filter in E2 by (rewrite truthy_lower; exact Ht).
      inversion E2. reflexivity.
    + intros f Hf Hne t. subst sf.
      apply get_run_param_filter in E1; [| apply truthy_some; exact Hne].
      destruct E1 as [E1 _]. rewrite E1, filter_In, mem_In, matches_ci_In. reflexivity.
    + intros f Hf Hne d. subst df.
      apply get_run_param_filter in E2; [| apply truthy_some; exact Hne].
      destruct E2 as [E2 _]. rewrite E2, filter_In, mem_In, matches_ci_In. reflexivity.
Qed.

(** *** Reference mode *)

Lemma reference_check_spec (p : State) (decoders : list Decoder) :
  cx_decoders (ctx p) = Objects decoders ->
  reference_check p =
    if cx_reference (ctx p) then
      if Nat.eqb (length decoders) 1 then (Return tt, emit (Print "Reference mode") p)
      else (Raise (PyException (reference_message decoders)), p)
    else (Return tt, p).
Proof.
  intros Hd. unfold reference_check, bind, get_ctx, lift, when, raise, ret, print. simpl.
  rewrite Hd. simpl.
  destruct (cx_reference (ctx p)); simpl; [| reflexivity].
  destruct decoders as [| d [| d' l]]; reflexivity.
Qed.

(** C2: in reference mode, once the filters are resolved, a selection of
    other than one decoder makes the run raise the configuration error
    whose message lists the names of the selected decoders, with no
    event after the loading and the world untouched; with exactly one
    decoder the check passes and the run goes on to the loop. *)
Theorem reference_mode_needs_exactly_one_decoder (p p2 : State) (decoders : list Decoder) :
  cx_reference (ctx p) = true ->
  _normalize_context lower (snd (load p)) = (Return tt, p2) ->
  cx_decoders (ctx p2) = Objects decoders ->
  (length decoders <> 1 ->
     fst (run p)
       = Raise (PyException ("Only one decoder can be the reference. Given: "
                             ++ join ", " (map dec_name decoders))) /\
     since (snd (load p)) (snd (run p)) = [] /\
     world (snd (run p)) = world p) /\
  (length decoders = 1 ->
     reference_check p2 = (Return tt, emit (Print "Reference mode") p2) /\
     run p = loop (emit (Print "Reference mode") p2)).
Proof.
  intros Href Hn Hd.
  pose proof (normalize_frame (snd (load p))) as Hf. rewrite Hn in Hf. simpl in Hf.
  destruct Hf as [Hw [Ht [_ [_ [_ [_ [_ [_ [Hr _]]]]]]]]].
  destruct (load_frame p) as [Hw1 [Hc1 _]].
  assert (Href2 : cx_reference (ctx p2) = true) by (rewrite Hr, Hc1; exact Href).
  pose proof (reference_check_spec p2 decoders Hd) as Hchk. rewrite Href2 in Hchk.
  split.
  - intros Hlen. apply Nat.eqb_neq in Hlen. rewrite Hlen in Hchk.
    assert (Hrun : run p = (Raise (PyException (reference_message decoders)), p2)).
    { rewrite run_unfold. unfold bind at 1. rewrite Hn. unfold bind at 1. rewrite Hchk.
      reflexivity. }
    rewrite Hrun. simpl. split; [reflexivity |].
    split; [apply since_refl_trace; exact Ht | rewrite Hw; exact Hw1].
  - intros Hlen. apply Nat.eqb_eq in Hlen. rewrite Hlen in Hchk.
    split; [exact Hchk |].
    rewrite run_unfold. unfold bind at 1. rewrite Hn. unfold bind at 1. rewrite Hchk.
    reflexivity.
Qed.

(** *** The summary *)

Lemma str_app_assoc (a b c : string) : ((a ++ b) ++ c)%string = (a ++ b ++ c)%string.
Proof. induction a as [| x a IH]; simpl; [reflexivity | rewrite IH; reflexivity]. Qed.

Lemma str_app_nil_r (a : string) : (a ++ "")%string = a.
Proof. induction a as [| x a IH]; simpl; [reflexivity | rewrite IH; reflexivity]. Qed.

Lemma fold_left_append {A : Type} (f : A -> string) (l : list A) (init : string) :
  fold_left (fun out x => (out ++ f x)%string) l init = (init ++ cat (map f l))%string.
Proof.
  revert init. induction l as [| x l IH]; intros init; simpl.
  - rewrite str_app_nil_r. reflexivity.
  - rewrite IH, str_app_assoc. reflexivity.
Qed.

Lemma dict_get_key {V : Type} (d : list (string * V)) (k : string) :
  In k (dict_keys d) -> exists v, dict_get d k = Some v.
Proof.
  induction d as [| [k' v'] d IH]; simpl; [intros [] |].
  intros [E | Hin].
  - subst k'. rewrite String.eqb_refl. exists v'. reflexivity.
  - destruct (String.eqb k' k); [exists v'; reflexivity | apply IH; exact Hin].
Qed.

Lemma well_keyed_names (d : list (string * TestVector)) :
  well_keyed d -> map tv_name (dict_values d) = dict_keys d.
Proof.
  unfold well_keyed, dict_values, dict_keys. induction 1 as [| kv d Hkv _ IH]; simpl.
  - reflexivity.
  - rewrite Hkv, IH. reflexivity.
Qed.

Lemma summary_cells_spec (name : string) (test_suites : list TestSuite) (output : string) :
  (forall ts, In ts test_suites -> In name (dict_keys (ts_test_vectors ts))) ->
  summary_cells name test_suites output
  = Return (output ++ cat (map (fun ts => render_cell (vector_passes ts name)) test_suites))%string.
Proof.
  revert output. induction test_suites as [| ts rest IH]; intros output Hkeys; simpl.
  - rewrite str_app_nil_r. reflexivity.
  - destruct (dict_get_key (ts_test_vectors ts) name) as [tv Htv].
    { apply Hkeys. left. reflexivity. }
    unfold vector_passes at 1. rewrite Htv.
    rewrite IH by (intros ts' Hin; apply Hkeys; right; exact Hin).
    rewrite str_app_assoc. reflexivity.
Qed.

Lemma summary_rows_spec (vectors : list TestVector) (test_suites : list TestSuite)
    (output : string) :
  (forall tv ts, In tv vectors -> In ts test_suites ->
     In (tv_name tv) (dict_keys (ts_test_vectors ts))) ->
  summary_rows vectors test_suites output
  = Return (output ++
            cat (map (fun name =>
                        render_row (name, map (fun ts => vector_passes ts name) test_suites))
                     (map tv_name vectors)))%string.
Proof.
  revert output. induction vectors as [| tv rest IH]; intros output Hkeys; simpl.
  - rewrite str_app_nil_r. reflexivity.
  - rewrite summary_cells_spec by (intros ts Hin; apply Hkeys; [left; reflexivity | exact Hin]).
    rewrite IH by (intros tv' ts Hin1 Hin2; apply Hkeys; [right; exact Hin1 | exact Hin2]).
    unfold render_row. simpl. rewrite !map_map, !str_app_assoc. simpl.
    rewrite ?str_app_assoc. reflexivity.
Qed.

Lemma fold_summary_header (results : Results) (init : string) :
  fold_left summary_header results init
  = (init ++ cat (map (fun r => (dec_name (fst r) ++ "|")%string) results))%string.
Proof. apply (fold_left_append (fun r => (dec_name (fst r) ++ "|")%string)). Qed.

Lemma fold_summary_total (test_suites : list TestSuite) (init : string) :
  fold_left summary_total test_suites init
  = (init ++ cat (map (fun ts => (of_nat (ts_test_vectors_success ts) ++ "/"
                                  ++ of_nat (length (ts_test_vectors ts)) ++ "|")%string)
                      test_suites))%string.
Proof.
  apply (fold_left_append
           (fun ts => (of_nat (ts_test_vectors_success ts) ++ "/"
                       ++ of_nat (length (ts_test_vectors ts)) ++ "|")%string)).
Qed.

(** C6: for the results of one suite with one or more decoders that
    share the vector names of the first result, the summary is the
    rendering of the table with one row for each vector, one pass or
    fail cell for each decoder in a row, and a totals row giving for
    each decoder its number of vectors without errors over its number of
    vectors. *)
Theorem summary_renders_rows_and_totals (decoder : Decoder) (first : TestSuite)
    (rest : Results) (p : State) :
  let results := (decoder, first) :: rest in
  (forall r, In r rest ->
     dict_keys (ts_test_vectors (snd r)) = dict_keys (ts_test_vectors first)) ->
  well_keyed (ts_test_vectors first) ->
  (forall r, In r results -> count_derived (snd r)) ->
  summary_output results = Return (render_table (spec_table results)) /\
  _generate_summary results p
    = (Return tt,
       emit (Print (render_table (spec_table results)))
            (emit (Print (summary_heading results first)) p)) /\
  length (tb_rows (spec_table results)) = length (ts_test_vectors first) /\
  (forall row, In row (tb_rows (spec_table results)) ->
     length (snd row) = length results) /\
  length (tb_totals (spec_table results)) = length results.
Proof.
  intros results Hkeys Hwk Hcount.
  assert (Hout : summary_output results = Return (render_table (spec_table results))).
  { unfold summary_output, results.
    rewrite fold_summary_header.
    rewrite summary_rows_spec.
    - rewrite fold_summary_total. f_equal.
      unfold render_table, spec_table. cbn [tb_decoders tb_rows tb_totals].
      rewrite well_keyed_names by exact Hwk.
      rewrite !length_map.
      replace (map (fun name => render_row (name, map (fun ts => vector_passes ts name)
                                                      (map snd ((decoder, first) :: rest))))
                   (dict_keys (ts_test_vectors first)))
        with (map render_row
                (map (fun name => (name, map (fun r => vector_passes (snd r) name)
                                             ((decoder, first) :: rest)))
                     (dict_keys (ts_test_vectors first)))).
      2:{ rewrite map_map. apply map_ext. intros name. rewrite map_map. reflexivity. }
      replace (map (fun ts => (of_nat (ts_test_vectors_success ts) ++ "/"
                               ++ of_nat (length (ts_test_vectors ts)) ++ "|")%string)
                   (map snd ((decoder, first) :: rest)))
        with (map render_total
                (map (fun r => (passed_count (snd r), length (ts_test_vectors (snd r))))
                     ((decoder, first) :: rest))).
      2:{ rewrite !map_map. apply map_ext_in. intros r Hin.
          unfold render_total. cbn [fst snd]. rewrite (Hcount r Hin). reflexivity. }
      rewrite (map_map (fun r => dec_name (fst r)) (fun n => (n ++ "|")%string)).
      rewrite !str_app_assoc. reflexivity.
    - intros tv ts Htv Hts.
      assert (Hname : In (tv_name tv) (dict_keys (ts_test_vectors first))).
      { rewrite <- (well_keyed_names _ Hwk). apply in_map. exact Htv. }
      apply in_map_iff in Hts. destruct Hts as [r [Er Hr]]. subst ts.
      destruct Hr as [Er | Hr].
      + subst r. exact Hname.
      + rewrite (Hkeys r Hr). exact Hname. }
  split; [exact Hout |].
  split.
  { unfold results in Hout |- *. unfold _generate_summary, bind, print at 1, lift.
    rewrite Hout. reflexivity. }
  split.
  { unfold spec_table, results. cbn [tb_rows]. rewrite length_map.
    unfold dict_keys. apply length_map. }
  split.
  { unfold spec_table, results. cbn [tb_rows]. intros row Hrow.
    apply in_map_iff in Hrow. destruct Hrow as [name [Erow _]]. subst row.
    cbn [snd]. apply length_map. }
  unfold spec_table. cbn [tb_totals]. apply length_map.
Qed.

(** *** The run loop *)

(** The rule for [for x in l]: [I done] holds of the locals and the
    process once the items [done] have been handled. *)
Lemma for_each_rule {A B : Type} (I : list A -> B -> State -> Prop)
    (E : Outcome B -> State -> Prop) (l : list A)
    (body : B -> A -> State -> Outcome B * State) (acc : B) (q : State) :
  I [] acc q ->
  (forall done x rest acc q,
     l = done ++ x :: rest -> I done acc q -> post (I (done ++ [x])) E (body acc x q)) ->
  post (I l) E (for_each l body acc q).
Proof.
  revert I acc q. induction l as [| x l IH]; intros I acc q H0 Hstep.
  - exact H0.
  - simpl. unfold bind.
    pose proof (Hstep [] x l acc q eq_refl H0) as Hx.
    destruct (body acc x q) as [[acc' | e | code] q']; unfold post in Hx |- *; simpl in *;
      try exact Hx.
    apply (IH (fun done => I (x :: done))); [exact Hx |].
    intros done y rest acc0 q0 El Hd.
    apply (Hstep (x :: done) y rest acc0 q0); [rewrite El; reflexivity | exact Hd].
Qed.

Lemma all_vectors_pass_spec (vectors : list TestVector) :
  all_vectors_pass vectors = negb (existsb (fun tv => nonempty (tv_errors tv)) vectors).
Proof.
  induction vectors as [| tv rest IH]; simpl; [reflexivity |].
  destruct (nonempty (tv_errors tv)); simpl; [reflexivity | exact IH].
Qed.

Lemma run_decoder_spec (results : Results) (error : bool) (decoder : Decoder)
    (q : State) (suite : TestSuite) :
  cx_test_suite (ctx q) = Some suite ->
  run_decoder suite_run (results, error) decoder q =
    if codec_match suite decoder then
      let q' := after_suite_run suite_run suite decoder q in
      match fst (suite_run suite (suite_context_for q decoder) (world q)) with
      | None => (Return (results, error), q')
      | Some res =>
          if has_errors res then
            if cx_failfast (ctx q) then (SysExit 1%Z, q')
            else (Return (results ++ [(decoder, res)], true), q')
          else (Return (results ++ [(decoder, res)], error), q')
      end
    else (Return (results, error), q).
Proof.
  intros Hsuite. unfold run_decoder, bind, get_ctx, get_self, codec_match. simpl.
  rewrite Hsuite.
  destruct (Codec_eqb (dec_codec decoder) (ts_codec suite)); simpl; [| reflexivity].
  unfold run_suite_with, after_suite_run, suite_context_for.
  destruct (suite_run suite _ (world q)) as [[res |] w']; simpl; [| reflexivity].
  rewrite all_vectors_pass_spec. fold (has_errors res).
  destruct (has_errors res); simpl; [| reflexivity].
  destruct (cx_failfast (ctx q)); reflexivity.
Qed.

Lemma Codec_eqb_eq (a b : Codec) : Codec_eqb a b = true <-> a = b.
Proof. destruct a, b; simpl; split; congruence. Qed.

Lemma after_suite_run_frame (suite : TestSuite) (decoder : Decoder) (q : State) :
  let q' := after_suite_run suite_run suite decoder q in
  ctx q' = ctx q /\ self q' = self q /\ load_cached q' = load_cached q /\
  trace q' = trace q ++ [SuiteRun suite (suite_context_for q decoder)
                           (fst (suite_run suite (suite_context_for q decoder) (world q)))].
Proof. repeat split; reflexivity. Qed.

Lemma quiet_codec_ok (t : list Event) : quiet t -> Forall codec_ok t.
Proof.
  intros H. apply Forall_forall. intros e He.
  destruct (H e He) as [line E]. subst e. exact I.
Qed.

Lemma quiet_clean (t : list Event) : quiet t -> clean t.
Proof. intros H e He. destruct (H e He) as [line E]. subst e. reflexivity. Qed.

Lemma quiet_pairs (t : list Event) : quiet t -> pairs_of t = [].
Proof.
  induction t as [| e t IH]; intros H; [reflexivity |].
  destruct (H e (or_introl eq_refl)) as [line E]. subst e. simpl.
  apply IH. intros e He. apply H. right. exact He.
Qed.

Lemma quiet_no_failure (t : list Event) : quiet t -> existsb failed_run t = false.
Proof.
  induction t as [| e t IH]; intros H; [reflexivity |].
  destruct (H e (or_introl eq_refl)) as [line E]. subst e. simpl.
  apply IH. intros e He. apply H. right. exact He.
Qed.

Lemma quiet_app (t1 t2 : list Event) : quiet t1 -> quiet t2 -> quiet (t1 ++ t2).
Proof.
  intros H1 H2 e He. apply in_app_or in He. destruct He; [apply H1 | apply H2]; assumption.
Qed.

Lemma quiet_nil : quiet [].
Proof. intros e []. Qed.

Lemma clean_app (t1 t2 : list Event) : clean t1 -> clean t2 -> clean (t1 ++ t2).
Proof.
  intros H1 H2 e He. apply in_app_or in He. destruct He; [apply H1 | apply H2]; assumption.
Qed.

Lemma clean_single (e : Event) : failed_run e = false -> clean [e].
Proof. intros H e' [E | []]. subst e'. exact H. Qed.

Lemma pairs_of_app (t1 t2 : list Event) : pairs_of (t1 ++ t2) = pairs_of t1 ++ pairs_of t2.
Proof.
  induction t1 as [| e t1 IH]; simpl; [reflexivity |].
  destruct e; simpl; rewrite IH; reflexivity.
Qed.

Lemma summary_cells_no_exit (name : string) (tss : list TestSuite) (output : string)
    (code : Z) :
  summary_cells name tss output <> SysExit code.
Proof.
  revert output. induction tss as [| ts tss IH]; intros output; simpl; [discriminate |].
  destruct (dict_get _ _); [apply IH | discriminate].
Qed.

Lemma summary_rows_no_exit (vectors : list TestVector) (tss : list TestSuite)
    (output : string) (code : Z) :
  summary_rows vectors tss output <> SysExit code.
Proof.
  revert output. induction vectors as [| tv vs IH]; intros output; simpl; [discriminate |].
  destruct (summary_cells (tv_name tv) tss _) as [o | e | c] eqn:E;
    [apply IH | discriminate |].
  exfalso. exact (summary_cells_no_exit _ _ _ _ E).
Qed.

Lemma summary_output_no_exit (results : Results) (code : Z) :
  summary_output results <> SysExit code.
Proof.
  unfold summary_output. destruct results as [| [decoder first] rest]; [discriminate |].
  destruct (summary_rows _ _ _) as [o | e | c] eqn:E; try discriminate.
  exfalso. exact (summary_rows_no_exit _ _ _ _ E).
Qed.

(** The summary only prints: it returns or raises, and changes nothing
    else. *)
Lemma generate_summary_cases (results : Results) (q : State) :
  let r := _generate_summary results q in
  ctx (snd r) = ctx q /\ self (snd r) = self q /\ load_cached (snd r) = load_cached q /\
  (exists lines, trace (snd r) = trace q ++ lines /\ quiet lines) /\
  (fst r = Return tt \/ exists e, fst r = Raise e) /\
  (forall out, summary_output results = Return out -> fst r = Return tt).
Proof.
  unfold _generate_summary. destruct results as [| [decoder first] rest].
  - simpl. repeat split; try reflexivity.
    + exists []. split; [rewrite app_nil_r; reflexivity | apply quiet_nil].
    + right. exists IndexError. reflexivity.
    + intros out H. discriminate H.
  - unfold bind, print at 1, lift.
    destruct (summary_output ((decoder, first) :: rest)) as [out | e | code] eqn:E;
      simpl; repeat split; try reflexivity.
    + eexists. split; [rewrite <- app_assoc; reflexivity |].
      intros e [He | [He | []]]; subst e; eexists; reflexivity.
    + left. reflexivity.
    + eexists. split; [reflexivity |].
      intros e' [He | []]; subst e'; eexists; reflexivity.
    + right. exists e. reflexivity.
    + intros out H. discriminate H.
    + eexists. split; [reflexivity |].
      intros e' [He | []]; subst e'; eexists; reflexivity.
    + exfalso. exact (summary_output_no_exit _ _ E).
    + intros out H. discriminate H.
Qed.

Lemma context_for_decoder (q : State) (decoder : Decoder) :
  sc_decoder (suite_context_for q decoder) = decoder.
Proof. reflexivity. Qed.

Lemma failed_run_none (suite : TestSuite) (c : SuiteContext) :
  failed_run (SuiteRun suite c None) = false.
Proof. reflexivity. Qed.

(** The loop over the decoders, whatever the flags. *)
Lemma inner_loop_general (q0 : State) (suite : TestSuite) (decoders : list Decoder)
    (results0 : Results) (error0 : bool) :
  cx_test_suite (ctx q0) = Some suite ->
  post (inner_inv q0 error0) (inner_stop q0)
       (for_each decoders (run_decoder suite_run) (results0, error0) q0).
Proof.
  intros Hsuite.
  apply (for_each_rule (fun _ => inner_inv q0 error0) (inner_stop q0)).
  - split; [repeat split; reflexivity |].
    exists []. split; [rewrite app_nil_r; reflexivity |].
    split; [constructor |]. intros _. split; [intros e [] | reflexivity].
  - intros done decoder rest [results error] q _ [[Hc [Hs Hl]] [new [Ht [Hok Hff]]]].
    rewrite (run_decoder_spec results error decoder q suite) by (rewrite Hc; exact Hsuite).
    destruct (codec_match suite decoder) eqn:Hm.
    2:{ unfold post; simpl. split; [repeat split; assumption |].
        exists new. repeat split; try assumption; apply Hff; assumption. }
    destruct (after_suite_run_frame suite decoder q) as [Hc' [Hs' [Hl' Ht']]].
    set (q' := after_suite_run suite_run suite decoder q) in *.
    set (ev := SuiteRun suite (suite_context_for q decoder)
                 (fst (suite_run suite (suite_context_for q decoder) (world q)))) in *.
    assert (Hframe : frame_inner q0 q').
    { repeat split; [rewrite Hc' | rewrite Hs' | rewrite Hl']; assumption. }
    assert (Hev : codec_ok ev).
    { unfold ev, codec_ok. rewrite context_for_decoder.
      apply Codec_eqb_eq. exact Hm. }
    assert (Htr : trace q' = trace q0 ++ new ++ [ev]).
    { rewrite Ht', Ht, app_assoc. reflexivity. }
    assert (Hok' : Forall codec_ok (new ++ [ev])).
    { apply Forall_app. split; [exact Hok | constructor; [exact Hev | constructor]]. }
    simpl.
    destruct (fst (suite_run suite (suite_context_for q decoder) (world q)))
      as [res |] eqn:Hres; fold ev.
    + destruct (has_errors res) eqn:Herr.
      * destruct (cx_failfast (ctx q)) eqn:Hfast.
        -- unfold post; simpl. split; [exact Hframe |].
           rewrite Hc in Hfast.
           exists new, ev. repeat split; try assumption.
           apply Hff. exact Hfast.
        -- unfold post; simpl. split; [exact Hframe |].
           exists (new ++ [ev]). split; [exact Htr |]. split; [exact Hok' |].
           intros Hfast'. rewrite Hc in Hfast. congruence.
      * unfold post; simpl. split; [exact Hframe |].
        exists (new ++ [ev]). split; [exact Htr |]. split; [exact Hok' |].
        intros Hfast. destruct (Hff Hfast) as [Hclean Herror].
        split; [| exact Herror].
        apply clean_app; [exact Hclean | apply clean_single; exact Herr].
    + unfold post; simpl. split; [exact Hframe |].
      exists (new ++ [ev]). split; [exact Htr |]. split; [exact Hok' |].
      intros Hfast. destruct (Hff Hfast) as [Hclean Herror].
      split; [| exact Herror].
      apply clean_app; [exact Hclean | apply clean_single; reflexivity].
Qed.

Lemma summary_step (b : bool) (results : Results) (q : State) :
  let r := when b (_generate_summary results) q in
  ctx (snd r) = ctx q /\ self (snd r) = self q /\ load_cached (snd r) = load_cached q /\
  (exists lines, trace (snd r) = trace q ++ lines /\ quiet lines) /\
  (fst r = Return tt \/ exists e, fst r = Raise e) /\
  (b = false \/ (exists out, summary_output results = Return out) -> fst r = Return tt).
Proof.
  destruct b; simpl.
  - destruct (generate_summary_cases results q) as [Hc [Hs [Hl [Ht [Ho Hret]]]]].
    repeat split; try assumption.
    intros [H | [out H]]; [discriminate | exact (Hret out H)].
  - repeat split; try reflexivity.
    + exists []. split; [rewrite app_nil_r; reflexivity | apply quiet_nil].
    + left. reflexivity.
Qed.

Lemma run_suite_unfold (error : bool) (suite : TestSuite) (q : State)
    (decoders : list Decoder) :
  cx_decoders (ctx q) = Objects decoders ->
  run_suite suite_run error suite q =
    let q1 := with_ctx (set_test_suite (ctx q) (Some suite)) q in
    match for_each decoders (run_decoder suite_run) ([], error) q1 with
    | (Return acc, q2) =>
        match when (cx_summary (ctx q2) && nonempty (fst acc))
                   (_generate_summary (fst acc)) q2 with
        | (Return _, q3) => (Return (snd acc), q3)
        | (Raise e, q3) => (Raise e, q3)
        | (SysExit code, q3) => (SysExit code, q3)
        end
    | (Raise e, q2) => (Raise e, q2)
    | (SysExit code, q2) => (SysExit code, q2)
    end.
Proof.
  intros Hd. unfold run_suite, bind, get_ctx, put_ctx, lift. simpl.
  rewrite Hd. simpl.
  destruct (for_each decoders _ _ _) as [[acc | e | code] q2]; reflexivity.
Qed.

Lemma set_test_suite_twice (c : Context) (a b : option TestSuite) :
  set_test_suite (set_test_suite c a) b = set_test_suite c b.
Proof. reflexivity. Qed.

Lemma same_settings_refl (c : Context) : same_settings c c.
Proof. exists (cx_test_suite c). destruct c; reflexivity. Qed.

Lemma same_settings_fields (c c' : Context) :
  same_settings c c' ->
  cx_jobs c' = cx_jobs c /\ cx_timeout c' = cx_timeout c /\
  cx_test_suites c' = cx_test_suites c /\ cx_decoders c' = cx_decoders c /\
  cx_test_vectors c' = cx_test_vectors c /\ cx_failfast c' = cx_failfast c /\
  cx_quiet c' = cx_quiet c /\ cx_reference c' = cx_reference c /\
  cx_summary c' = cx_summary c /\ cx_keep_files c' = cx_keep_files c.
Proof. intros [cur E]. subst c'. repeat split; reflexivity. Qed.

Lemma last_map_some (done : list TestSuite) (x : TestSuite) (d : option TestSuite) :
  last (map Some (done ++ [x])) d = Some x.
Proof. rewrite map_app. simpl. apply last_last. Qed.

(** The loop over the suites, whatever the flags. *)
Lemma outer_loop_general (q0 : State) (suites : list TestSuite) (decoders : list Decoder)
    (error0 : bool) :
  cx_decoders (ctx q0) = Objects decoders ->
  post (outer_inv q0 error0 suites) (outer_stop q0)
       (for_each suites (run_suite suite_run) error0 q0).
Proof.
  intros Hd.
  apply (for_each_rule (outer_inv q0 error0) (outer_stop q0)).
  - split; [repeat split; try reflexivity; apply same_settings_refl |].
    split; [reflexivity |].
    exists []. split; [rewrite app_nil_r; reflexivity |].
    split; [constructor |]. intros _. split; [intros e [] | reflexivity].
  - intros done suite rest error q _ [[Hset [Hs Hl]] [_ [new [Ht [Hok Hff]]]]].
    destruct Hset as [cur Hcur].
    assert (Hdq : cx_decoders (ctx q) = Objects decoders) by (rewrite Hcur; exact Hd).
    rewrite (run_suite_unfold error suite q decoders Hdq). cbv zeta.
    set (q1 := with_ctx (set_test_suite (ctx q) (Some suite)) q).
    assert (Hc1 : ctx q1 = set_test_suite (ctx q0) (Some suite)).
    { unfold q1. simpl. rewrite Hcur. reflexivity. }
    assert (Hfast1 : cx_failfast (ctx q1) = cx_failfast (ctx q0)) by (rewrite Hc1; reflexivity).
    pose proof (inner_loop_general q1 suite decoders [] error
                  ltac:(rewrite Hc1; reflexivity)) as Hin.
    destruct (for_each decoders _ _ q1) as [[acc | e | code] q2];
      unfold post in Hin; simpl in Hin.
    + destruct Hin as [[Hc2 [Hs2 Hl2]] [new1 [Ht2 [Hok1 Hff1]]]].
      destruct (summary_step (cx_summary (ctx q2) && nonempty (fst acc)) (fst acc) q2)
        as [Hc3 [Hs3 [Hl3 [[lines [Ht3 Hq]] [Ho _]]]]].
      destruct (when _ _ q2) as [o3 q3]. simpl in Hc3, Hs3, Hl3, Ht3, Ho.
      assert (Hframe : frame_outer q0 q3).
      { split; [exists (Some suite); rewrite Hc3, Hc2; exact Hc1 |].
        split; [rewrite Hs3, Hs2; exact Hs | rewrite Hl3, Hl2; exact Hl]. }
      assert (Htr : trace q3 = trace q0 ++ (new ++ new1 ++ lines)).
      { rewrite Ht3, Ht2. unfold q1. simpl. rewrite Ht, <- !app_assoc. reflexivity. }
      assert (Hok3 : Forall codec_ok (new ++ new1 ++ lines)).
      { apply Forall_app. split; [exact Hok |]. apply Forall_app.
        split; [exact Hok1 | apply quiet_codec_ok; exact Hq]. }
      assert (Hclean : cx_failfast (ctx q0) = true ->
                       clean (new ++ new1 ++ lines) /\ snd acc = error0).
      { intros Hfast. destruct (Hff Hfast) as [Hcl He].
        rewrite <- Hfast1 in Hfast. destruct (Hff1 Hfast) as [Hcl1 He1].
        split; [| rewrite He1; exact He].
        apply clean_app; [exact Hcl |].
        apply clean_app; [exact Hcl1 | apply quiet_clean; exact Hq]. }
      destruct Ho as [Ho | [e Ho]]; subst o3; unfold post; simpl.
      * split; [exact Hframe |].
        split; [rewrite Hc3, Hc2, Hc1; simpl; symmetry; apply last_map_some |].
        exists (new ++ new1 ++ lines). repeat split; try assumption; apply Hclean; assumption.
      * split; [exact Hframe |].
        exists (new ++ new1 ++ lines). split; [exact Htr |]. split; [exact Hok3 |].
        intros Hfast. left. split; [apply Hclean; exact Hfast | exists e; reflexivity].
    + destruct Hin as [_ [t' [ev [_ [_ [_ [_ [Habs _]]]]]]]]. discriminate Habs.
    + destruct Hin as [[Hc2 [Hs2 Hl2]] [t' [ev [Ht2 [Hok1 [Hcl1 [Hev [Ho Hfast]]]]]]]].
      inversion Ho; subst code. unfold post; simpl.
      split.
      { split; [exists (Some suite); rewrite Hc2; exact Hc1 |].
        split; [rewrite Hs2; exact Hs | rewrite Hl2; exact Hl]. }
      exists (new ++ t' ++ [ev]).
      split; [rewrite Ht2; unfold q1; simpl; rewrite Ht, <- !app_assoc; reflexivity |].
      split; [apply Forall_app; split; assumption |].
      intros Hfast0. right. exists (new ++ t'), ev.
      split; [rewrite <- app_assoc; reflexivity |].
      split; [apply clean_app; [apply Hff; exact Hfast0 | exact Hcl1] |].
      split; [exact Hev | reflexivity].
Qed.

(** The whole loop with its exit status, whatever the flags. *)
Lemma run_loop_general (q0 : State) (suites : list TestSuite) (decoders : list Decoder) :
  cx_test_suites (ctx q0) = Objects suites ->
  cx_decoders (ctx q0) = Objects decoders ->
  let r := loop q0 in
  frame_outer q0 (snd r) /\
  (exists new, trace (snd r) = trace q0 ++ new /\ Forall codec_ok new /\
     (cx_failfast (ctx q0) = true ->
        (clean new /\ fst r = Return tt) \/ failfast_stop new (fst r))) /\
  (fst r = Return tt ->
     cx_test_suite (ctx (snd r)) = last (map Some suites) (cx_test_suite (ctx q0))).
Proof.
  intros Hs Hd. unfold run_loop, bind, get_ctx, lift. simpl. rewrite Hs. simpl.
  pose proof (outer_loop_general q0 suites decoders false Hd) as Hout.
  destruct (for_each suites _ false q0) as [[error | e | code] q']; unfold post in Hout;
    simpl in Hout.
  - destruct Hout as [Hframe [Hlast [new [Ht [Hok Hff]]]]].
    destruct error; simpl.
    + split; [exact Hframe |]. split; [| discriminate].
      exists new. split; [exact Ht |]. split; [exact Hok |].
      intros Hfast. destruct (Hff Hfast) as [_ Habs]. discriminate Habs.
    + split; [exact Hframe |]. split; [| intros _; exact Hlast].
      exists new. split; [exact Ht |]. split; [exact Hok |].
      intros Hfast. left. split; [apply Hff; exact Hfast | reflexivity].
  - destruct Hout as [Hframe [new [Ht [Hok Hff]]]].
    split; [exact Hframe |]. split; [| discriminate].
    exists new. split; [exact Ht |]. split; [exact Hok |].
    intros Hfast. right. destruct (Hff Hfast) as [[Hcl [e' He']] | [t' [ev [E [Hcl [Hev Ho]]]]]].
    + left. split; [exact Hcl | exists e'; inversion He'; reflexivity].
    + discriminate Ho.
  - destruct Hout as [Hframe [new [Ht [Hok Hff]]]].
    split; [exact Hframe |]. split; [| discriminate].
    exists new. split; [exact Ht |]. split; [exact Hok |].
    intros Hfast. right. destruct (Hff Hfast) as [[Hcl [e' He']] | [t' [ev [E [Hcl [Hev Ho]]]]]].
    + discriminate He'.
    + right. exists t', ev. inversion Ho. repeat split; assumption.
Qed.

Lemma load_trace (p : State) :
  exists lines, trace (snd (load p)) = trace p ++ lines /\ quiet lines.
Proof.
  rewrite load_spec. simpl. destruct (load_cached p).
  - exists []. split; [rewrite app_nil_r; reflexivity | apply quiet_nil].
  - eexists. split; [reflexivity |].
    intros e He. apply in_flat_map in He. destruct He as [d [_ He]].
    unfold definition_events, parse_error in He.
    apply in_app_or in He. destruct He as [He | He].
    + destruct (fl_verbose (self p)); [| destruct He].
      destruct He as [He | []]. subst e. eexists. reflexivity.
    + destruct (parse_definition _ _ _ d); [destruct He |].
      destruct He as [He | []]. subst e. eexists. reflexivity.
Qed.

Lemma normalized_flags (c : Context) (suites : list TestSuite) (decoders : list Decoder) :
  same_flags c (normalized lower c suites decoders).
Proof. repeat split; reflexivity. Qed.

Lemma same_settings_flags (c c' : Context) : same_settings c c' -> same_flags c c'.
Proof. intros [cur E]. subst c'. repeat split; reflexivity. Qed.

Lemma same_flags_trans (a b c : Context) : same_flags a b -> same_flags b c -> same_flags a c.
Proof.
  unfold same_flags. intros [H1 [H2 [H3 [H4 [H5 [H6 H7]]]]]] [G1 [G2 [G3 [G4 [G5 [G6 G7]]]]]].
  repeat split; congruence.
Qed.

(** A run is a configuration error right after the loading, or the loop
    started from the normalized context. *)
Lemma run_shape (p : State) :
  let p1 := snd (load p) in
  (exists e q, run p = (Raise e, q) /\ trace q = trace p1 /\ world q = world p1 /\
     same_flags (ctx p) (ctx q)) \/
  (exists p2 q suites decoders,
     _normalize_context lower p1 = (Return tt, p2) /\
     _get_run_param lower ts_name
       match lowered lower (cx_test_suites (ctx p)) with Return f => f | _ => None end
       (fl_test_suites (self p1)) "test suite" = Return suites /\
     _get_run_param lower dec_name
       match lowered lower (cx_decoders (ctx p)) with Return f => f | _ => None end
       (fl_decoders (self p)) "decoders" = Return decoders /\
     ctx q = normalized lower (ctx p) suites decoders /\
     self q = self p1 /\ world q = world p1 /\ load_cached q = load_cached p1 /\
     (exists lines, trace q = trace p1 ++ lines /\ quiet lines) /\
     (cx_reference (ctx p) = true -> length decoders = 1) /\
     run p = loop q).
Proof.
  intros p1. destruct (load_frame p) as [Hw [Hc [Hreg _]]]. fold p1 in Hw, Hc, Hreg.
  pose proof (run_unfold p) as Hrun. fold p1 in Hrun. unfold bind at 1 in Hrun.
  pose proof (normalize_frame p1) as Hf. cbv zeta in Hf.
  destruct (_normalize_context lower p1) as [[[] | e | code] p2] eqn:En; simpl in Hf;
    destruct Hf as [Hw2 [Ht2 [Hs2 [Hl2 [F1 [F2 [F3 [F4 [F5 [F6 [F7 _]]]]]]]]]]];
    rewrite Hrun; clear Hrun.
  - destruct (normalize_return p1 p2 En) as [sf [df [suites [decoders [E1 [E2 [E3 [E4 Ep2]]]]]]]].
    assert (Hc2 : ctx p2 = normalized lower (ctx p) suites decoders).
    { rewrite Ep2. simpl. rewrite Hc. reflexivity. }
    assert (Hd2 : cx_decoders (ctx p2) = Objects decoders) by (rewrite Hc2; reflexivity).
    assert (Hb : bind reference_check (fun _ => loop) p2
                 = match reference_check p2 with
                   | (Return _, p') => loop p'
                   | (Raise e, p') => (Raise e, p')
                   | (SysExit code, p') => (SysExit code, p')
                   end) by reflexivity.
    rewrite Hb, (reference_check_spec p2 decoders Hd2). clear Hb.
    assert (Href : cx_reference (ctx p2) = cx_reference (ctx p)) by (rewrite Hc2; reflexivity).
    rewrite Href.
    assert (Hsu : _get_run_param lower ts_name
                    match lowered lower (cx_test_suites (ctx p)) with Return f => f | _ => None end
                    (fl_test_suites (self p1)) "test suite" = Return suites).
    { rewrite <- Hc, E1. exact E3. }
    assert (Hdec : _get_run_param lower dec_name
                     match lowered lower (cx_decoders (ctx p)) with
                     | Return f => f | _ => None end
                     (fl_decoders (self p)) "decoders" = Return decoders).
    { rewrite <- Hc, E2, <- Hreg. exact E4. }
    destruct (cx_reference (ctx p)) eqn:Er.
    + destruct (Nat.eqb (length decoders) 1) eqn:El.
      * right. exists p2, (emit (Print "Reference mode") p2), suites, decoders.
        split; [reflexivity |]. split; [exact Hsu |]. split; [exact Hdec |].
        split; [exact Hc2 |].
        split; [exact Hs2 |]. split; [exact Hw2 |]. split; [exact Hl2 |].
        split.
        { exists [Print "Reference mode"]. split; [simpl; rewrite Ht2; reflexivity |].
          intros e [He | []]. subst e. eexists. reflexivity. }
        split; [intros _; apply Nat.eqb_eq; exact El | reflexivity].
      * left. exists (PyException (reference_message decoders)), p2.
        split; [reflexivity |]. split; [exact Ht2 |]. split; [exact Hw2 |].
        rewrite Hc2. apply normalized_flags.
    + right. exists p2, p2, suites, decoders.
      split; [reflexivity |]. split; [exact Hsu |]. split; [exact Hdec |].
      split; [exact Hc2 |].
      split; [exact Hs2 |]. split; [exact Hw2 |]. split; [exact Hl2 |].
      split; [exists []; split; [rewrite app_nil_r; exact Ht2 | apply quiet_nil] |].
      split; [discriminate | reflexivity].
  - left. exists e, p2. split; [reflexivity |]. split; [exact Ht2 |]. split; [exact Hw2 |].
    rewrite <- Hc. repeat split; assumption.
  - exfalso. clear - En. revert En.
    unfold _normalize_context, bind, lift, get_ctx, get_self, put_ctx; simpl.
    destruct (lowered lower (cx_test_suites (ctx p1))) as [sf | |] eqn:E1; try discriminate;
      [| intros H; inversion H; subst; exact (lowered_no_exit _ _ E1)].
    destruct (lowered lower (cx_decoders (ctx p1))) as [df | |] eqn:E2; try discriminate;
      [| intros H; inversion H; subst; exact (lowered_no_exit _ _ E2)].
    destruct (_get_run_param lower ts_name sf _ _) as [su | |] eqn:E3; try discriminate;
      [| intros H; inversion H; subst; exact (get_run_param_no_exit _ _ _ _ _ E3)].
    destruct (_get_run_param lower dec_name df _ _) as [de | |] eqn:E4; try discriminate.
    intros H; inversion H; subst; exact (get_run_param_no_exit _ _ _ _ _ E4).
Qed.

(** *** The loop without fail-fast *)

Lemma summary_output_returns (decoder : Decoder) (first : TestSuite) (rest : Results) :
  (forall r, In r rest ->
     dict_keys (ts_test_vectors (snd r)) = dict_keys (ts_test_vectors first)) ->
  well_keyed (ts_test_vectors first) ->
  exists out, summary_output ((decoder, first) :: rest) = Return out.
Proof.
  intros Hkeys Hwk. unfold summary_output.
  rewrite summary_rows_spec; [eexists; reflexivity |].
  intros tv ts Htv Hts.
  assert (Hname : In (tv_name tv) (dict_keys (ts_test_vectors first))).
  { rewrite <- (well_keyed_names _ Hwk). apply in_map. exact Htv. }
  apply in_map_iff in Hts. destruct Hts as [r [Er [Hr | Hr]]]; subst ts.
  - subst r. exact Hname.
  - rewrite (Hkeys r Hr). exact Hname.
Qed.

Lemma values_are_keyed (d : list (string * TestVector)) (tv : TestVector) :
  well_keyed d -> In tv (dict_values d) -> In (tv_name tv) (dict_keys d).
Proof.
  intros Hwk Hin. rewrite <- (well_keyed_names _ Hwk). apply in_map. exact Hin.
Qed.

(** Results that come from the suite that was run are consistent. *)
Lemma faithful_consistent : faithful_results suite_run -> consistent_results suite_run.
Proof.
  intros Hfaith suite c dir tvs d1 d2 w1 w2 r1 r2 H1 H2 tv Htv.
  destruct (suite_run suite (to_test_suite_context c d1 dir tvs) w1) as [o1 w1'] eqn:E1.
  destruct (suite_run suite (to_test_suite_context c d2 dir tvs) w2) as [o2 w2'] eqn:E2.
  simpl in H1, H2. subst o1 o2.
  destruct (Hfaith _ _ _ _ _ E1) as [Hk1 Hwk1].
  destruct (Hfaith _ _ _ _ _ E2) as [Hk2 _].
  rewrite Hk2, <- Hk1. apply values_are_keyed; assumption.
Qed.

Lemma consistent_summary (q0 : State) (suite : TestSuite) (results : Results) :
  consistent_results suite_run ->
  Forall (from_suite suite_run q0 suite) results ->
  nonempty results = true ->
  exists out, summary_output results = Return out.
Proof.
  intros Hcons Hfrom Hne. destruct results as [| [decoder first] rest]; [discriminate |].
  unfold summary_output.
  rewrite summary_rows_spec; [eexists; reflexivity |].
  intros tv ts Htv Hts.
  apply in_map_iff in Hts. destruct Hts as [r [Er Hr]]. subst ts.
  rewrite Forall_forall in Hfrom.
  destruct (Hfrom (decoder, first) (or_introl eq_refl)) as [d1 [w1 H1]].
  destruct (Hfrom r Hr) as [d2 [w2 H2]].
  exact (Hcons suite (ctx q0) (fl_results_dir (self q0)) (cx_test_vectors (ctx q0))
           d1 d2 w1 w2 first (snd r) H1 H2 tv Htv).
Qed.

Lemma filter_snoc {A : Type} (f : A -> bool) (l : list A) (x : A) :
  filter f (l ++ [x]) = filter f l ++ (if f x then [x] else []).
Proof. rewrite filter_app. reflexivity. Qed.

Lemma existsb_snoc {A : Type} (f : A -> bool) (l : list A) (x : A) :
  existsb f (l ++ [x]) = existsb f l || f x.
Proof. rewrite existsb_app. simpl. rewrite orb_false_r. reflexivity. Qed.

Lemma pairs_of_snoc_run (t : list Event) (suite : TestSuite) (c : SuiteContext)
    (res : option TestSuite) :
  pairs_of (t ++ [SuiteRun suite c res]) = pairs_of t ++ [(suite, sc_decoder c)].
Proof. rewrite pairs_of_app. reflexivity. Qed.

Lemma inner_loop_complete (q0 : State) (suite : TestSuite) (decoders : list Decoder)
    (results0 : Results) (error0 : bool) :
  cx_test_suite (ctx q0) = Some suite ->
  cx_failfast (ctx q0) = false ->
  Forall (from_suite suite_run q0 suite) results0 ->
  post (complete_inner suite_run q0 suite error0 decoders) never
       (for_each decoders (run_decoder suite_run) (results0, error0) q0).
Proof.
  intros Hsuite Hfast Hfrom0.
  apply (for_each_rule (complete_inner suite_run q0 suite error0) never).
  - split; [repeat split; reflexivity |].
    exists []. split; [rewrite app_nil_r; reflexivity |].
    split; [reflexivity |]. split; [simpl; rewrite orb_false_r; reflexivity | exact Hfrom0].
  - intros done decoder rest [results error] q _
      [[Hc [Hs Hl]] [new [Ht [Hpairs [Herror Hfrom]]]]].
    simpl in Herror, Hfrom.
    rewrite (run_decoder_spec results error decoder q suite) by (rewrite Hc; exact Hsuite).
    assert (Hsnoc : filter (codec_match suite) (done ++ [decoder])
                    = filter (codec_match suite) done
                      ++ (if codec_match suite decoder then [decoder] else []))
      by apply filter_snoc.
    destruct (codec_match suite decoder) eqn:Hm.
    2:{ unfold post, complete_inner; simpl. split; [repeat split; assumption |].
        exists new. rewrite Hsnoc, app_nil_r. repeat split; assumption. }
    unfold after_suite_run.
    destruct (suite_run suite (suite_context_for q decoder) (world q)) as [ores w'] eqn:Hrun.
    cbv zeta. simpl fst. simpl snd.
    set (ev := SuiteRun suite (suite_context_for q decoder) ores).
    set (q' := emit ev (with_world w' q)).
    assert (Hframe : frame_inner q0 q').
    { repeat split; assumption. }
    assert (Htr : trace q' = trace q0 ++ new ++ [ev]).
    { unfold q'. simpl. rewrite Ht, app_assoc. reflexivity. }
    assert (Hp : pairs_of (new ++ [ev])
                 = map (pair suite) (filter (codec_match suite) (done ++ [decoder]))).
    { unfold ev. rewrite pairs_of_snoc_run, Hpairs, Hsnoc, map_app. reflexivity. }
    rewrite Hc, Hfast.
    destruct ores as [res |].
    + assert (Hres : from_suite suite_run q0 suite (decoder, res)).
      { exists decoder, (world q). unfold suite_context_for in Hrun |- *.
        rewrite <- Hc, <- Hs, Hrun. reflexivity. }
      assert (Hfrom' : Forall (from_suite suite_run q0 suite) (results ++ [(decoder, res)])).
      { apply Forall_app. split; [exact Hfrom | constructor; [exact Hres | constructor]]. }
      destruct (has_errors res) eqn:Herr; unfold post, complete_inner; simpl;
        (split; [exact Hframe |]); exists (new ++ [ev]);
        (split; [exact Htr |]); (split; [exact Hp |]); (split; [| exact Hfrom']);
        rewrite existsb_snoc; unfold ev; simpl; rewrite Herr.
      * rewrite !orb_true_r. reflexivity.
      * rewrite orb_false_r. exact Herror.
    + unfold post, complete_inner; simpl. split; [exact Hframe |]. exists (new ++ [ev]).
      split; [exact Htr |]. split; [exact Hp |]. split; [| exact Hfrom].
      rewrite existsb_snoc. unfold ev. simpl. rewrite orb_false_r. exact Herror.
Qed.

Lemma matching_pairs_snoc (done : list TestSuite) (suite : TestSuite)
    (decoders : list Decoder) :
  matching_pairs (done ++ [suite]) decoders
  = matching_pairs done decoders ++ map (pair suite) (filter (codec_match suite) decoders).
Proof. unfold matching_pairs. rewrite flat_map_app. simpl. rewrite app_nil_r. reflexivity. Qed.

Lemma outer_loop_complete (q0 : State) (suites : list TestSuite) (decoders : list Decoder)
    (error0 : bool) :
  cx_decoders (ctx q0) = Objects decoders ->
  cx_failfast (ctx q0) = false ->
  cx_summary (ctx q0) = false \/ consistent_results suite_run ->
  post (complete_outer q0 decoders error0 suites) never
       (for_each suites (run_suite suite_run) error0 q0).
Proof.
  intros Hd Hfast Hsafe.
  apply (for_each_rule (complete_outer q0 decoders error0) never).
  - split; [repeat split; try reflexivity; apply same_settings_refl |].
    exists []. split; [rewrite app_nil_r; reflexivity |].
    split; [reflexivity | simpl; rewrite orb_false_r; reflexivity].
  - intros done suite rest error q _ [[[cur Hcur] [Hs Hl]] [new [Ht [Hpairs Herror]]]].
    assert (Hdq : cx_decoders (ctx q) = Objects decoders) by (rewrite Hcur; exact Hd).
    rewrite (run_suite_unfold error suite q decoders Hdq). cbv zeta.
    set (q1 := with_ctx (set_test_suite (ctx q) (Some suite)) q).
    assert (Hc1 : ctx q1 = set_test_suite (ctx q0) (Some suite)).
    { unfold q1. simpl. rewrite Hcur. reflexivity. }
    pose proof (inner_loop_complete q1 suite decoders [] error
                  ltac:(rewrite Hc1; reflexivity)
                  ltac:(rewrite Hc1; exact Hfast)
                  ltac:(constructor)) as Hin.
    destruct (for_each decoders _ _ q1) as [[acc | e | code] q2];
      unfold post in Hin; simpl in Hin; try contradiction.
    destruct Hin as [[Hc2 [Hs2 Hl2]] [new1 [Ht2 [Hp1 [He1 Hfrom]]]]].
    destruct (summary_step (cx_summary (ctx q2) && nonempty (fst acc)) (fst acc) q2)
      as [Hc3 [Hs3 [Hl3 [[lines [Ht3 Hq]] [_ Hret]]]]].
    assert (Ho : fst (when (cx_summary (ctx q2) && nonempty (fst acc))
                           (_generate_summary (fst acc)) q2) = Return tt).
    { apply Hret. rewrite Hc2, Hc1. simpl.
      destruct Hsafe as [Hsum | Hfaith]; [left; rewrite Hsum; reflexivity |].
      destruct (cx_summary (ctx q0)); [| left; reflexivity].
      destruct (nonempty (fst acc)) eqn:Hne; [| left; reflexivity].
      right. exact (consistent_summary q1 suite (fst acc) Hfaith Hfrom Hne). }
    destruct (when _ _ q2) as [o3 q3]. simpl in Hc3, Hs3, Hl3, Ht3, Ho. subst o3.
    unfold post; simpl. split.
    { split; [exists (Some suite); rewrite Hc3, Hc2; exact Hc1 |].
      split; [rewrite Hs3, Hs2; exact Hs | rewrite Hl3, Hl2; exact Hl]. }
    exists (new ++ new1 ++ lines).
    split; [rewrite Ht3, Ht2; unfold q1; simpl; rewrite Ht, <- !app_assoc; reflexivity |].
    split.
    + rewrite !pairs_of_app, (quiet_pairs lines Hq), app_nil_r, Hpairs, Hp1.
      symmetry. apply matching_pairs_snoc.
    + rewrite !existsb_app, (quiet_no_failure lines Hq), orb_false_r, He1, Herror.
      rewrite orb_assoc. reflexivity.
Qed.

(** Without fail-fast, and with a summary that cannot fail, the loop
    runs every matching pair and exits with status 1 exactly when a run
    has failed. *)
Lemma run_loop_complete (q0 : State) (suites : list TestSuite) (decoders : list Decoder) :
  cx_test_suites (ctx q0) = Objects suites ->
  cx_decoders (ctx q0) = Objects decoders ->
  cx_failfast (ctx q0) = false ->
  cx_summary (ctx q0) = false \/ consistent_results suite_run ->
  exists new,
    trace (snd (loop q0)) = trace q0 ++ new /\
    pairs_of new = matching_pairs suites decoders /\
    fst (loop q0) = if existsb failed_run new then SysExit 1%Z else Return tt.
Proof.
  intros Hs Hd Hfast Hsafe. unfold run_loop, bind, get_ctx, lift. simpl. rewrite Hs. simpl.
  pose proof (outer_loop_complete q0 suites decoders false Hd Hfast Hsafe) as Hout.
  destruct (for_each suites _ false q0) as [[error | e | code] q']; unfold post in Hout;
    simpl in Hout; try contradiction.
  destruct Hout as [_ [new [Ht [Hp He]]]]. simpl in He. subst error.
  exists new. destruct (existsb failed_run new); simpl; repeat split; assumption.
Qed.

(** *** Whole runs *)

Lemma snoc_split {A : Type} (pre post t' : list A) (e ev : A) :
  pre ++ e :: post = t' ++ [ev] -> In e t' \/ (post = [] /\ e = ev).
Proof.
  revert t'. induction pre as [| a pre IH]; intros t' H.
  - destruct t' as [| b t']; simpl in H; inversion H; subst.
    + right. split; reflexivity.
    + left. left. reflexivity.
  - destruct t' as [| b t']; simpl in H; inversion H; subst.
    + destruct pre; discriminate.
    + destruct (IH t' H2) as [Hin | Hlast]; [left; right; exact Hin | right; exact Hlast].
Qed.

(** The events of a run: the lines of the loader and of the reference
    check, then those of the loop. *)
Lemma run_events (p : State) :
  let r := run p in
  same_flags (ctx p) (ctx (snd r)) /\
  exists new, trace (snd r) = trace p ++ new /\ Forall codec_ok new /\
    (cx_failfast (ctx p) = true ->
       clean new \/
       exists t' ev, new = t' ++ [ev] /\ clean t' /\ failed_run ev = true /\
                     fst r = SysExit 1%Z).
Proof.
  destruct (load_trace p) as [lines1 [Ht1 Hq1]].
  destruct (run_shape p) as [[e [q [Hrun [Ht [_ Hflags]]]]] |
                             [p2 [q [suites [decoders
                               [_ [_ [_ [Hc [Hs [Hw [Hl [[lines2 [Ht2 Hq2]] [_ Hrun]]]]]]]]]]]]]].
  - rewrite Hrun. simpl. split; [exact Hflags |].
    exists lines1. split; [rewrite Ht; exact Ht1 |].
    split; [apply quiet_codec_ok; exact Hq1 |].
    intros _. left. apply quiet_clean. exact Hq1.
  - rewrite Hrun.
    destruct (run_loop_general q suites decoders
                ltac:(rewrite Hc; reflexivity) ltac:(rewrite Hc; reflexivity))
      as [[Hset _] [[new [Ht [Hok Hff]]] _]].
    split.
    { apply (same_flags_trans _ (ctx q)); [rewrite Hc; apply normalized_flags |].
      apply same_settings_flags. exact Hset. }
    exists (lines1 ++ lines2 ++ new).
    split; [rewrite Ht, Ht2, Ht1, <- !app_assoc; reflexivity |].
    split.
    { apply Forall_app. split; [apply quiet_codec_ok; exact Hq1 |].
      apply Forall_app. split; [apply quiet_codec_ok; exact Hq2 | exact Hok]. }
    intros Hfast.
    assert (Hfq : cx_failfast (ctx q) = true) by (rewrite Hc; exact Hfast).
    assert (Hpre : clean (lines1 ++ lines2)).
    { apply clean_app; apply quiet_clean; assumption. }
    destruct (Hff Hfq) as [[Hcl _] | [[Hcl _] | [t' [ev [E [Hcl [Hev Ho]]]]]]].
    + left. rewrite app_assoc. apply clean_app; assumption.
    + left. rewrite app_assoc. apply clean_app; assumption.
    + right. exists (lines1 ++ lines2 ++ t'), ev.
      split; [rewrite E, <- !app_assoc; reflexivity |].
      split; [rewrite app_assoc; apply clean_app; assumption |].
      split; [exact Hev | exact Ho].
Qed.

(** C3: under fail-fast, a suite run that yields a vector with errors is
    the last event of the run, and the run ends by [sys.exit(1)]: no
    pair is executed and nothing is printed after it. *)
Theorem failfast_exits_at_first_failing_run (p : State) (before after : list Event)
    (e : Event) :
  cx_failfast (ctx p) = true ->
  since p (snd (run p)) = before ++ e :: after ->
  failed_run e = true ->
  after = [] /\ fst (run p) = SysExit 1%Z.
Proof.
  intros Hfast Hsince He.
  destruct (run_events p) as [_ [new [Ht [_ Hff]]]].
  rewrite (since_extends _ _ _ Ht) in Hsince. subst new.
  destruct (Hff Hfast) as [Hcl | [t' [ev [E [Hcl [_ Ho]]]]]].
  - exfalso. assert (Hin : In e (before ++ e :: after)) by (apply in_elt).
    rewrite (Hcl e Hin) in He. discriminate.
  - destruct (snoc_split _ _ _ _ _ E) as [Hin | [Hafter _]].
    + exfalso. rewrite (Hcl e Hin) in He. discriminate.
    + subst after. repeat split; [exact Ho].
Qed.

Lemma failed_run_exists (t : list Event) :
  existsb failed_run t = true <->
  exists suite c res, In (SuiteRun suite c (Some res)) t /\ has_errors res = true.
Proof.
  rewrite existsb_exists. split.
  - intros [e [Hin He]]. destruct e as [line | suite c [res |] | ]; try discriminate.
    exists suite, c, res. split; assumption.
  - intros [suite [c [res [Hin He]]]]. exists (SuiteRun suite c (Some res)).
    split; assumption.
Qed.

Lemma in_matching_pairs (suites : list TestSuite) (decoders : list Decoder)
    (suite : TestSuite) (decoder : Decoder) :
  In (suite, decoder) (matching_pairs suites decoders) <->
  In suite suites /\ In decoder decoders /\ dec_codec decoder = ts_codec suite.
Proof.
  unfold matching_pairs. rewrite in_flat_map. split.
  - intros [s [Hs Hin]]. apply in_map_iff in Hin. destruct Hin as [d [E Hd]].
    inversion E; subst. apply filter_In in Hd. destruct Hd as [Hd Hm].
    repeat split; try assumption. apply Codec_eqb_eq. exact Hm.
  - intros [Hs [Hd Hm]]. exists suite. split; [exact Hs |].
    apply in_map. apply filter_In. split; [exact Hd | apply Codec_eqb_eq; exact Hm].
Qed.

(** A run whose configuration is accepted is the loop, started from the
    normalized context after the loader's lines and the reference line. *)
Lemma run_reaches_loop (p p2 : State) (decoders : list Decoder) :
  _normalize_context lower (snd (load p)) = (Return tt, p2) ->
  cx_decoders (ctx p2) = Objects decoders ->
  (cx_reference (ctx p) = true -> length decoders = 1) ->
  exists q lines,
    run p = loop q /\ ctx q = ctx p2 /\ self q = self p2 /\
    trace q = trace p ++ lines /\ quiet lines.
Proof.
  intros Hn Hde Href.
  destruct (load_trace p) as [lines1 [Ht1 Hq1]].
  destruct (load_frame p) as [_ [Hc1 _]].
  pose proof (normalize_frame (snd (load p))) as Hf. rewrite Hn in Hf. simpl in Hf.
  destruct Hf as [_ [Ht2 [_ [_ [_ [_ [_ [_ [F5 _]]]]]]]]].
  rewrite Hc1 in F5.
  rewrite run_unfold. unfold bind at 1. rewrite Hn. unfold bind at 1.
  rewrite (reference_check_spec p2 decoders Hde), F5.
  destruct (cx_reference (ctx p)) eqn:Er.
  - rewrite (Href eq_refl). simpl.
    exists (emit (Print "Reference mode") p2), (lines1 ++ [Print "Reference mode"]).
    split; [reflexivity |]. split; [reflexivity |]. split; [reflexivity |].
    split; [simpl; rewrite Ht2, Ht1, <- app_assoc; reflexivity |].
    apply quiet_app; [exact Hq1 |].
    intros e [He | []]. subst e. eexists. reflexivity.
  - exists p2, lines1. split; [reflexivity |]. split; [reflexivity |].
    split; [reflexivity |]. split; [rewrite Ht2, Ht1; reflexivity | exact Hq1].
Qed.

(** A run without fail-fast whose configuration is accepted and whose
    summaries get consistent results. *)
Lemma run_complete (p p2 : State) (suites : list TestSuite) (decoders : list Decoder) :
  cx_failfast (ctx p) = false ->
  cx_summary (ctx p) = false \/ consistent_results suite_run ->
  _normalize_context lower (snd (load p)) = (Return tt, p2) ->
  cx_test_suites (ctx p2) = Objects suites ->
  cx_decoders (ctx p2) = Objects decoders ->
  (cx_reference (ctx p) = true -> length decoders = 1) ->
  pairs_of (since p (snd (run p))) = matching_pairs suites decoders /\
  fst (run p) = if existsb failed_run (since p (snd (run p)))
                then SysExit 1%Z else Return tt.
Proof.
  intros Hfast Hsafe Hn Hsu Hde Href.
  destruct (load_frame p) as [_ [Hc1 _]].
  pose proof (normalize_frame (snd (load p))) as Hf. rewrite Hn in Hf. simpl in Hf.
  destruct Hf as [_ [_ [_ [_ [_ [_ [F3 [_ [_ [F6 _]]]]]]]]]].
  rewrite Hc1 in F3, F6.
  destruct (run_reaches_loop p p2 decoders Hn Hde Href)
    as [q [lines [Hrun [Hcq [_ [Htq Hq]]]]]].
  destruct (run_loop_complete q suites decoders) as [new [Ht [Hp Ho]]].
  { rewrite Hcq; exact Hsu. } { rewrite Hcq; exact Hde. }
  { rewrite Hcq, F3; exact Hfast. }
  { destruct Hsafe as [Hsum | Hcons]; [left; rewrite Hcq, F6; exact Hsum | right; exact Hcons]. }
  rewrite Hrun.
  assert (Hsince : since p (snd (loop q)) = lines ++ new).
  { apply since_extends. rewrite Ht, Htq, <- !app_assoc. reflexivity. }
  rewrite Hsince. split.
  - rewrite !pairs_of_app, (quiet_pairs _ Hq). exact Hp.
  - rewrite !existsb_app, (quiet_no_failure _ Hq). exact Ho.
Qed.

(** C7, as the code has it: a run leaves [jobs], [timeout], [failfast],
    [quiet], [reference], [summary] and [keep_files] as they were,
    however it ends; when it returns, [test_suites] and [decoders] hold,
    in place of the name filters, the suite objects and the decoder
    objects that [_get_run_param] selected from the loaded suites and
    from the registry for the lower-cased filters, [test_vectors] holds
    the lower-cased filter, and the attribute [test_suite] holds the
    last selected suite, if there is one. *)
Theorem run_rewrites_the_selection (p : State) :
  let r := run p in
  same_flags (ctx p) (ctx (snd r)) /\
  (fst r = Return tt ->
     exists suites decoders,
       cx_test_suites (ctx (snd r)) = Objects suites /\
       cx_decoders (ctx (snd r)) = Objects decoders /\
       cx_test_vectors (ctx (snd r)) = option_map (map lower) (cx_test_vectors (ctx p)) /\
       cx_test_suite (ctx (snd r)) = last (map Some suites) (cx_test_suite (ctx p)) /\
       _get_run_param lower ts_name
         match lowered lower (cx_test_suites (ctx p)) with Return f => f | _ => None end
         (fl_test_suites (self (snd (load p)))) "test suite" = Return suites /\
       _get_run_param lower dec_name
         match lowered lower (cx_decoders (ctx p)) with Return f => f | _ => None end
         (fl_decoders (self p)) "decoders" = Return decoders).
Proof.
  intros r. split; [apply run_events |].
  unfold r.
  destruct (run_shape p) as [[e [q [Hrun _]]] |
                             [p2 [q [suites [decoders
                               [_ [Hsel [Hdec [Hc [_ [_ [_ [_ [_ Hrun]]]]]]]]]]]]]].
  - rewrite Hrun. discriminate.
  - rewrite Hrun. intros Hret.
    destruct (run_loop_general q suites decoders
                ltac:(rewrite Hc; reflexivity) ltac:(rewrite Hc; reflexivity))
      as [[[cur Hcur] _] [_ Hlast]].
    exists suites, decoders. rewrite (Hlast Hret), Hcur, Hc.
    repeat split; try reflexivity; assumption.
Qed.

(** *** The download command *)

Lemma download_loop (l : list TestSuite) (jobs : Z) (keep_file : bool) (q : State) :
  let r := for_each l (fun _ t => download_suite suite_download jobs keep_file t) tt q in
  fst r = Return tt /\
  trace (snd r)
    = trace q ++ map (fun t => SuiteDownload t jobs (fl_resources_dir (self q)) true keep_file) l /\
  self (snd r) = self q /\ ctx (snd r) = ctx q /\ load_cached (snd r) = load_cached q /\
  (l = [] -> snd r = q).
Proof.
  revert q. induction l as [| t l IH]; intros q.
  - simpl. repeat split; try reflexivity. rewrite app_nil_r. reflexivity.
  - set (q1 := emit (SuiteDownload t jobs (fl_resources_dir (self q)) true keep_file)
                 (with_world (suite_download t jobs (fl_resources_dir (self q)) true
                                keep_file (world q)) q)).
    assert (E : for_each (t :: l)
                  (fun _ t => download_suite suite_download jobs keep_file t) tt q
                = for_each l (fun _ t => download_suite suite_download jobs keep_file t) tt q1)
      by reflexivity.
    cbv zeta. rewrite E.
    destruct (IH q1) as [Ho [Ht [Hs [Hc [Hl _]]]]].
    split; [exact Ho |].
    split; [rewrite Ht; unfold q1; simpl; rewrite <- app_assoc; reflexivity |].
    split; [exact Hs |]. split; [exact Hc |]. split; [exact Hl | discriminate].
Qed.

(** C10: with names in its filter, the download command selects the
    loaded suites whose name is one of the names, letter case included,
    and downloads them in catalogue order; when none is, it returns
    without any event and without an error, where the run command, which
    compares lower-cased names, raises for a filter without a match. *)
Theorem download_selects_by_exact_name (p : State) (names : list string) (jobs : Z)
    (keep_file : bool) (df : option (list string)) :
  names <> [] ->
  let p1 := snd (load p) in
  let catalogue := fl_test_suites (self p1) in
  let selected := filter (fun t => mem (ts_name t) names) catalogue in
  let r := download (Some names) jobs keep_file p in
  fst r = Return tt /\
  since p1 (snd r)
    = map (fun t => SuiteDownload t jobs (fl_resources_dir (self p)) true keep_file) selected /\
  (forall t, In t selected <-> In t catalogue /\ In (ts_name t) names) /\
  ((forall t, In t catalogue -> ~ In (ts_name t) names) -> r = (Return tt, p1)) /\
  (cx_test_suites (ctx p) = Names (Some names) -> cx_decoders (ctx p) = Names df ->
   (forall t, In t catalogue -> ~ matches_ci lower (ts_name t) names) ->
   fst (run p) = Raise (NoMatch "test suite" (map lower names))).
Proof.
  intros Hne p1 catalogue selected r.
  assert (Hr : r = for_each selected
                     (fun _ t => download_suite suite_download jobs keep_file t) tt p1).
  { assert (Hl : load p = (Return tt, p1)) by (unfold p1; rewrite load_spec; reflexivity).
    unfold r, download_test_suites, bind at 1. rewrite Hl.
    unfold bind, get_self. simpl. destruct names; [congruence | reflexivity]. }
  destruct (download_loop selected jobs keep_file p1) as [Ho [Ht [_ [_ [_ Hnil]]]]].
  rewrite <- Hr in Ho, Ht, Hnil.
  destruct (load_frame p) as [_ [_ [_ [_ Hres]]]]. fold p1 in Hres.
  split; [exact Ho |].
  split; [apply since_extends; rewrite Ht, Hres; reflexivity |].
  split.
  { intros t. unfold selected. rewrite filter_In, mem_In. reflexivity. }
  split.
  { intros Hno.
    assert (Hsel : selected = []).
    { unfold selected. destruct (filter _ catalogue) as [| t l] eqn:E; [reflexivity |].
      assert (Hin : In t (filter (fun t => mem (ts_name t) names) catalogue))
        by (rewrite E; left; reflexivity).
      apply filter_In in Hin. destruct Hin as [Hc Hm]. apply mem_In in Hm.
      exfalso. exact (Hno t Hc Hm). }
    rewrite (surjective_pairing r), Ho, (Hnil Hsel). reflexivity. }
  intros Hs Hd Hno.
  destruct (run_unmatched_suites p names df Hs Hd Hne Hno) as [c' Hrun].
  rewrite Hrun. reflexivity.
Qed.

End Facts.

(** ** The sample installation *)

Ltac by_run := vm_compute; reflexivity.

Lemma sample_faithful : faithful_results Sample.suite_run.
Proof.
  intros suite c w res w' H. unfold Sample.suite_run in H. inversion H; subst; clear H.
  simpl. split.
  - unfold dict_keys. rewrite map_map. reflexivity.
  - unfold well_keyed. apply Forall_forall. intros kv Hin.
    apply in_map_iff in Hin. destruct Hin as [kv0 [E _]]. subst kv. reflexivity.
Qed.

(** A vector filter that names no vector of any loaded suite is not
    checked: the run does not fail, and every matching pair is handed to
    [TestSuite.run]. *)
Lemma vector_filter_without_match_is_not_checked :
  cx_test_vectors (Sample.only None None (Some ["nothing"])) = Some ["nothing"] /\
  (forall t tv,
     In t (fl_test_suites (self (snd (Sample.run (Sample.only None None (Some ["nothing"]))))))
     -> In tv (dict_values (ts_test_vectors t)) -> ~ matches_ci lower_ascii (tv_name tv) ["nothing"]) /\
  fst (Sample.run (Sample.only None None (Some ["nothing"]))) = Return tt /\
  pairs_of (trace (snd (Sample.run (Sample.only None None (Some ["nothing"])))))
    = [(Sample.suiteA, Sample.decA); (Sample.suiteA, Sample.decB);
       (Sample.suiteB, Sample.decA); (Sample.suiteB, Sample.decB);
       (Sample.suiteH, Sample.decH)].
Proof.
  split; [reflexivity |]. split; [| split; by_run].
  intros t tv Ht Htv [n [[Hn | []] E]]. subst n.
  vm_compute in Ht.
  destruct Ht as [Ht | [Ht | [Ht | []]]]; subst t; vm_compute in Htv;
    repeat (destruct Htv as [Htv | Htv]; [subst tv; discriminate E |]); destruct Htv.
Qed.

(** Reference mode with the three registered decoders selected. *)
Lemma reference_mode_sample :
  cx_reference (Sample.no_filter false true false) = true /\
  length Sample.DECODERS <> 1 /\
  fst (Sample.run (Sample.no_filter false true false))
    = Raise (PyException "Only one decoder can be the reference. Given: A, B, H") /\
  since (snd (_load_test_suites Sample.os_walk Sample.from_json_file
                (Sample.start Sample.fluster (Sample.no_filter false true false))))
        (snd (Sample.run (Sample.no_filter false true false))) = [] /\
  world (snd (Sample.run (Sample.no_filter false true false))) = 0.
Proof.
  unfold Sample.run, Sample.download.
  split; [reflexivity |]. split; [discriminate |].
  apply (proj1 (reference_mode_needs_exactly_one_decoder Sample.World lower_ascii
                  Sample.os_walk Sample.from_json_file Sample.suite_run
                  (Sample.start Sample.fluster (Sample.no_filter false true false))
                  (snd (_normalize_context lower_ascii
                          (snd (_load_test_suites Sample.os_walk Sample.from_json_file
                                  (Sample.start Sample.fluster
                                     (Sample.no_filter false true false))))))
                  Sample.DECODERS eq_refl ltac:(by_run) ltac:(by_run))).
  discriminate.
Defined.

(** Fail-fast over two suites that each have a failing vector: the run
    exits right after decoder [B] has failed suite [Dummy-A]. *)
Lemma failfast_sample :
  cx_failfast (Sample.no_filter true false true) = true /\
  since (Sample.start Sample.fluster (Sample.no_filter true false true))
        (snd (Sample.run (Sample.no_filter true false true)))
    = [Sample.broken_line;
       Sample.run_event (Sample.no_filter true false true) Sample.suiteA Sample.decA]
      ++ Sample.run_event (Sample.no_filter true false true) Sample.suiteA Sample.decB :: [] /\
  failed_run (Sample.run_event (Sample.no_filter true false true) Sample.suiteA Sample.decB)
    = true /\
  fst (Sample.run (Sample.no_filter true false true)) = SysExit 1%Z.
Proof.
  unfold Sample.run, Sample.download.
  split; [reflexivity |]. split; [by_run |]. split; [by_run |].
  apply (proj2 (failfast_exits_at_first_failing_run Sample.World lower_ascii
                  Sample.os_walk Sample.from_json_file Sample.suite_run
                  (Sample.start Sample.fluster (Sample.no_filter true false true))
                  [Sample.broken_line;
                   Sample.run_event (Sample.no_filter true false true) Sample.suiteA Sample.decA]
                  []
                  (Sample.run_event (Sample.no_filter true false true) Sample.suiteA Sample.decB)
                  eq_refl ltac:(by_run) ltac:(by_run))).
Defined.


(** Two decoders and three vectors: [A] passes all, [B] fails [v2]. *)
Lemma summary_sample :
  summary_output Sample.results_AB = Return (render_table (spec_table Sample.results_AB)) /\
  tb_rows (spec_table Sample.results_AB)
    = [("v1", [true; true]); ("v2", [true; false]); ("v3", [true; true])] /\
  tb_totals (spec_table Sample.results_AB) = [(3, 3); (2, 3)] /\
  map render_total (tb_totals (spec_table Sample.results_AB)) = ["3/3|"; "2/3|"].
Proof.
  split; [| repeat split; by_run].
  apply (summary_renders_rows_and_totals Sample.World Sample.decA
           (snd (hd (Sample.decA, Sample.suiteA) Sample.results_AB))
           (tl Sample.results_AB)
           (Sample.start Sample.fluster (Sample.no_filter false false true))).
  - intros r [Hr | []]. subst r. by_run.
  - repeat constructor.
  - intros r [Hr | [Hr | []]]; subst r; by_run.
Defined.

(** The text of that summary. *)
Lemma summary_sample_text :
  summary_output Sample.results_AB
  = Return ("|Test|A|B|" ++ nl ++
            "|-|-|-|" ++ nl ++
            "|v1|" ++ check_mark ++ check_mark ++ nl ++
            "|v2|" ++ check_mark ++ cross_mark ++ nl ++
            "|v3|" ++ check_mark ++ check_mark ++ nl ++
            "|TOTAL|3/3|2/3|")%string.
Proof. by_run. Qed.

(** A run that returns has replaced both filters and created the
    attribute [test_suite]. *)
Lemma run_changes_the_context :
  fst (Sample.run (Sample.only None (Some ["A"]) None)) = Return tt /\
  cx_test_suites (Sample.only None (Some ["A"]) None) = Names None /\
  cx_test_suites (ctx (snd (Sample.run (Sample.only None (Some ["A"]) None))))
    = Objects [Sample.suiteA; Sample.suiteB; Sample.suiteH] /\
  cx_decoders (Sample.only None (Some ["A"]) None) = Names (Some ["A"]) /\
  cx_decoders (ctx (snd (Sample.run (Sample.only None (Some ["A"]) None))))
    = Objects [Sample.decA] /\
  cx_test_suite (Sample.only None (Some ["A"]) None) = None /\
  cx_test_suite (ctx (snd (Sample.run (Sample.only None (Some ["A"]) None))))
    = Some Sample.suiteH.
Proof. repeat split; by_run. Qed.

Lemma run_rewrites_sample :
  fst (Sample.run (Sample.only None (Some ["A"]) (Some ["V1"]))) = Return tt /\
  same_flags (Sample.only None (Some ["A"]) (Some ["V1"]))
             (ctx (snd (Sample.run (Sample.only None (Some ["A"]) (Some ["V1"]))))) /\
  cx_test_vectors (ctx (snd (Sample.run (Sample.only None (Some ["A"]) (Some ["V1"])))))
    = Some ["v1"].
Proof.
  unfold Sample.run, Sample.download.
  split; [by_run |].
  destruct (run_rewrites_the_selection Sample.World lower_ascii
              Sample.os_walk Sample.from_json_file Sample.suite_run
              (Sample.start Sample.fluster (Sample.only None (Some ["A"]) (Some ["V1"]))))
    as [Hflags Hret].
  split; [exact Hflags |].
  destruct (Hret ltac:(by_run)) as [suites [decoders [_ [_ [Hv _]]]]]. exact Hv.
Defined.

(** The directory with one well-formed and one malformed definition. *)
Lemma load_sample_catalogue :
  load_cached (Sample.start Sample.small (Sample.no_filter false false false)) = false /\
  fl_test_suites
    (self (snd (_load_test_suites Sample.os_walk Sample.from_json_file
                  (Sample.start Sample.small (Sample.no_filter false false false)))))
    = [Sample.suiteA] /\
  since (Sample.start Sample.small (Sample.no_filter false false false))
        (snd (_load_test_suites Sample.os_walk Sample.from_json_file
                (Sample.start Sample.small (Sample.no_filter false false false))))
    = [Sample.broken_line].
Proof.
  split; [reflexivity |].
  destruct (load_keeps_parsed_and_reports_malformed Sample.World
              Sample.os_walk Sample.from_json_file
              (Sample.start Sample.small (Sample.no_filter false false false)) eq_refl)
    as [_ [_ [_ [_ [_ [_ Hpair]]]]]].
  exact (Hpair "catalogue" "good.json" "broken.json" Sample.suiteA
           "Expecting value: line 1 column 1 (char 0)"
           ltac:(by_run) ltac:(by_run) ltac:(by_run) ltac:(by_run) ltac:(by_run)
           eq_refl eq_refl).
Defined.

(** The filter [dummy-a] names no suite exactly: nothing is downloaded
    and nothing is raised; the suite's own name selects it. *)
Lemma download_sample :
  Sample.download (Some ["dummy-a"])
    = (Return tt,
       snd (_load_test_suites Sample.os_walk Sample.from_json_file
              (Sample.start Sample.fluster
                 (Context_init 2 30 None None None false false false false false)))) /\
  filter is_download (trace (snd (Sample.download (Some ["Dummy-A"]))))
    = [SuiteDownload Sample.suiteA 2 "resources" true false].
Proof.
  unfold Sample.run, Sample.download.
  split; [| by_run].
  destruct (download_selects_by_exact_name Sample.World lower_ascii
              Sample.os_walk Sample.from_json_file Sample.suite_run Sample.suite_download
              (Sample.start Sample.fluster
                 (Context_init 2 30 None None None false false false false false))
              ["dummy-a"] 2%Z false None)
    as [_ [_ [_ [Hnone _]]]]; [discriminate |].
  apply Hnone. intros t Ht [Hn | []].
  vm_compute in Ht. destruct Ht as [Ht | [Ht | [Ht | []]]]; subst t; discriminate Hn.
Defined.

(** The run command takes the same filter [dummy-a] as a match for the
    suite [Dummy-A]. *)
Lemma run_matches_any_case :
  cx_test_suites (ctx (snd (Sample.run (Sample.only (Some ["dummy-a"]) (Some ["A"]) None))))
    = Objects [Sample.suiteA] /\
  pairs_of (trace (snd (Sample.run (Sample.only (Some ["dummy-a"]) (Some ["A"]) None))))
    = [(Sample.suiteA, Sample.decA)].
Proof. split; by_run. Qed.

(** ** More on runs *)

Section RunShape.

Variable World : Type.
Variable lower : string -> string.
Variable os_walk : World -> string -> list (string * list string).
Variable from_json_file : World -> string -> string -> TestSuite + string.
Variable suite_run : TestSuite -> SuiteContext -> World -> option TestSuite * World.

Local Abbreviation load := (_load_test_suites os_walk from_json_file).
Local Abbreviation run := (run_test_suites lower os_walk from_json_file suite_run).
Local Abbreviation loop := (run_loop suite_run).
Local Abbreviation State := (Proc World).

(** *** Missing vectors in a summary *)

Lemma summary_cells_cases (name : string) (tss : list TestSuite) (output : string) :
  (forall ts, In ts tss -> In name (dict_keys (ts_test_vectors ts))) \/
  ((exists ts, In ts tss /\ dict_get (ts_test_vectors ts) name = None) /\
   summary_cells name tss output = Raise (KeyError name)).
Proof.
  revert output. induction tss as [| ts tss IH]; intros output.
  - left. intros ts [].
  - simpl. destruct (dict_get (ts_test_vectors ts) name) as [tv |] eqn:E.
    + destruct (IH (output ++ (if negb (nonempty (tv_errors tv))
                               then check_mark else cross_mark))%string)
        as [Hall | [[ts' [Hin Hnone]] Hraise]].
      * left. intros ts' [E' | Hin]; [| apply Hall; exact Hin]. subst ts'.
        clear - E. induction (ts_test_vectors ts) as [| [k v] d IHd]; [discriminate |].
        simpl in E |- *. destruct (String.eqb_spec k name) as [Ek | Nk].
        -- left. exact Ek.
        -- right. apply IHd. exact E.
      * right. split; [exists ts'; split; [right; exact Hin | exact Hnone] | exact Hraise].
    + right. split; [exists ts; split; [left; reflexivity | exact E] | reflexivity].
Qed.

Lemma summary_rows_cases (vectors : list TestVector) (tss : list TestSuite)
    (output : string) :
  (forall tv ts, In tv vectors -> In ts tss ->
     In (tv_name tv) (dict_keys (ts_test_vectors ts))) \/
  (exists before tv after ts,
     vectors = before ++ tv :: after /\
     (forall tv' ts', In tv' before -> In ts' tss ->
        In (tv_name tv') (dict_keys (ts_test_vectors ts'))) /\
     In ts tss /\ dict_get (ts_test_vectors ts) (tv_name tv) = None /\
     summary_rows vectors tss output = Raise (KeyError (tv_name tv))).
Proof.
  revert output. induction vectors as [| tv vs IH]; intros output.
  - left. intros tv ts [].
  - simpl.
    match goal with |- context [summary_cells ?n ?t ?o] =>
      destruct (summary_cells_cases n t o) as [Hrow | [[ts [Hin Hnone]] Hraise]] end.
    + rewrite (summary_cells_spec _ _ _ Hrow).
      match goal with |- context [summary_rows vs tss ?o] => destruct (IH o)
        as [Hall | [before [tv' [after [ts [E [Hbefore [Hin [Hnone Hraise]]]]]]]]] end.
      * left. intros tv' ts [E | Hin] Hts; [subst tv'; apply Hrow | apply Hall]; assumption.
      * right. exists (tv :: before), tv', after, ts.
        split; [rewrite E; reflexivity |].
        split; [| split; [exact Hin | split; [exact Hnone | exact Hraise]]].
        intros tv0 ts0 [E0 | Hin0] Hts0; [subst tv0; apply Hrow | apply Hbefore]; assumption.
    + right. exists [], tv, vs, ts.
      split; [reflexivity |]. split; [intros tv' ts' [] |].
      split; [exact Hin |]. split; [exact Hnone |]. rewrite Hraise. reflexivity.
Qed.

Lemma summary_output_raises (results : Results) (e : Exn) :
  summary_output results = Raise e ->
  (results = [] /\ e = IndexError) \/ exists key, e = KeyError key.
Proof.
  unfold summary_output. destruct results as [| [decoder first] rest].
  - intros H. inversion H. left. split; reflexivity.
  - match goal with |- context [summary_rows ?v ?t ?o] =>
      destruct (summary_rows_cases v t o)
        as [Hall | [before [tv [after [ts [_ [_ [_ [_ Hraise]]]]]]]]] end.
    + rewrite (summary_rows_spec _ _ _ Hall). discriminate.
    + rewrite Hraise. intros H. inversion H. right. eexists. reflexivity.
Qed.

(** *** The loops, whatever the flags and the collaborators *)

Lemma suite_context_for_frame (q0 q : State) (decoder : Decoder) :
  same_settings (ctx q0) (ctx q) -> self q = self q0 ->
  suite_context_for q decoder
  = to_test_suite_context (ctx q0) decoder (fl_results_dir (self q0))
      (cx_test_vectors (ctx q0)).
Proof.
  intros [cur Hc] Hs. unfold suite_context_for. rewrite Hc, Hs. reflexivity.
Qed.

Lemma filter_split {A : Type} (f : A -> bool) (done rest : list A) (x : A) :
  filter f (done ++ x :: rest) = filter f (done ++ [x]) ++ filter f rest.
Proof.
  change (x :: rest) with ([x] ++ rest). rewrite app_assoc, filter_app. reflexivity.
Qed.

Lemma inner_loop_shape (q0 : State) (suite : TestSuite) (decoders : list Decoder)
    (results0 : Results) (error0 : bool) :
  cx_test_suite (ctx q0) = Some suite ->
  post (shape_inner q0 suite decoders error0 decoders) (stop_inner q0 suite decoders)
       (for_each decoders (run_decoder suite_run) (results0, error0) q0).
Proof.
  intros Hsuite.
  apply (for_each_rule _ (shape_inner q0 suite decoders error0)
           (stop_inner q0 suite decoders)).
  - split; [repeat split; reflexivity |].
    exists []. split; [rewrite app_nil_r; reflexivity |].
    split; [constructor |]. split; [reflexivity |]. simpl. rewrite orb_false_r. reflexivity.
  - intros done decoder rest [results error] q Hl
      [[Hc [Hs Hlc]] [new [Ht [Hev [Hpairs Herror]]]]].
    simpl in Herror.
    rewrite (run_decoder_spec _ suite_run results error decoder q suite)
      by (rewrite Hc; exact Hsuite).
    assert (Hsnoc : filter (codec_match suite) (done ++ [decoder])
                    = filter (codec_match suite) done
                      ++ (if codec_match suite decoder then [decoder] else []))
      by apply filter_snoc.
    destruct (codec_match suite decoder) eqn:Hm.
    2:{ unfold post, shape_inner; simpl. split; [repeat split; assumption |].
        exists new. rewrite Hsnoc, app_nil_r. repeat split; assumption. }
    unfold after_suite_run.
    destruct (suite_run suite (suite_context_for q decoder) (world q)) as [ores w'] eqn:Hrun.
    cbv zeta. simpl fst. simpl snd.
    set (ev := SuiteRun suite (suite_context_for q decoder) ores).
    set (q' := emit ev (with_world w' q)).
    assert (Hframe : frame_inner q0 q') by (repeat split; assumption).
    assert (Htr : trace q' = trace q0 ++ new ++ [ev]).
    { unfold q'. simpl. rewrite Ht, app_assoc. reflexivity. }
    assert (Hp : pairs_of (new ++ [ev])
                 = map (pair suite) (filter (codec_match suite) (done ++ [decoder]))).
    { unfold ev. rewrite pairs_of_snoc_run, Hpairs, Hsnoc, map_app. reflexivity. }
    assert (Hev' : Forall (suite_run_of (ctx q0) (fl_results_dir (self q0)) suite decoders)
                     (new ++ [ev])).
    { apply Forall_app. split; [exact Hev |]. constructor; [| constructor].
      exists decoder, ores. split; [rewrite Hl; apply in_elt |].
      unfold ev, suite_context_for. rewrite Hc, Hs. reflexivity. }
    destruct ores as [res |].
    + destruct (has_errors res) eqn:Herr.
      * destruct (cx_failfast (ctx q)) eqn:Hfast.
        -- unfold post, stop_inner; simpl. split; [exact Hframe |].
           exists (new ++ [ev]), (map (pair suite) (filter (codec_match suite) rest)).
           split; [exact Htr |]. split; [exact Hev' |].
           split; [rewrite Hp, Hl, filter_split, map_app; reflexivity |].
           split; [rewrite existsb_snoc; unfold ev; simpl; rewrite Herr;
                   apply orb_true_r |].
           split; [reflexivity | rewrite <- Hc; exact Hfast].
        -- unfold post, shape_inner; simpl. split; [exact Hframe |].
           exists (new ++ [ev]). split; [exact Htr |]. split; [exact Hev' |].
           split; [exact Hp |].
           rewrite existsb_snoc. unfold ev. simpl. rewrite Herr, !orb_true_r. reflexivity.
      * unfold post, shape_inner; simpl. split; [exact Hframe |].
        exists (new ++ [ev]). split; [exact Htr |]. split; [exact Hev' |].
        split; [exact Hp |].
        rewrite existsb_snoc. unfold ev. simpl. rewrite Herr, orb_false_r. exact Herror.
    + unfold post, shape_inner; simpl. split; [exact Hframe |].
      exists (new ++ [ev]). split; [exact Htr |]. split; [exact Hev' |].
      split; [exact Hp |].
      rewrite existsb_snoc. unfold ev. simpl. rewrite orb_false_r. exact Herror.
Qed.

(** The summary of a suite: lines only, and no other exception than the
    [KeyError] of a missing vector. *)
Lemma summary_step_shape (b : bool) (results : Results) (q : State) :
  (b = true -> nonempty results = true) ->
  let r := when b (_generate_summary results) q in
  ctx (snd r) = ctx q /\ self (snd r) = self q /\ load_cached (snd r) = load_cached q /\
  (exists lines, trace (snd r) = trace q ++ lines /\ quiet lines /\
                 (b = false -> lines = [])) /\
  (fst r = Return tt \/ (b = true /\ exists key, fst r = Raise (KeyError key))).
Proof.
  intros Hne. destruct b; simpl.
  - destruct (generate_summary_cases _ results q) as [Hc [Hs [Hl [[lines [Ht Hq]] [_ _]]]]].
    split; [exact Hc |]. split; [exact Hs |]. split; [exact Hl |].
    split; [exists lines; split; [exact Ht | split; [exact Hq | discriminate]] |].
    destruct results as [| [decoder first] rest]; [discriminate (Hne eq_refl) |].
    unfold _generate_summary, bind, print at 1, lift.
    destruct (summary_output ((decoder, first) :: rest)) as [out | e | code] eqn:E; simpl.
    + left. reflexivity.
    + right. split; [reflexivity |].
      destruct (summary_output_raises _ _ E) as [[Habs _] | [key Hk]]; [discriminate |].
      exists key. rewrite Hk. reflexivity.
    + exfalso. exact (summary_output_no_exit _ _ E).
  - repeat split; try reflexivity.
    + exists []. split; [rewrite app_nil_r; reflexivity |].
      split; [apply quiet_nil | reflexivity].
    + left. reflexivity.
Qed.

Lemma matching_pairs_split (done rest : list TestSuite) (suite : TestSuite)
    (decoders : list Decoder) :
  matching_pairs (done ++ suite :: rest) decoders
  = matching_pairs (done ++ [suite]) decoders ++ matching_pairs rest decoders.
Proof.
  unfold matching_pairs. change (suite :: rest) with ([suite] ++ rest).
  rewrite app_assoc, flat_map_app. reflexivity.
Qed.

Lemma run_event_in_loop (c : Context) (results_dir : string) (suites : list TestSuite)
    (decoders : list Decoder) (suite : TestSuite) (t : list Event) :
  In suite suites ->
  Forall (suite_run_of c results_dir suite decoders) t ->
  Forall (loop_event c results_dir suites decoders) t.
Proof.
  intros Hin. apply Forall_impl. intros e He. left. exists suite. split; assumption.
Qed.

Lemma lines_in_loop (c : Context) (results_dir : string) (suites : list TestSuite)
    (decoders : list Decoder) (b : bool) (lines : list Event) :
  quiet lines -> (b = false -> lines = []) -> (b = true -> cx_summary c = true) ->
  Forall (loop_event c results_dir suites decoders) lines.
Proof.
  intros Hq Hnil Hsum. destruct b.
  - apply Forall_forall. intros e He. right. split; [apply Hsum; reflexivity |].
    exact (Hq e He).
  - rewrite (Hnil eq_refl). constructor.
Qed.

Lemma suite_run_of_settings (c c' : Context) (results_dir : string) (suite : TestSuite)
    (decoders : list Decoder) (e : Event) :
  same_settings c c' ->
  suite_run_of c' results_dir suite decoders e -> suite_run_of c results_dir suite decoders e.
Proof. intros [cur Hc]. subst c'. exact (fun H => H). Qed.

Lemma outer_loop_shape (q0 : State) (suites : list TestSuite) (decoders : list Decoder)
    (error0 : bool) :
  cx_decoders (ctx q0) = Objects decoders ->
  post (shape_outer q0 suites decoders error0 suites) (stop_outer q0 suites decoders)
       (for_each suites (run_suite suite_run) error0 q0).
Proof.
  intros Hd.
  apply (for_each_rule _ (shape_outer q0 suites decoders error0)
           (stop_outer q0 suites decoders)).
  - split; [repeat split; try reflexivity; apply same_settings_refl |].
    exists []. split; [rewrite app_nil_r; reflexivity |].
    split; [constructor |]. split; [reflexivity |]. simpl. rewrite orb_false_r. reflexivity.
  - intros done suite rest error q Hl [[Hset [Hs Hlc]] [new [Ht [Hev [Hpairs Herror]]]]].
    pose proof Hset as [cur Hcur].
    assert (Hdq : cx_decoders (ctx q) = Objects decoders) by (rewrite Hcur; exact Hd).
    rewrite (run_suite_unfold _ suite_run error suite q decoders Hdq). cbv zeta.
    set (q1 := with_ctx (set_test_suite (ctx q) (Some suite)) q).
    assert (Hc1 : ctx q1 = set_test_suite (ctx q0) (Some suite)).
    { unfold q1. simpl. rewrite Hcur. reflexivity. }
    assert (Hset1 : same_settings (ctx q0) (ctx q1)) by (exists (Some suite); exact Hc1).
    assert (Hin : In suite suites) by (rewrite Hl; apply in_elt).
    assert (Hconv : forall t,
               Forall (suite_run_of (ctx q1) (fl_results_dir (self q1)) suite decoders) t ->
               Forall (loop_event (ctx q0) (fl_results_dir (self q0)) suites decoders) t).
    { intros t Hforall. apply (run_event_in_loop _ _ _ _ suite); [exact Hin |].
      revert Hforall. apply Forall_impl. intros e He.
      apply (suite_run_of_settings _ (ctx q1)); [exact Hset1 |].
      unfold q1 in He. simpl in He. rewrite Hs in He. exact He. }
    pose proof (inner_loop_shape q1 suite decoders [] error
                  ltac:(rewrite Hc1; reflexivity)) as Hinner.
    destruct (for_each decoders _ _ q1) as [[acc | e | code] q2];
      unfold post in Hinner; simpl in Hinner.
    + destruct Hinner as [[Hc2 [Hs2 Hl2]] [new1 [Ht2 [Hev1 [Hp1 He1]]]]].
      assert (Hguard : cx_summary (ctx q2) && nonempty (fst acc) = true ->
                       nonempty (fst acc) = true).
      { intros H. apply andb_true_iff in H. apply H. }
      destruct (summary_step_shape (cx_summary (ctx q2) && nonempty (fst acc))
                  (fst acc) q2 Hguard)
        as [Hc3 [Hs3 [Hl3 [[lines [Ht3 [Hq Hnil]]] Ho]]]].
      destruct (when _ _ q2) as [o3 q3]. simpl in Hc3, Hs3, Hl3, Ht3, Ho.
      assert (Hframe : frame_outer q0 q3).
      { split; [exists (Some suite); rewrite Hc3, Hc2; exact Hc1 |].
        split; [rewrite Hs3, Hs2; exact Hs | rewrite Hl3, Hl2; exact Hlc]. }
      assert (Htr : trace q3 = trace q0 ++ (new ++ new1 ++ lines)).
      { rewrite Ht3, Ht2. unfold q1. simpl. rewrite Ht, <- !app_assoc. reflexivity. }
      assert (Hev3 : Forall (loop_event (ctx q0) (fl_results_dir (self q0)) suites decoders)
                       (new ++ new1 ++ lines)).
      { apply Forall_app. split; [exact Hev |]. apply Forall_app.
        split; [apply Hconv; exact Hev1 |].
        apply (lines_in_loop _ _ _ _ (cx_summary (ctx q2) && nonempty (fst acc)));
          [exact Hq | exact Hnil |].
        intros H. apply andb_true_iff in H. destruct H as [H _].
        rewrite Hc2, Hc1 in H. exact H. }
      assert (Hp3 : pairs_of (new ++ new1 ++ lines)
                    = matching_pairs (done ++ [suite]) decoders).
      { rewrite !pairs_of_app, (quiet_pairs lines Hq), app_nil_r, Hpairs, Hp1.
        symmetry. apply matching_pairs_snoc. }
      destruct Ho as [Ho | [Hb [key Ho]]]; subst o3; unfold post; simpl.
      * split; [exact Hframe |]. exists (new ++ new1 ++ lines).
        split; [exact Htr |]. split; [exact Hev3 |]. split; [exact Hp3 |].
        rewrite !existsb_app, (quiet_no_failure lines Hq), orb_false_r, He1, Herror.
        rewrite orb_assoc. reflexivity.
      * split; [exact Hframe |].
        exists (new ++ new1 ++ lines), (matching_pairs rest decoders).
        split; [exact Htr |]. split; [exact Hev3 |].
        split; [rewrite Hp3, Hl; apply matching_pairs_split |].
        right. exists key. split; [reflexivity |].
        apply andb_true_iff in Hb. destruct Hb as [Hb _].
        rewrite Hc2, Hc1 in Hb. exact Hb.
    + destruct Hinner as [_ [t' [tail [_ [_ [_ [_ [Habs _]]]]]]]]. discriminate Habs.
    + destruct Hinner as [[Hc2 [Hs2 Hl2]] [new1 [tail [Ht2 [Hev1 [Hp1 [Hfail [Ho Hfast]]]]]]]].
      inversion Ho; subst code. unfold post; simpl.
      split.
      { split; [exists (Some suite); rewrite Hc2; exact Hc1 |].
        split; [rewrite Hs2; exact Hs | rewrite Hl2; exact Hlc]. }
      exists (new ++ new1), (tail ++ matching_pairs rest decoders).
      split; [rewrite Ht2; unfold q1; simpl; rewrite Ht, <- !app_assoc; reflexivity |].
      split; [apply Forall_app; split; [exact Hev | apply Hconv; exact Hev1] |].
      split.
      { rewrite Hl, matching_pairs_split, matching_pairs_snoc, Hp1, pairs_of_app, Hpairs.
        rewrite <- !app_assoc. reflexivity. }
      left. split; [reflexivity |]. split; [rewrite Hc1 in Hfast; exact Hfast |].
      rewrite existsb_app, Hfail. apply orb_true_r.
Qed.

(** The loop with its exit status: the pairs run are a prefix of the
    matching pairs, all of them unless the run was cut short. *)
Lemma run_loop_shape (q0 : State) (suites : list TestSuite) (decoders : list Decoder) :
  cx_test_suites (ctx q0) = Objects suites ->
  cx_decoders (ctx q0) = Objects decoders ->
  let r := loop q0 in
  exists new tail,
    trace (snd r) = trace q0 ++ new /\
    Forall (loop_event (ctx q0) (fl_results_dir (self q0)) suites decoders) new /\
    matching_pairs suites decoders = pairs_of new ++ tail /\
    ((fst r = Return tt /\ tail = [] /\ existsb failed_run new = false) \/
     (fst r = SysExit 1%Z /\ existsb failed_run new = true /\
      (cx_failfast (ctx q0) = false -> tail = [])) \/
     (exists key, fst r = Raise (KeyError key) /\ cx_summary (ctx q0) = true)).
Proof.
  intros Hs Hd. unfold run_loop, bind, get_ctx, lift. simpl. rewrite Hs. simpl.
  pose proof (outer_loop_shape q0 suites decoders false Hd) as Hout.
  destruct (for_each suites _ false q0) as [[error | e | code] q']; unfold post in Hout;
    simpl in Hout.
  - destruct Hout as [_ [new [Ht [Hev [Hp He]]]]]. simpl in He. subst error.
    exists new, []. rewrite app_nil_r.
    destruct (existsb failed_run new) eqn:Hf; simpl;
      (split; [exact Ht |]); (split; [exact Hev |]); (split; [symmetry; exact Hp |]).
    + right. left. repeat split; reflexivity.
    + left. repeat split; reflexivity.
  - destruct Hout as [_ [new [tail [Ht [Hev [Hp [[Habs _] | [key [Hk Hsum]]]]]]]]];
      [discriminate |].
    exists new, tail. split; [exact Ht |]. split; [exact Hev |]. split; [exact Hp |].
    right. right. exists key. split; [inversion Hk; reflexivity | exact Hsum].
  - destruct Hout as [_ [new [tail [Ht [Hev [Hp [[Ho [Hfast Hf]] | [key [Habs _]]]]]]]]];
      [| discriminate].
    exists new, tail. split; [exact Ht |]. split; [exact Hev |]. split; [exact Hp |].
    right. left. split; [inversion Ho; reflexivity |]. split; [exact Hf |].
    intros Hnf. rewrite Hnf in Hfast. discriminate.
Qed.

(** *** The anatomy of a run *)

Lemma lowered_raises {A : Type} (v : Sel A) (e : Exn) :
  lowered lower v = Raise e -> e = AttributeError /\ exists x l, v = Objects (x :: l).
Proof.
  destruct v as [names | [| x l]]; simpl; intros H; inversion H.
  split; [reflexivity | exists x, l; reflexivity].
Qed.

Lemma get_run_param_raises {A : Type} (name_of : A -> string) (f : option (list string))
    (check_list : list A) (name : string) (e : Exn) :
  _get_run_param lower name_of f check_list name = Raise e ->
  e = NoMatch name (items f) /\ truthy f = true /\
  forall x, In x check_list -> ~ In (lower (name_of x)) (items f).
Proof.
  unfold _get_run_param. destruct (truthy f); [| discriminate].
  destruct (filter _ check_list) as [| y l] eqn:E; simpl; intros H; inversion H.
  split; [reflexivity |]. split; [reflexivity |].
  intros x Hin Hm.
  assert (Hx : In x (filter (fun x => mem (lower (name_of x)) (items f)) check_list)).
  { apply filter_In. split; [exact Hin | apply mem_In; exact Hm]. }
  rewrite E in Hx. destruct Hx.
Qed.

Lemma get_run_param_incl {A : Type} (name_of : A -> string) (f : option (list string))
    (check_list run : list A) (name : string) :
  _get_run_param lower name_of f check_list name = Return run -> incl run check_list.
Proof.
  unfold _get_run_param. destruct (truthy f).
  - destruct (filter _ check_list) as [| y l] eqn:E; simpl; intros H; inversion H.
    rewrite <- E. intros x Hx. apply filter_In in Hx. apply Hx.
  - intros H; inversion H. apply incl_refl.
Qed.

(** A run ends on a configuration error right after the loading, or it
    reaches the loop with a selection, prints the reference line if
    asked to, and runs a prefix of the matching pairs. *)
Lemma run_anatomy (p : State) :
  let p1 := snd (load p) in
  let r := run p in
  (trace (snd r) = trace p1 /\ world (snd r) = world p1 /\
   ((fst r = Raise AttributeError /\
     ((exists x l, cx_test_suites (ctx p) = Objects (x :: l)) \/
      (exists x l, cx_decoders (ctx p) = Objects (x :: l)))) \/
    (exists f, fst r = Raise (NoMatch "test suite" f)) \/
    (exists f, fst r = Raise (NoMatch "decoders" f)) \/
    (exists decoders, fst r = Raise (PyException (reference_message decoders)) /\
                      cx_reference (ctx p) = true))) \/
  (exists sf df suites decoders new tail,
     lowered lower (cx_test_suites (ctx p)) = Return sf /\
     lowered lower (cx_decoders (ctx p)) = Return df /\
     _get_run_param lower ts_name sf (fl_test_suites (self p1)) "test suite" = Return suites /\
     _get_run_param lower dec_name df (fl_decoders (self p)) "decoders" = Return decoders /\
     (cx_reference (ctx p) = true -> length decoders = 1) /\
     trace (snd r)
       = trace p1 ++ (if cx_reference (ctx p) then [Print "Reference mode"] else []) ++ new /\
     Forall (loop_event (normalized lower (ctx p) suites decoders) (fl_results_dir (self p))
               suites decoders) new /\
     matching_pairs suites decoders = pairs_of new ++ tail /\
     ((fst r = Return tt /\ tail = [] /\ existsb failed_run new = false) \/
      (fst r = SysExit 1%Z /\ existsb failed_run new = true /\
       (cx_failfast (ctx p) = false -> tail = [])) \/
      (exists key, fst r = Raise (KeyError key) /\ cx_summary (ctx p) = true))).
Proof.
  intros p1 r.
  destruct (load_frame _ os_walk from_json_file p) as [Hw1 [Hc1 [Hd1 [Hr1 _]]]].
  fold p1 in Hw1, Hc1, Hd1, Hr1.
  assert (Hrun : r = bind (_normalize_context lower) (fun _ => bind reference_check (fun _ => loop)) p1)
    by apply run_unfold.
  unfold bind at 1 in Hrun.
  assert (Hnorm : _normalize_context lower p1 =
            match lowered lower (cx_test_suites (ctx p1)) with
            | Return sf =>
                match lowered lower (cx_decoders (ctx p1)) with
                | Return df =>
                    match _get_run_param lower ts_name sf (fl_test_suites (self p1)) "test suite" with
                    | Return suites =>
                        match _get_run_param lower dec_name df (fl_decoders (self p1)) "decoders" with
                        | Return decoders =>
                            (Return tt, with_ctx (normalized lower (ctx p1) suites decoders) p1)
                        | Raise e =>
                            (Raise e,
                             with_ctx (set_test_suites
                                         (lowercased lower (ctx p1) sf df) (Objects suites)) p1)
                        | SysExit code =>
                            (SysExit code,
                             with_ctx (set_test_suites
                                         (lowercased lower (ctx p1) sf df) (Objects suites)) p1)
                        end
                    | Raise e => (Raise e, with_ctx (lowercased lower (ctx p1) sf df) p1)
                    | SysExit code => (SysExit code, with_ctx (lowercased lower (ctx p1) sf df) p1)
                    end
                | Raise e => (Raise e, with_ctx (set_test_suites (ctx p1) (Names sf)) p1)
                | SysExit code =>
                    (SysExit code, with_ctx (set_test_suites (ctx p1) (Names sf)) p1)
                end
            | Raise e => (Raise e, p1)
            | SysExit code => (SysExit code, p1)
            end).
  { unfold _normalize_context, bind, lift, get_ctx, get_self, put_ctx; simpl.
    destruct (lowered lower (cx_test_suites (ctx p1))); reflexivity. }
  rewrite Hnorm in Hrun. clear Hnorm. rewrite Hc1, Hd1 in Hrun.
  destruct (lowered lower (cx_test_suites (ctx p))) as [sf | e | code] eqn:E1.
  2:{ left. rewrite Hrun. simpl. split; [reflexivity |]. split; [reflexivity |].
      destruct (lowered_raises _ _ E1) as [He Hobj]. subst e.
      left. split; [reflexivity | left; exact Hobj]. }
  2:{ exfalso. exact (lowered_no_exit _ _ _ E1). }
  destruct (lowered lower (cx_decoders (ctx p))) as [df | e | code] eqn:E2.
  2:{ left. rewrite Hrun. simpl. split; [reflexivity |]. split; [reflexivity |].
      destruct (lowered_raises _ _ E2) as [He Hobj]. subst e.
      left. split; [reflexivity | right; exact Hobj]. }
  2:{ exfalso. exact (lowered_no_exit _ _ _ E2). }
  destruct (_get_run_param lower ts_name sf (fl_test_suites (self p1)) "test suite")
    as [suites | e | code] eqn:E3.
  2:{ left. rewrite Hrun. simpl. split; [reflexivity |]. split; [reflexivity |].
      destruct (get_run_param_raises _ _ _ _ _ E3) as [He _]. subst e.
      right. left. eexists. reflexivity. }
  2:{ exfalso. exact (get_run_param_no_exit _ _ _ _ _ _ E3). }
  destruct (_get_run_param lower dec_name df (fl_decoders (self p)) "decoders")
    as [decoders | e | code] eqn:E4.
  2:{ left. rewrite Hrun. simpl. split; [reflexivity |]. split; [reflexivity |].
      destruct (get_run_param_raises _ _ _ _ _ E4) as [He _]. subst e.
      right. right. left. eexists. reflexivity. }
  2:{ exfalso. exact (get_run_param_no_exit _ _ _ _ _ _ E4). }
  set (p2 := with_ctx (normalized lower (ctx p) suites decoders) p1) in Hrun.
  assert (Hb : bind reference_check (fun _ => loop) p2
               = match reference_check p2 with
                 | (Return _, p') => loop p'
                 | (Raise e, p') => (Raise e, p')
                 | (SysExit code, p') => (SysExit code, p')
                 end) by reflexivity.
  rewrite Hb, (reference_check_spec _ p2 decoders eq_refl) in Hrun. clear Hb.
  change (cx_reference (ctx p2)) with (cx_reference (ctx p)) in Hrun.
  assert (Hloop : forall q lines,
             r = loop q -> ctx q = normalized lower (ctx p) suites decoders -> self q = self p1 ->
             trace q = trace p1 ++ lines ->
             lines = (if cx_reference (ctx p) then [Print "Reference mode"] else []) ->
             (cx_reference (ctx p) = true -> length decoders = 1) ->
             exists new tail,
               trace (snd r)
                 = trace p1 ++ (if cx_reference (ctx p) then [Print "Reference mode"] else [])
                   ++ new /\
               Forall (loop_event (normalized lower (ctx p) suites decoders)
                         (fl_results_dir (self p)) suites decoders) new /\
               matching_pairs suites decoders = pairs_of new ++ tail /\
               ((fst r = Return tt /\ tail = [] /\ existsb failed_run new = false) \/
                (fst r = SysExit 1%Z /\ existsb failed_run new = true /\
                 (cx_failfast (ctx p) = false -> tail = [])) \/
                (exists key, fst r = Raise (KeyError key) /\ cx_summary (ctx p) = true))).
  { intros q lines Hr Hcq Hsq Htq Hlines _.
    destruct (run_loop_shape q suites decoders
                ltac:(rewrite Hcq; reflexivity) ltac:(rewrite Hcq; reflexivity))
      as [new [tail [Ht [Hev [Hp Hend]]]]].
    rewrite <- Hr in Ht, Hend. rewrite Hcq, Hsq, Hr1 in Hev.
    exists new, tail. split; [rewrite Ht, Htq, Hlines, <- app_assoc; reflexivity |].
    split; [exact Hev |]. split; [exact Hp |].
    rewrite Hcq in Hend. exact Hend. }
  destruct (cx_reference (ctx p)) eqn:Er.
  - destruct (Nat.eqb (length decoders) 1) eqn:El.
    + right. exists sf, df, suites, decoders.
      destruct (Hloop (emit (Print "Reference mode") p2) [Print "Reference mode"]
                  Hrun eq_refl eq_refl eq_refl eq_refl
                  (fun _ => proj1 (Nat.eqb_eq _ _) El)) as [new [tail H]].
      exists new, tail. do 4 (split; [first [reflexivity | assumption] |]).
      split; [intros _; apply Nat.eqb_eq; exact El | exact H].
    + left. rewrite Hrun. simpl. split; [reflexivity |]. split; [reflexivity |].
      right. right. right. exists decoders. split; reflexivity.
  - right. exists sf, df, suites, decoders.
    destruct (Hloop p2 [] Hrun eq_refl eq_refl
                ltac:(simpl; rewrite app_nil_r; reflexivity) eq_refl
                ltac:(discriminate)) as [new [tail H]].
    exists new, tail. do 4 (split; [first [reflexivity | assumption] |]).
    split; [discriminate | exact H].
Qed.

Lemma in_since_load (p : State) (e : Event) (rest : list Event) :
  trace (snd (run p)) = trace (snd (load p)) ++ rest ->
  In e (since p (snd (run p))) -> is_suite_run e = true -> In e rest.
Proof.
  intros Ht Hin Hrun.
  destruct (load_trace _ os_walk from_json_file p) as [lines [Hl Hq]].
  rewrite (since_extends _ p (snd (run p)) (lines ++ rest)) in Hin
    by (rewrite Ht, Hl, app_assoc; reflexivity).
  apply in_app_or in Hin. destruct Hin as [Hin | Hin]; [| exact Hin].
  destruct (Hq e Hin) as [line He]. subst e. discriminate Hrun.
Qed.

(** *** Whole runs, whatever the summary does *)

(** A run whose configuration is accepted executes a prefix of the
    matching pairs and ends in one of three ways. *)
Lemma run_unless_summary_fails (p p2 : State) (suites : list TestSuite)
    (decoders : list Decoder) :
  _normalize_context lower (snd (load p)) = (Return tt, p2) ->
  cx_test_suites (ctx p2) = Objects suites ->
  cx_decoders (ctx p2) = Objects decoders ->
  (cx_reference (ctx p) = true -> length decoders = 1) ->
  exists tail,
    matching_pairs suites decoders = pairs_of (since p (snd (run p))) ++ tail /\
    ((fst (run p) = Return tt /\ tail = [] /\
      existsb failed_run (since p (snd (run p))) = false) \/
     (fst (run p) = SysExit 1%Z /\ existsb failed_run (since p (snd (run p))) = true /\
      (cx_failfast (ctx p) = false -> tail = [])) \/
     (exists key, fst (run p) = Raise (KeyError key) /\ cx_summary (ctx p) = true)).
Proof.
  intros Hn Hsu Hde Href.
  destruct (load_frame _ os_walk from_json_file p) as [_ [Hc1 _]].
  pose proof (normalize_frame _ lower (snd (load p))) as Hf. rewrite Hn in Hf. simpl in Hf.
  destruct Hf as [_ [_ [_ [_ [_ [_ [F3 [_ [_ [F6 _]]]]]]]]]].
  rewrite Hc1 in F3, F6.
  destruct (run_reaches_loop _ lower os_walk from_json_file suite_run p p2 decoders
              Hn Hde Href) as [q [lines [Hrun [Hcq [_ [Htq Hq]]]]]].
  destruct (run_loop_shape q suites decoders
              ltac:(rewrite Hcq; exact Hsu) ltac:(rewrite Hcq; exact Hde))
    as [new0 [tail [Ht [_ [Hp Hend]]]]].
  rewrite <- Hrun in Ht, Hend. rewrite Hcq, F3, F6 in Hend.
  assert (Hsince : since p (snd (run p)) = lines ++ new0).
  { apply since_extends. rewrite Ht, Htq, <- app_assoc. reflexivity. }
  exists tail. rewrite Hsince, pairs_of_app, existsb_app.
  rewrite (quiet_pairs _ Hq), (quiet_no_failure _ Hq). simpl.
  split; [exact Hp | exact Hend].
Qed.

(** C1: a test-suite or decoder filter with names in it that matches no
    loaded suite, or no registered decoder, by case-insensitive equality
    of names makes the run raise the error that names the lower-cased
    filter, with no event after the loading and the world untouched;
    without filters all suites and all decoders are selected, and a
    filter that matches selects exactly the entries it matches.  The
    vector filter is not checked: what the resolver answers does not
    depend on it, and every suite run of the run gets it lower-cased. *)
Theorem unmatched_filter_fails_before_any_run (p : State) (sf df : option (list string)) :
  cx_test_suites (ctx p) = Names sf ->
  cx_decoders (ctx p) = Names df ->
  let p1 := snd (load p) in
  let catalogue := fl_test_suites (self p1) in
  let registry := fl_decoders (self p1) in
  (forall f, sf = Some f -> f <> [] ->
     (forall t, In t catalogue -> ~ matches_ci lower (ts_name t) f) ->
     fst (run p) = Raise (NoMatch "test suite" (map lower f)) /\
     since p1 (snd (run p)) = [] /\ world (snd (run p)) = world p) /\
  (forall f suites, df = Some f -> f <> [] ->
     _get_run_param lower ts_name (option_map (map lower) sf) catalogue "test suite"
       = Return suites ->
     (forall d, In d registry -> ~ matches_ci lower (dec_name d) f) ->
     fst (run p) = Raise (NoMatch "decoders" (map lower f)) /\
     since p1 (snd (run p)) = [] /\ world (snd (run p)) = world p) /\
  (truthy sf = false -> truthy df = false ->
     _normalize_context lower p1
       = (Return tt, with_ctx (normalized lower (ctx p) catalogue registry) p1)) /\
  (forall p2 suites decoders,
     _normalize_context lower p1 = (Return tt, p2) ->
     cx_test_suites (ctx p2) = Objects suites ->
     cx_decoders (ctx p2) = Objects decoders ->
     (truthy sf = false -> suites = catalogue) /\
     (truthy df = false -> decoders = registry) /\
     (forall f, sf = Some f -> f <> [] ->
        forall t, In t suites <-> In t catalogue /\ matches_ci lower (ts_name t) f) /\
     (forall f, df = Some f -> f <> [] ->
        forall d, In d decoders <-> In d registry /\ matches_ci lower (dec_name d) f)) /\
  (forall tv,
     fst (_normalize_context lower (with_ctx (set_test_vectors (ctx p1) tv) p1))
     = fst (_normalize_context lower p1)) /\
  (forall suite c res, In (SuiteRun suite c res) (since p (snd (run p))) ->
     sc_test_vectors c = option_map (map lower) (cx_test_vectors (ctx p))).
Proof.
  intros Hs Hd p1 catalogue registry.
  destruct (resolver_checks_suites_and_decoders _ lower os_walk from_json_file suite_run
              p sf df Hs Hd) as [Hsuites [Hdecoders [Hall Hsel]]].
  split; [exact Hsuites |]. split; [exact Hdecoders |].
  split; [exact Hall |]. split; [exact Hsel |].
  destruct (load_frame _ os_walk from_json_file p) as [_ [Hc1 _]]. fold p1 in Hc1.
  split.
  - intros tv.
    rewrite (normalize_fresh _ lower (with_ctx (set_test_vectors (ctx p1) tv) p1) sf df)
      by (simpl; rewrite Hc1; assumption).
    rewrite (normalize_fresh _ lower p1 sf df) by (rewrite Hc1; assumption).
    cbv zeta. simpl self.
    destruct (_get_run_param lower ts_name _ _ _); try reflexivity.
    destruct (_get_run_param lower dec_name _ _ _); reflexivity.
  - intros suite c res Hin.
    destruct (run_anatomy p) as
      [[Ht _] |
       [sf' [df' [suites [decoders [new [tail [_ [_ [_ [_ [_ [Ht [Hev _]]]]]]]]]]]]]].
    + exfalso. apply (in_since_load p _ []) in Hin;
        [destruct Hin | rewrite app_nil_r; exact Ht | reflexivity].
    + apply (in_since_load p _ _ Ht) in Hin; [| reflexivity].
      apply in_app_or in Hin. destruct Hin as [Hin | Hin].
      { destruct (cx_reference (ctx p)); [destruct Hin as [Habs | []]; discriminate Habs
                                         | destruct Hin]. }
      rewrite Forall_forall in Hev.
      destruct (Hev _ Hin) as [[suite' [_ [decoder [res' [_ He]]]]] | [_ [line Habs]]];
        [| discriminate Habs].
      inversion He; subst. reflexivity.
Qed.



(** X1: a run ends in one of seven ways, and never on [IndexError] or
    [TypeError]: it returns, it exits with status 1, it raises one of
    the two "nothing found" errors, the reference error (in reference
    mode only), the [KeyError] of a summary (with summaries only), or
    [AttributeError] (only for a context that already holds objects). *)
Theorem run_ends_in_one_of_seven_ways (p : State) :
  run_ending (fst (run p)) /\
  (fst (run p) = Raise AttributeError ->
     (exists x l, cx_test_suites (ctx p) = Objects (x :: l)) \/
     (exists x l, cx_decoders (ctx p) = Objects (x :: l))) /\
  (forall key, fst (run p) = Raise (KeyError key) -> cx_summary (ctx p) = true) /\
  (forall decoders, fst (run p) = Raise (PyException (reference_message decoders)) ->
     cx_reference (ctx p) = true).
Proof.
  assert (Hcases :
    (fst (run p) = Raise AttributeError /\
     ((exists x l, cx_test_suites (ctx p) = Objects (x :: l)) \/
      (exists x l, cx_decoders (ctx p) = Objects (x :: l)))) \/
    (exists f, fst (run p) = Raise (NoMatch "test suite" f)) \/
    (exists f, fst (run p) = Raise (NoMatch "decoders" f)) \/
    (exists decoders, fst (run p) = Raise (PyException (reference_message decoders)) /\
                      cx_reference (ctx p) = true) \/
    fst (run p) = Return tt \/ fst (run p) = SysExit 1%Z \/
    (exists key, fst (run p) = Raise (KeyError key) /\ cx_summary (ctx p) = true)).
  { destruct (run_anatomy p) as [[_ [_ Hconf]] | Hloop].
    - destruct Hconf as [H | [H | [H | H]]]; auto.
    - destruct Hloop as [sf [df [suites [decoders [new [tail H]]]]]].
      destruct H as [_ [_ [_ [_ [_ [_ [_ [_ Hend]]]]]]]].
      destruct Hend as [[Ho _] | [[Ho _] | Hk]]; auto 10. }
  destruct Hcases as [[Ho Hobj] | [[f Ho] | [[f Ho] | [[ds [Ho Href]] |
                      [Ho | [Ho | [key [Ho Hsum]]]]]]]];
    rewrite Ho; (split; [constructor |]);
    (split; [first [intros _; exact Hobj | discriminate] |]);
    (split; [intros k Hk; first [discriminate Hk | exact Hsum] |]);
    intros ds' Hds; first [discriminate Hds | exact Href].
Qed.

(** X2: every suite run of a run is for a loaded suite and a registered
    decoder, and gets the caller's [jobs], [timeout], [failfast],
    [quiet], [reference] and [keep_files], the instance's results
    directory and the lower-cased vector filter. *)
Theorem every_suite_run_gets_the_callers_settings (p : State) (suite : TestSuite)
    (c : SuiteContext) (res : option TestSuite) :
  In (SuiteRun suite c res) (since p (snd (run p))) ->
  In suite (fl_test_suites (self (snd (load p)))) /\
  In (sc_decoder c) (fl_decoders (self p)) /\
  c = to_test_suite_context (ctx p) (sc_decoder c) (fl_results_dir (self p))
        (option_map (map lower) (cx_test_vectors (ctx p))).
Proof.
  intros Hin.
  destruct (run_anatomy p) as
    [[Ht _] |
     [sf [df [suites [decoders [new [tail [_ [_ [Hsu [Hde [_ [Ht [Hev _]]]]]]]]]]]]]].
  - exfalso. apply (in_since_load p _ []) in Hin;
      [destruct Hin | rewrite app_nil_r; exact Ht | reflexivity].
  - apply (in_since_load p _ _ Ht) in Hin; [| reflexivity].
    apply in_app_or in Hin. destruct Hin as [Hin | Hin].
    { destruct (cx_reference (ctx p)); [destruct Hin as [Habs | []]; discriminate Habs
                                       | destruct Hin]. }
    rewrite Forall_forall in Hev.
    destruct (Hev _ Hin) as [[suite' [Hs [decoder [res' [Hd He]]]]] | [_ [line Habs]]];
      [| discriminate Habs].
    inversion He; subst. simpl.
    split; [exact (get_run_param_incl _ _ _ _ _ Hsu _ Hs) |].
    split; [exact (get_run_param_incl _ _ _ _ _ Hde _ Hd) | reflexivity].
Qed.

(** X3: with summaries off, the only line a run prints after the
    loading is the announcement of reference mode. *)
Theorem run_without_summary_prints_no_table (p : State) (line : string) :
  cx_summary (ctx p) = false ->
  In (Print line) (since (snd (load p)) (snd (run p))) ->
  line = "Reference mode" /\ cx_reference (ctx p) = true.
Proof.
  intros Hsum Hin.
  destruct (run_anatomy p) as
    [[Ht _] |
     [sf [df [suites [decoders [new [tail [_ [_ [_ [_ [_ [Ht [Hev _]]]]]]]]]]]]]].
  - rewrite (since_refl_trace _ _ _ Ht) in Hin. destruct Hin.
  - rewrite (since_extends _ _ _ _ Ht) in Hin.
    apply in_app_or in Hin. destruct Hin as [Hin | Hin].
    + destruct (cx_reference (ctx p)); [| destruct Hin].
      destruct Hin as [E | []]. inversion E. split; reflexivity.
    + exfalso. rewrite Forall_forall in Hev.
      destruct (Hev _ Hin) as [[suite [_ [decoder [res [_ Habs]]]]] | [Habs _]];
        [discriminate Habs |].
      simpl in Habs. rewrite Hsum in Habs. discriminate Habs.
Qed.

(** X4: the pairs a run executes are, in order, a prefix of the selected
    pairs of equal codec taken suite by suite; the run returns normally
    only after all of them, none with errors, and exits with status 1
    only after a run with errors. *)
Theorem executed_pairs_are_a_prefix (p p2 : State) (suites : list TestSuite)
    (decoders : list Decoder) :
  _normalize_context lower (snd (load p)) = (Return tt, p2) ->
  cx_test_suites (ctx p2) = Objects suites ->
  cx_decoders (ctx p2) = Objects decoders ->
  let executed := pairs_of (since p (snd (run p))) in
  (exists tail, matching_pairs suites decoders = executed ++ tail) /\
  (fst (run p) = Return tt ->
     executed = matching_pairs suites decoders /\
     existsb failed_run (since p (snd (run p))) = false) /\
  (fst (run p) = SysExit 1%Z -> existsb failed_run (since p (snd (run p))) = true).
Proof.
  intros Hn Hsu Hde executed.
  destruct (load_trace _ os_walk from_json_file p) as [lines [Hl Hq]].
  destruct (load_frame _ os_walk from_json_file p) as [_ [Hc1 [Hd1 _]]].
  destruct (normalize_return _ _ _ _ Hn) as [sf [df [su [de [E1 [E2 [E3 [E4 Ep2]]]]]]]].
  rewrite Ep2 in Hsu, Hde. simpl in Hsu, Hde. inversion Hsu; inversion Hde; subst su de.
  rewrite Hc1 in E1, E2. rewrite Hd1 in E4.
  destruct (run_anatomy p) as
    [[Ht [_ Hconf]] |
     [sf' [df' [suites' [decoders' [new [tail
       [E1' [E2' [E3' [E4' [_ [Ht [Hev [Hp Hend]]]]]]]]]]]]]]].
  - assert (Hsince : since p (snd (run p)) = lines).
    { apply since_extends. rewrite Ht. exact Hl. }
    unfold executed. rewrite Hsince, (quiet_pairs _ Hq), (quiet_no_failure _ Hq).
    split; [exists (matching_pairs suites decoders); reflexivity |].
    destruct Hconf as [[Ho _] | [[f Ho] | [[f Ho] | [ds [Ho _]]]]]; rewrite Ho;
      split; discriminate.
  - rewrite E1 in E1'. inversion E1'; subst sf'.
    rewrite E2 in E2'. inversion E2'; subst df'.
    rewrite E3 in E3'. inversion E3'; subst suites'.
    rewrite E4 in E4'. inversion E4'; subst decoders'.
    set (ref := if cx_reference (ctx p) then [Print "Reference mode"] else []) in *.
    assert (Hqr : quiet ref).
    { unfold ref. destruct (cx_reference (ctx p)); [| apply quiet_nil].
      intros e [He | []]. subst e. eexists. reflexivity. }
    assert (Hsince : since p (snd (run p)) = lines ++ ref ++ new).
    { apply since_extends. rewrite Ht, Hl, <- !app_assoc. reflexivity. }
    unfold executed. rewrite Hsince, !pairs_of_app, !existsb_app.
    rewrite (quiet_pairs _ Hq), (quiet_pairs _ Hqr).
    rewrite (quiet_no_failure _ Hq), (quiet_no_failure _ Hqr). simpl.
    split; [exists tail; exact Hp |].
    destruct Hend as [[Ho [Htail Hf]] | [[Ho [Hf _]] | [key [Ho _]]]]; rewrite Ho.
    + split; [| discriminate]. intros _. subst tail. rewrite app_nil_r in Hp.
      split; [symmetry; exact Hp | exact Hf].
    + split; [discriminate |]. intros _. exact Hf.
    + split; discriminate.
Qed.

(** *** Using a context twice *)

Lemma load_cached_after_load (p : State) : load_cached (snd (load p)) = true.
Proof.
  rewrite load_spec. simpl. destruct (load_cached p) eqn:E; [exact E | reflexivity].
Qed.

Lemma run_of_used_context (q : State) :
  load_cached q = true ->
  (exists x l, cx_test_suites (ctx q) = Objects (x :: l)) \/
  (cx_test_suites (ctx q) = Objects [] /\ exists x l, cx_decoders (ctx q) = Objects (x :: l)) ->
  fst (run q) = Raise AttributeError /\ trace (snd (run q)) = trace q /\
  world (snd (run q)) = world q.
Proof.
  intros Hl Hobj.
  assert (Hload : snd (load q) = q) by (rewrite load_spec, Hl; reflexivity).
  rewrite run_unfold, Hload. unfold bind at 1.
  unfold _normalize_context, bind, lift, get_ctx, get_self, put_ctx; simpl.
  destruct Hobj as [[x [l Hs]] | [Hs [x [l Hd]]]]; rewrite Hs; simpl.
  - repeat split; reflexivity.
  - rewrite Hd. simpl. repeat split; reflexivity.
Qed.

(** X5: a context that went through a run that returned cannot be used
    for a second run: its filters now hold the selected objects, and as
    soon as one suite or one decoder was selected the second run raises
    [AttributeError] (objects have no [lower]) before anything happens. *)
Theorem a_used_context_cannot_run_again (p : State) :
  let q := snd (run p) in
  fst (run p) = Return tt ->
  cx_test_suites (ctx q) <> Objects [] \/ cx_decoders (ctx q) <> Objects [] ->
  fst (run q) = Raise AttributeError /\ trace (snd (run q)) = trace q /\
  world (snd (run q)) = world q.
Proof.
  intros q Hret Hne.
  assert (Hq : load_cached q = true /\
               exists suites decoders,
                 cx_test_suites (ctx q) = Objects suites /\
                 cx_decoders (ctx q) = Objects decoders).
  { unfold q in *. clear Hne.
    destruct (run_shape _ lower os_walk from_json_file suite_run p) as
      [[e [q' [Hrun _]]] |
       [p2 [q0 [suites [decoders [_ [_ [_ [Hc [_ [_ [Hl [_ [_ Hrun]]]]]]]]]]]]]].
    - rewrite Hrun in Hret. discriminate Hret.
    - rewrite Hrun.
      destruct (run_loop_general _ suite_run q0 suites decoders
                  ltac:(rewrite Hc; reflexivity) ltac:(rewrite Hc; reflexivity))
        as [[[cur Hcur] [_ Hl']] _].
      split; [rewrite Hl', Hl; apply load_cached_after_load |].
      exists suites, decoders. rewrite Hcur, Hc. split; reflexivity. }
  destruct Hq as [Hl [suites [decoders [Hs Hd]]]].
  apply run_of_used_context; [exact Hl |].
  destruct suites as [| x l].
  - right. split; [exact Hs |]. destruct decoders as [| y l'].
    + exfalso. destruct Hne as [H | H]; apply H; assumption.
    + exists y, l'. exact Hd.
  - left. exists x, l. exact Hs.
Qed.

(** *** Letter case in filters *)

Lemma load_with_ctx (c : Context) (p : State) :
  load (with_ctx c p) = (Return tt, with_ctx c (snd (load p))).
Proof.
  rewrite !load_spec. simpl. destruct (load_cached p); reflexivity.
Qed.

(** X6: filters are compared in lower case only: two contexts whose
    suite, decoder and vector filters agree up to letter case give the
    same run, with the same outcome, events and final context. *)
Theorem filters_ignore_letter_case (p : State) (sf df sf' df' tv' : option (list string)) :
  cx_test_suites (ctx p) = Names sf ->
  cx_decoders (ctx p) = Names df ->
  option_map (map lower) sf' = option_map (map lower) sf ->
  option_map (map lower) df' = option_map (map lower) df ->
  option_map (map lower) tv' = option_map (map lower) (cx_test_vectors (ctx p)) ->
  run (with_ctx (set_test_vectors
                   (set_decoders (set_test_suites (ctx p) (Names sf')) (Names df')) tv') p)
  = run p.
Proof.
  intros Hs Hd Es Ed Ev.
  set (c' := set_test_vectors
               (set_decoders (set_test_suites (ctx p) (Names sf')) (Names df')) tv').
  destruct (load_frame _ os_walk from_json_file p) as [_ [Hc1 _]].
  rewrite (run_unfold _ _ _ _ _ p), (run_unfold _ _ _ _ _ (with_ctx c' p)).
  rewrite load_with_ctx. simpl snd.
  set (p1 := snd (load p)) in *.
  assert (Hn : _normalize_context lower (with_ctx c' p1) = _normalize_context lower p1).
  { rewrite (normalize_fresh _ _ (with_ctx c' p1) sf' df' eq_refl eq_refl).
    rewrite (normalize_fresh _ _ p1 sf df) by (rewrite Hc1; assumption).
    cbv zeta. rewrite Es, Ed. simpl self.
    assert (Hlow : forall a b, lowercased lower (ctx (with_ctx c' p1)) a b = lowercased lower (ctx p1) a b).
    { intros a b. unfold lowercased, set_test_vectors, set_decoders, set_test_suites. simpl.
      rewrite Ev, Hc1. reflexivity. }
    assert (Hnorm : forall a b, normalized lower (ctx (with_ctx c' p1)) a b = normalized lower (ctx p1) a b).
    { intros a b. unfold normalized. simpl. rewrite Ev, Hc1. reflexivity. }
    rewrite Hlow.
    destruct (_get_run_param lower ts_name _ _ _); try reflexivity.
    destruct (_get_run_param lower dec_name _ _ _); try reflexivity.
    rewrite Hnorm. reflexivity. }
  unfold bind at 1. rewrite Hn. reflexivity.
Qed.

(** *** Nothing to run *)

Lemma inner_loop_no_match (suite : TestSuite) (decoders : list Decoder)
    (acc : Results * bool) (q : State) :
  cx_test_suite (ctx q) = Some suite ->
  (forall d, In d decoders -> codec_match suite d = false) ->
  for_each decoders (run_decoder suite_run) acc q = (Return acc, q).
Proof.
  intros Hsuite. induction decoders as [| d ds IH]; intros Hno; [reflexivity |].
  simpl. unfold bind. destruct acc as [results error].
  rewrite (run_decoder_spec _ suite_run results error d q suite Hsuite).
  rewrite (Hno d (or_introl eq_refl)).
  apply IH. intros d' Hd'. apply Hno. right. exact Hd'.
Qed.

Lemma outer_loop_no_match (suites : list TestSuite) (decoders : list Decoder)
    (error : bool) (q : State) :
  cx_decoders (ctx q) = Objects decoders ->
  matching_pairs suites decoders = [] ->
  exists current,
    for_each suites (run_suite suite_run) error q
    = (Return error, with_ctx (set_test_suite (ctx q) current) q).
Proof.
  revert q. induction suites as [| suite rest IH]; intros q Hd Hno.
  - exists (cx_test_suite (ctx q)). simpl. unfold ret. f_equal.
    destruct q as [w t s l c]; destruct c; reflexivity.
  - unfold matching_pairs in Hno. simpl in Hno. apply app_eq_nil in Hno.
    destruct Hno as [Hsuite Hrest].
    assert (Hnone : forall d, In d decoders -> codec_match suite d = false).
    { intros d Hin. destruct (codec_match suite d) eqn:E; [| reflexivity].
      exfalso. apply map_eq_nil in Hsuite.
      assert (Hf : In d (filter (codec_match suite) decoders))
        by (apply filter_In; split; assumption).
      rewrite Hsuite in Hf. destruct Hf. }
    simpl. unfold bind at 1.
    rewrite (run_suite_unfold _ suite_run error suite q decoders Hd). cbv zeta.
    rewrite (inner_loop_no_match suite decoders ([], error)) by (simpl; auto).
    simpl fst. simpl snd. rewrite andb_false_r. simpl.
    destruct (IH (with_ctx (set_test_suite (ctx q) (Some suite)) q) Hd Hrest)
      as [current Hloop].
    exists current. rewrite Hloop. reflexivity.
Qed.


(** *** A summary with a missing vector *)

(** X8: the summary of one or more results either finds every vector
    of the first result in every result and returns its text, or raises
    [KeyError] for the first vector, in row order, that some result
    lacks; the heading is then already printed and the table is not. *)
Theorem summary_raises_for_the_first_missing_vector (decoder : Decoder)
    (first : TestSuite) (rest : Results) :
  let results := (decoder, first) :: rest in
  ((forall tv r, In tv (dict_values (ts_test_vectors first)) -> In r results ->
      In (tv_name tv) (dict_keys (ts_test_vectors (snd r)))) /\
   exists out, summary_output results = Return out) \/
  (exists before tv after r,
     dict_values (ts_test_vectors first) = before ++ tv :: after /\
     (forall tv' r', In tv' before -> In r' results ->
        In (tv_name tv') (dict_keys (ts_test_vectors (snd r')))) /\
     In r results /\ dict_get (ts_test_vectors (snd r)) (tv_name tv) = None /\
     summary_output results = Raise (KeyError (tv_name tv)) /\
     forall q : State,
       _generate_summary results q
       = (Raise (KeyError (tv_name tv)), emit (Print (summary_heading results first)) q)).
Proof.
  intros results. unfold summary_output, results.
  match goal with |- context [summary_rows ?v ?t ?o] =>
    destruct (summary_rows_cases v t o)
      as [Hall | [before [tv [after [ts [E [Hbefore [Hin [Hnone Hraise]]]]]]]]] end.
  - left. split.
    + intros tv r Htv Hr. apply Hall; [exact Htv | apply in_map; exact Hr].
    + rewrite (summary_rows_spec _ _ _ Hall). eexists. reflexivity.
  - right. apply in_map_iff in Hin. destruct Hin as [r [Er Hr]]. subst ts.
    exists before, tv, after, r.
    split; [exact E |].
    split; [intros tv' r' Htv' Hr'; apply Hbefore; [exact Htv' | apply in_map; exact Hr'] |].
    split; [exact Hr |]. split; [exact Hnone |].
    assert (Hout : summary_output ((decoder, first) :: rest) = Raise (KeyError (tv_name tv))).
    { unfold summary_output. rewrite Hraise. reflexivity. }
    split; [exact Hout |].
    intros q. unfold _generate_summary, bind, print at 1, lift. rewrite Hout. reflexivity.
Qed.

End RunShape.

(** ** The other commands *)

Section Commands.

Variable World : Type.
Variable lower : string -> string.
Variable os_walk : World -> string -> list (string * list string).
Variable from_json_file : World -> string -> string -> TestSuite + string.
Variable suite_download : TestSuite -> Z -> string -> bool -> bool -> World -> World.
Variable decoder_str : Decoder -> string.
Variable decoder_check : World -> Decoder -> bool.
Variable suite_str : TestSuite -> string.
Variable vector_str : TestVector -> string.

Local Abbreviation load := (_load_test_suites os_walk from_json_file).
Local Abbreviation download := (download_test_suites os_walk from_json_file suite_download).
Local Abbreviation State := (Proc World).

(** *** Downloading everything *)

Lemma download_loop_world (l : list TestSuite) (jobs : Z) (keep_file : bool) (q : State) :
  world (snd (for_each l (fun _ t => download_suite suite_download jobs keep_file t) tt q))
  = fold_left (fun w t => suite_download t jobs (fl_resources_dir (self q)) true keep_file w)
      l (world q).
Proof.
  revert q. induction l as [| t l IH]; intros q; [reflexivity |].
  set (q1 := emit (SuiteDownload t jobs (fl_resources_dir (self q)) true keep_file)
               (with_world (suite_download t jobs (fl_resources_dir (self q)) true
                              keep_file (world q)) q)).
  change (for_each (t :: l) (fun _ t => download_suite suite_download jobs keep_file t) tt q)
    with (for_each l (fun _ t => download_suite suite_download jobs keep_file t) tt q1).
  rewrite IH. reflexivity.
Qed.

(** X9: without a filter ([None] or an empty list) the download command
    downloads every loaded suite, in catalogue order, each into the
    resources directory with verification on, and leaves the suite list
    as loaded. *)
Theorem download_without_filter_takes_every_suite (p : State)
    (names : option (list string)) (jobs : Z) (keep_file : bool) :
  truthy names = false ->
  let p1 := snd (load p) in
  let catalogue := fl_test_suites (self p1) in
  let r := download names jobs keep_file p in
  fst r = Return tt /\
  since p1 (snd r)
    = map (fun t => SuiteDownload t jobs (fl_resources_dir (self p)) true keep_file)
          catalogue /\
  world (snd r)
    = fold_left (fun w t => suite_download t jobs (fl_resources_dir (self p)) true keep_file w)
        catalogue (world p) /\
  fl_test_suites (self (snd r)) = catalogue.
Proof.
  intros Hno p1 catalogue r.
  assert (Hr : r = for_each catalogue
                     (fun _ t => download_suite suite_download jobs keep_file t) tt p1).
  { assert (Hl : load p = (Return tt, p1)) by (unfold p1; rewrite load_spec; reflexivity).
    unfold r, download_test_suites, bind at 1. rewrite Hl.
    unfold bind, get_self. simpl. rewrite Hno. reflexivity. }
  destruct (download_loop _ suite_download catalogue jobs keep_file p1)
    as [Ho [Ht [Hs _]]].
  pose proof (download_loop_world catalogue jobs keep_file p1) as Hw.
  rewrite <- Hr in Ho, Ht, Hs, Hw.
  destruct (load_frame _ os_walk from_json_file p) as [Hw1 [_ [_ [_ Hres]]]].
  fold p1 in Hw1, Hres.
  split; [exact Ho |].
  split; [apply since_extends; rewrite Ht, Hres; reflexivity |].
  split; [rewrite Hw, Hres, Hw1; reflexivity |].
  rewrite Hs. reflexivity.
Qed.

(** *** Listing the suites *)

Lemma print_vectors (vs : list TestVector) (q : State) :
  for_each vs (fun _ v => print (vector_str v)) tt q
  = (Return tt,
     {| world := world q; trace := trace q ++ map (fun v => Print (vector_str v)) vs;
        self := self q; load_cached := load_cached q; ctx := ctx q |}).
Proof.
  revert q. induction vs as [| v vs IH]; intros q.
  - simpl. unfold ret. rewrite app_nil_r. destruct q; reflexivity.
  - simpl. unfold bind, print at 1. rewrite IH. simpl. rewrite <- app_assoc. reflexivity.
Qed.

Ltac shown_suite show :=
  unfold bind, print at 1, when; destruct show;
  [ rewrite print_vectors; simpl; rewrite <- app_assoc; reflexivity | reflexivity ].

Lemma list_suite_spec (show : bool) (names : option (list string)) (s : TestSuite)
    (q : State) :
  list_suite lower suite_str vector_str show
    (if truthy names then Some (map lower (items names)) else names) s q
  = (Return tt,
     {| world := world q;
        trace := trace q ++ (if listed lower names s then suite_lines suite_str vector_str show s else []);
        self := self q; load_cached := load_cached q; ctx := ctx q |}).
Proof.
  unfold list_suite, listed.
  destruct names as [[| x l] |]; cbn [truthy items andb negb orb].
  - shown_suite show.
  - destruct (mem (lower (ts_name s)) (map lower (x :: l)));
      cbn [truthy items andb negb orb map].
    + shown_suite show.
    + unfold ret. rewrite app_nil_r. destruct q; reflexivity.
  - shown_suite show.
Qed.

Lemma list_suites_spec (show : bool) (names : option (list string)) (l : list TestSuite)
    (q : State) :
  for_each l
    (fun _ s => list_suite lower suite_str vector_str show
                  (if truthy names then Some (map lower (items names)) else names) s) tt q
  = (Return tt,
     {| world := world q;
        trace := trace q ++ flat_map (suite_lines suite_str vector_str show) (filter (listed lower names) l);
        self := self q; load_cached := load_cached q; ctx := ctx q |}).
Proof.
  revert q. induction l as [| s l IH]; intros q.
  - simpl. unfold ret. rewrite app_nil_r. destruct q; reflexivity.
  - simpl. unfold bind. rewrite list_suite_spec, IH. simpl.
    destruct (listed lower names s); simpl; rewrite <- ?app_assoc, ?app_nil_r; reflexivity.
Qed.

(** X10: the listing of suites never fails: after the header it prints,
    in catalogue order, every loaded suite when there is no filter, and
    with a filter those whose name matches one of its names whatever the
    letter case, each followed by its vectors when asked; a filter that
    matches nothing gives the header alone. *)
Theorem listing_suites_filters_without_failing (p : State) (show : bool)
    (names : option (list string)) :
  let p1 := snd (load p) in
  let catalogue := fl_test_suites (self p1) in
  let r := list_test_suites lower os_walk from_json_file suite_str vector_str show names p in
  fst r = Return tt /\
  since p1 (snd r)
    = Print (nl ++ "List of available test suites:")
      :: flat_map (suite_lines suite_str vector_str show) (filter (listed lower names) catalogue) /\
  (forall s, In s (filter (listed lower names) catalogue) <->
     In s catalogue /\ (truthy names = false \/ matches_ci lower (ts_name s) (items names))) /\
  (truthy names = true ->
   (forall s, In s catalogue -> ~ matches_ci lower (ts_name s) (items names)) ->
   since p1 (snd r) = [Print (nl ++ "List of available test suites:")]) /\
  world (snd r) = world p /\ self (snd r) = self p1 /\ ctx (snd r) = ctx p.
Proof.
  intros p1 catalogue r.
  assert (Hl : load p = (Return tt, p1)) by (unfold p1; rewrite load_spec; reflexivity).
  destruct (load_frame _ os_walk from_json_file p) as [Hw1 [Hc1 _]]. fold p1 in Hw1, Hc1.
  assert (Hr : r = (Return tt,
                    {| world := world p1;
                       trace := (trace p1 ++ [Print (nl ++ "List of available test suites:")])
                                ++ flat_map (suite_lines suite_str vector_str show)
                                     (filter (listed lower names) catalogue);
                       self := self p1; load_cached := load_cached p1; ctx := ctx p1 |})).
  { unfold r, list_test_suites, bind at 1. rewrite Hl.
    unfold bind at 1, print at 1. unfold bind at 1, get_self.
    rewrite list_suites_spec. reflexivity. }
  assert (Hmem : forall s, In s (filter (listed lower names) catalogue) <->
            In s catalogue /\ (truthy names = false \/ matches_ci lower (ts_name s) (items names))).
  { intros s. rewrite filter_In. unfold listed.
    rewrite orb_true_iff, negb_true_iff, mem_In, matches_ci_In. reflexivity. }
  assert (Hsince : since p1 (snd r)
                   = Print (nl ++ "List of available test suites:")
                     :: flat_map (suite_lines suite_str vector_str show) (filter (listed lower names) catalogue)).
  { apply since_extends. rewrite Hr. simpl. rewrite <- app_assoc. reflexivity. }
  split; [rewrite Hr; reflexivity |]. split; [exact Hsince |]. split; [exact Hmem |].
  split.
  { intros Ht Hno. rewrite Hsince.
    revert Hmem. destruct (filter (listed lower names) catalogue) as [| s l]; [reflexivity |].
    intros Hmem. exfalso.
    destruct (proj1 (Hmem s) (or_introl eq_refl)) as [Hc [Hf | Hm]];
      [congruence | exact (Hno s Hc Hm)]. }
  rewrite Hr. simpl. repeat split; assumption.
Qed.

End Commands.

(** *** Listing the decoders *)

Lemma Codec_eqb_refl (c : Codec) : Codec_eqb c c = true.
Proof. apply Codec_eqb_eq. reflexivity. Qed.

Lemma Codec_eqb_neq (a b : Codec) : Codec_eqb a b = false <-> a <> b.
Proof.
  split.
  - intros H E. apply Codec_eqb_eq in E. congruence.
  - intros H. destruct (Codec_eqb a b) eqn:E; [| reflexivity].
    apply Codec_eqb_eq in E. contradiction.
Qed.

Lemma codec_heading_is_member_name (c : Codec) : codec_heading c = Return (Codec_name c).
Proof. destruct c; reflexivity. Qed.

Lemma codec_in_map (f : Codec -> list Decoder) (cs : list Codec) (c0 : Codec) :
  codec_in (map (fun c => (c, f c)) cs) c0 = existsb (fun c => Codec_eqb c c0) cs.
Proof.
  unfold codec_in. induction cs as [| a cs IH]; [reflexivity |].
  simpl. rewrite IH. reflexivity.
Qed.

Lemma codec_append_hit (f : Codec -> list Decoder) (cs : list Codec) (c0 : Codec)
    (d : Decoder) :
  NoDup cs ->
  codec_append (map (fun c => (c, f c)) cs) c0 d
  = map (fun c => (c, if Codec_eqb c c0 then f c ++ [d] else f c)) cs.
Proof.
  induction cs as [| a cs IH]; intros Hnd; [reflexivity |].
  inversion Hnd as [| ? ? Hnotin Hnd']; subst.
  simpl. destruct (Codec_eqb a c0) eqn:E.
  - apply Codec_eqb_eq in E. subst c0. f_equal.
    apply map_ext_in. intros c Hc.
    assert (Hne : Codec_eqb c a = false)
      by (apply Codec_eqb_neq; intros ->; contradiction).
    rewrite Hne. reflexivity.
  - rewrite (IH Hnd'). reflexivity.
Qed.

Lemma codec_append_miss (D : CodecDict) (c0 : Codec) (l0 : list Decoder) (d : Decoder) :
  codec_in D c0 = false ->
  codec_append (D ++ [(c0, l0)]) c0 d = D ++ [(c0, l0 ++ [d])].
Proof.
  unfold codec_in. induction D as [| [a la] D IH]; simpl; intros H.
  - rewrite Codec_eqb_refl. reflexivity.
  - apply orb_false_iff in H. destruct H as [Ha HD].
    rewrite Ha, (IH HD). reflexivity.
Qed.

Lemma of_codec_snoc (c : Codec) (l : list Decoder) (d : Decoder) :
  of_codec c (l ++ [d])
  = of_codec c l ++ (if Codec_eqb c (dec_codec d) then [d] else []).
Proof. unfold of_codec. rewrite filter_app. reflexivity. Qed.

Lemma flat_map_same {A B : Type} (f g : A -> list B) (l : list A) :
  (forall a, In a l -> f a = g a) -> flat_map f l = flat_map g l.
Proof.
  induction l as [| a l IH]; intros H; [reflexivity |].
  simpl. rewrite (H a (or_introl eq_refl)), IH; [reflexivity |].
  intros b Hb. apply H. right. exact Hb.
Qed.

Lemma flat_map_one_more (f : Codec -> list Decoder) (cs : list Codec) (c0 : Codec)
    (d : Decoder) :
  NoDup cs -> In c0 cs ->
  Permutation
    (flat_map (fun c => f c ++ (if Codec_eqb c c0 then [d] else [])) cs)
    (flat_map f cs ++ [d]).
Proof.
  induction cs as [| a cs IH]; intros Hnd Hin; [destruct Hin |].
  inversion Hnd as [| ? ? Hnotin Hnd']; subst. simpl.
  destruct (Codec_eqb a c0) eqn:E.
  - apply Codec_eqb_eq in E. subst c0.
    rewrite (flat_map_same _ f).
    + rewrite <- !app_assoc. apply Permutation_app_head. apply Permutation_app_comm.
    + intros c Hc.
      assert (Hne : Codec_eqb c a = false)
        by (apply Codec_eqb_neq; intros ->; contradiction).
      rewrite Hne. apply app_nil_r.
  - destruct Hin as [-> | Hin]; [rewrite Codec_eqb_refl in E; discriminate |].
    rewrite app_nil_r, <- app_assoc. apply Permutation_app_head. exact (IH Hnd' Hin).
Qed.

Lemma existsb_codec (cs : list Codec) (c0 : Codec) :
  existsb (fun c => Codec_eqb c c0) cs = true <-> In c0 cs.
Proof.
  rewrite existsb_exists. split.
  - intros [c [Hc E]]. apply Codec_eqb_eq in E. subst. exact Hc.
  - intros H. exists c0. split; [exact H | apply Codec_eqb_refl].
Qed.

Lemma grouping_invariant (l : list Decoder) :
  group_decoders l = map (fun c => (c, of_codec c l)) (first_codecs l) /\
  NoDup (first_codecs l) /\
  (forall c, In c (first_codecs l) <-> exists d, In d l /\ dec_codec d = c) /\
  Permutation (flat_map (fun c => of_codec c l) (first_codecs l)) l.
Proof.
  induction l as [| d l IH] using rev_ind.
  - split; [reflexivity |]. split; [constructor |]. split; [| constructor].
    intros c. split; [intros [] | intros [d [[] _]]].
  - destruct IH as [HG [Hnd [Hmem Hperm]]].
    set (c0 := dec_codec d).
    assert (HG' : group_decoders (l ++ [d]) = group_decoder (group_decoders l) d)
      by (unfold group_decoders; rewrite fold_left_app; reflexivity).
    assert (HF' : first_codecs (l ++ [d])
                  = if existsb (fun c => Codec_eqb c c0) (first_codecs l)
                    then first_codecs l else first_codecs l ++ [c0])
      by (unfold first_codecs; rewrite fold_left_app; reflexivity).
    rewrite HG', HF'. unfold group_decoder. fold c0.
    rewrite HG, codec_in_map.
    destruct (existsb (fun c => Codec_eqb c c0) (first_codecs l)) eqn:Hex; simpl negb; cbv iota.
    + assert (Hin : In c0 (first_codecs l)) by (apply existsb_codec; exact Hex).
      split.
      { rewrite (codec_append_hit _ _ _ _ Hnd). apply map_ext. intros c.
        rewrite of_codec_snoc. fold c0.
        destruct (Codec_eqb c c0); [reflexivity | rewrite app_nil_r; reflexivity]. }
      split; [exact Hnd |]. split.
      { intros c. rewrite Hmem. split.
        - intros [d' [Hd' E]]. exists d'. split; [apply in_or_app; left; exact Hd' | exact E].
        - intros [d' [Hd' E]]. apply in_app_or in Hd'. destruct Hd' as [Hd' | [<- | []]].
          + exists d'. split; assumption.
          + apply Hmem. subst c. exact Hin. }
      rewrite (flat_map_same _ (fun c => of_codec c l
                                         ++ (if Codec_eqb c c0 then [d] else [])))
        by (intros c _; apply of_codec_snoc).
      eapply perm_trans; [apply (flat_map_one_more _ _ _ _ Hnd Hin) |].
      apply Permutation_app_tail. exact Hperm.
    + assert (Hnotin : ~ In c0 (first_codecs l))
        by (intros H; apply existsb_codec in H; congruence).
      assert (Hother : forall c, In c (first_codecs l) -> Codec_eqb c c0 = false)
        by (intros c Hc; apply Codec_eqb_neq; intros ->; contradiction).
      assert (Hnone : of_codec c0 l = []).
      { unfold of_codec. destruct (filter _ l) as [| d' r] eqn:E; [reflexivity |].
        exfalso. assert (Hd' : In d' (filter (fun d => Codec_eqb c0 (dec_codec d)) l))
          by (rewrite E; left; reflexivity).
        apply filter_In in Hd'. destruct Hd' as [Hd' Heq]. apply Codec_eqb_eq in Heq.
        apply Hnotin. apply Hmem. exists d'. split; [exact Hd' | symmetry; exact Heq]. }
      assert (Hsame : forall c, In c (first_codecs l) -> of_codec c (l ++ [d]) = of_codec c l).
      { intros c Hc. rewrite of_codec_snoc. fold c0. rewrite (Hother c Hc).
        apply app_nil_r. }
      assert (Hnew : of_codec c0 (l ++ [d]) = [d]).
      { rewrite of_codec_snoc. fold c0. rewrite Codec_eqb_refl, Hnone. reflexivity. }
      split.
      { rewrite codec_append_miss by (rewrite codec_in_map; exact Hex).
        rewrite map_app. simpl. rewrite Hnew. f_equal.
        apply map_ext_in. intros c Hc. rewrite (Hsame c Hc). reflexivity. }
      split.
      { apply NoDup_app; [exact Hnd | repeat constructor; intros [] | ].
        intros c Hc [<- | []]. contradiction. }
      split.
      { intros c. rewrite in_app_iff, Hmem. split.
        - intros [[d' [Hd' E]] | [<- | []]].
          + exists d'. split; [apply in_or_app; left; exact Hd' | exact E].
          + exists d. split; [apply in_or_app; right; left; reflexivity | reflexivity].
        - intros [d' [Hd' E]]. apply in_app_or in Hd'. destruct Hd' as [Hd' | [<- | []]].
          + left. exists d'. split; assumption.
          + right. left. exact E. }
      rewrite flat_map_app. simpl. rewrite Hnew, app_nil_r.
      rewrite (flat_map_same _ (fun c => of_codec c l)) by exact Hsame.
      apply Permutation_app_tail. exact Hperm.
Qed.

(** X11: the listing groups the registry by codec: one group per codec
    that has a decoder, in the order in which the codecs first appear,
    each group holding the decoders of its codec in registry order; every
    decoder lands in exactly one group. *)
Theorem decoders_are_grouped_by_codec (decoders : list Decoder) :
  group_decoders decoders
    = map (fun c => (c, of_codec c decoders)) (first_codecs decoders) /\
  NoDup (map fst (group_decoders decoders)) /\
  (forall c, In c (map fst (group_decoders decoders)) <->
             exists d, In d decoders /\ dec_codec d = c) /\
  (forall c group, In (c, group) (group_decoders decoders) -> group <> []) /\
  Permutation (flat_map snd (group_decoders decoders)) decoders.
Proof.
  destruct (grouping_invariant decoders) as [HG [Hnd [Hmem Hperm]]].
  assert (Hkeys : map fst (group_decoders decoders) = first_codecs decoders).
  { rewrite HG, map_map. simpl. apply map_id. }
  split; [exact HG |]. split; [rewrite Hkeys; exact Hnd |].
  split; [rewrite Hkeys; exact Hmem |]. split.
  - intros c group Hin. rewrite HG in Hin. apply in_map_iff in Hin.
    destruct Hin as [c' [E Hc']]. inversion E; subst.
    apply Hmem in Hc'. destruct Hc' as [d [Hd Ec]].
    intros Hnil.
    assert (Hdin : In d (of_codec c decoders)).
    { unfold of_codec. apply filter_In. split; [exact Hd |].
      apply Codec_eqb_eq. symmetry. exact Ec. }
    rewrite Hnil in Hdin. destruct Hdin.
  - rewrite HG, flat_map_concat_map, map_map. simpl.
    rewrite <- flat_map_concat_map. exact Hperm.
Qed.

Section ListDecoders.

Variable World : Type.
Variable decoder_str : Decoder -> string.
Variable decoder_check : World -> Decoder -> bool.

Local Abbreviation State := (Proc World).

Lemma print_decoders (check : bool) (ds : list Decoder) (q : State) :
  for_each ds
    (fun _ decoder => bind get_world
       (fun w => print (decoder_line decoder_str decoder_check check w decoder))) tt q
  = (Return tt,
     {| world := world q;
        trace := trace q ++ map (fun d => Print (decoder_line decoder_str decoder_check
                                                   check (world q) d)) ds;
        self := self q; load_cached := load_cached q; ctx := ctx q |}).
Proof.
  revert q. induction ds as [| d ds IH]; intros q.
  - simpl. unfold ret. rewrite app_nil_r. destruct q; reflexivity.
  - simpl. unfold bind at 1. unfold bind at 1. unfold get_world, print at 1.
    rewrite IH. simpl. rewrite <- app_assoc. reflexivity.
Qed.

Lemma list_codecs_spec (check : bool) (D : CodecDict) (q : State) :
  for_each D (fun _ entry => list_codec decoder_str decoder_check check entry) tt q
  = (Return tt,
     {| world := world q;
        trace := trace q ++ flat_map (codec_lines decoder_str decoder_check check (world q)) D;
        self := self q; load_cached := load_cached q; ctx := ctx q |}).
Proof.
  revert q. induction D as [| [c group] D IH]; intros q.
  - simpl. unfold ret. rewrite app_nil_r. destruct q; reflexivity.
  - simpl. unfold bind at 1. unfold list_codec at 1. simpl fst. simpl snd.
    rewrite codec_heading_is_member_name.
    unfold bind at 1. unfold lift at 1. unfold bind at 1. unfold print at 1.
    rewrite print_decoders. rewrite IH. unfold codec_lines. simpl.
    rewrite <- !app_assoc. reflexivity.
Qed.

(** X12: the listing of decoders never fails; after the header it prints,
    for each codec that has a decoder and in the order of first
    appearance, the name of the codec's enum member and then one line per
    decoder of that codec in registry order.  It changes nothing else. *)
Theorem listing_decoders_prints_each_codec_once (p : State) (check : bool) :
  let r := list_decoders decoder_str decoder_check check p in
  let decoders := fl_decoders (self p) in
  fst r = Return tt /\
  trace (snd r)
    = trace p
      ++ Print (nl ++ "List of available decoders:" ++ nl)
         :: flat_map
              (fun c => Print (Codec_name c)
                        :: map (fun d => Print (decoder_line decoder_str decoder_check
                                                 check (world p) d))
                             (of_codec c decoders))
              (first_codecs decoders) /\
  length (since p (snd r)) = (1 + length (first_codecs decoders) + length decoders)%nat /\
  world (snd r) = world p /\ self (snd r) = self p /\ ctx (snd r) = ctx p.
Proof.
  intros r decoders.
  destruct (grouping_invariant decoders) as [HG [_ [_ Hperm]]].
  set (lines := flat_map
              (fun c => Print (Codec_name c)
                        :: map (fun d => Print (decoder_line decoder_str decoder_check
                                                 check (world p) d))
                             (of_codec c decoders))
              (first_codecs decoders)).
  assert (Hr : r = (Return tt,
                    {| world := world p;
                       trace := (trace p ++ [Print (nl ++ "List of available decoders:" ++ nl)])
                                ++ lines;
                       self := self p; load_cached := load_cached p; ctx := ctx p |})).
  { unfold r, list_decoders. unfold bind at 1. unfold print at 1.
    unfold bind at 1. unfold get_self. rewrite list_codecs_spec. simpl.
    fold decoders. rewrite HG. unfold lines.
    rewrite !flat_map_concat_map, map_map. reflexivity. }
  assert (Htrace : trace (snd r)
                   = trace p ++ Print (nl ++ "List of available decoders:" ++ nl) :: lines).
  { rewrite Hr. simpl. rewrite <- app_assoc. reflexivity. }
  split; [rewrite Hr; reflexivity |]. split; [exact Htrace |]. split.
  - rewrite (since_extends _ p (snd r) _ Htrace). simpl. f_equal.
    unfold lines.
    assert (Hlen : forall cs,
               length (flat_map
                 (fun c => Print (Codec_name c)
                        :: map (fun d => Print (decoder_line decoder_str decoder_check
                                                 check (world p) d))
                             (of_codec c decoders)) cs)
               = (length cs + length (flat_map (fun c => of_codec c decoders) cs))%nat).
    { induction cs as [| c cs IH]; [reflexivity |].
      simpl. rewrite !length_app, length_map, IH. lia. }
    rewrite Hlen. rewrite (Permutation_length Hperm). reflexivity.
  - rewrite Hr. simpl. repeat split; reflexivity.
Qed.

End ListDecoders.

(** ** File names *)

Lemma append_empty_r (s : string) : (s ++ "")%string = s.
Proof. induction s as [| c s IH]; [reflexivity | simpl; rewrite IH; reflexivity]. Qed.

Lemma append_assoc (a b c : string) : ((a ++ b) ++ c)%string = (a ++ (b ++ c))%string.
Proof. induction a as [| x a IH]; [reflexivity | simpl; rewrite IH; reflexivity]. Qed.

Lemma length_append (a b : string) :
  String.length (a ++ b) = (String.length a + String.length b)%nat.
Proof. induction a as [| x a IH]; [reflexivity | simpl; rewrite IH; reflexivity]. Qed.

Lemma substring_prefix (a b : string) : substring 0 (String.length a) (a ++ b) = a.
Proof.
  induction a as [| x a IH]; simpl.
  - destruct b; reflexivity.
  - rewrite IH. reflexivity.
Qed.

(** The extension is a suffix of the path. *)
Lemma ext_scan_suffix (s : string) (seen : bool) (best : string) :
  ext_scan s seen best = best \/ exists pre, s = (pre ++ ext_scan s seen best)%string.
Proof.
  revert seen best. induction s as [| c s IH]; intros seen best; [left; reflexivity |].
  simpl. destruct (Ascii.eqb c slash).
  - right. destruct (IH false EmptyString) as [E | [pre E]].
    + exists (String c s). rewrite E, append_empty_r. reflexivity.
    + exists (String c pre). simpl. rewrite <- E. reflexivity.
  - destruct (Ascii.eqb c dot) eqn:Ed.
    + destruct (IH seen (if seen then String c s else best)) as [E | [pre E]].
      * destruct seen; [| left; exact E].
        right. exists EmptyString. rewrite E. reflexivity.
      * right. exists (String c pre). simpl. rewrite <- E. reflexivity.
    + destruct (IH true best) as [E | [pre E]]; [left; exact E |].
      right. exists (String c pre). simpl. rewrite <- E. reflexivity.
Qed.

(** [root + ext == path], as [os.path.splitext] promises. *)
Lemma splitext_rebuilds (p : string) : (splitext_root p ++ splitext_ext p)%string = p.
Proof.
  unfold splitext_root.
  assert (H : exists pre, p = (pre ++ splitext_ext p)%string).
  { unfold splitext_ext. destruct (ext_scan_suffix p false EmptyString) as [E | H].
    - exists p. rewrite E, append_empty_r. reflexivity.
    - exact H. }
  destruct H as [pre E]. revert E. generalize (splitext_ext p). intros e E. subst p.
  rewrite length_append, Nat.add_sub, substring_prefix. reflexivity.
Qed.

Lemma endswith_suffix (s suffix : string) :
  endswith s suffix = true -> exists pre, s = (pre ++ suffix)%string.
Proof.
  induction s as [| c s IH]; cbn [endswith].
  - destruct (String.eqb EmptyString suffix) eqn:E; [| discriminate].
    apply String.eqb_eq in E. subst. exists EmptyString. reflexivity.
  - destruct (String.eqb (String c s) suffix) eqn:E.
    + apply String.eqb_eq in E. subst. exists EmptyString. reflexivity.
    + intros H. destruct (IH H) as [pre Hp]. exists (String c pre).
      simpl. rewrite <- Hp. reflexivity.
Qed.

Lemma endswith_app (pre suffix : string) : endswith (pre ++ suffix) suffix = true.
Proof.
  induction pre as [| c pre IH].
  - simpl. destruct suffix; cbn [endswith]; rewrite String.eqb_refl; reflexivity.
  - change ((if String.eqb (String c (pre ++ suffix)) suffix then true
             else endswith (pre ++ suffix) suffix) = true).
    destruct (String.eqb (String c (pre ++ suffix)) suffix); [reflexivity | exact IH].
Qed.

(** The extension of a name that ends in [.ivf] is [.ivf], or nothing
    when only dots come before it in the last component. *)
Lemma ext_scan_bitstream (pre : string) (seen : bool) (best : string) :
  let r := ext_scan (pre ++ ".ivf") seen best in
  r = ".ivf"%string \/ r = EmptyString \/ (seen = false /\ r = best).
Proof.
  revert seen best. induction pre as [| c pre IH]; intros seen best.
  - destruct seen; simpl; [left; reflexivity | right; right; split; reflexivity].
  - simpl. destruct (Ascii.eqb c slash).
    + destruct (IH false EmptyString) as [E | [E | [_ E]]];
        [left; exact E | right; left; exact E | right; left; exact E].
    + destruct (Ascii.eqb c dot).
      * destruct (IH seen (if seen then String c (pre ++ ".ivf") else best))
          as [E | [E | [Hs E]]];
          [left; exact E | right; left; exact E |].
        right; right. split; [exact Hs |]. rewrite Hs in E |- *. exact E.
      * destruct (IH true best) as [E | [E | [Hs _]]];
          [left; exact E | right; left; exact E | discriminate].
Qed.

Section LoadFilter.

Variable World : Type.
Variable from_json_file : World -> string -> string -> TestSuite + string.

(** X13: the loader passes over every file whose name does not end in
    [.json], and the file called just [.json]: it does not read it,
    prints nothing and leaves the state as it is. *)
Theorem loader_skips_files_that_are_not_json (root file : string) (p : Proc World) :
  endswith file ".json" = false \/ file = ".json"%string ->
  load_file from_json_file root file p = (Return tt, p).
Proof.
  intros Hnot. unfold load_file.
  destruct (String.eqb (splitext_ext file) ".json") eqn:E; [| reflexivity].
  exfalso. apply String.eqb_eq in E.
  pose proof (splitext_rebuilds file) as Hre. rewrite E in Hre.
  destruct Hnot as [Hend | Hdot].
  - rewrite <- Hre, endswith_app in Hend. discriminate Hend.
  - subst file. discriminate E.
Qed.

End LoadFilter.

(** ** The pixel formats *)

Lemma PixelFormat_eqb_eq (a b : PixelFormat) : PixelFormat_eqb a b = true <-> a = b.
Proof. destruct a, b; simpl; split; intros H; congruence. Qed.

(** X14: the GStreamer name of a pixel format is found for every member
    of the enum, so the lookup never raises [KeyError], and two formats
    never share a name. *)
Theorem every_pixel_format_has_its_own_gst_name :
  (forall p, exists name, to_gst_lookup p = Return name /\ name <> EmptyString) /\
  (forall p q, to_gst_lookup p = to_gst_lookup q -> p = q).
Proof.
  split.
  - intros p. destruct p; eexists; (split; [reflexivity | discriminate]).
  - intros p q. destruct p, q; simpl; intros H; try reflexivity; discriminate H.
Qed.

(** ** The generator of the VP8 suite *)

Lemma dict_set_keys {V : Type} (d : list (string * V)) (key : string) (value : V) :
  dict_keys (dict_set d key value)
  = if mem key (dict_keys d) then dict_keys d else dict_keys d ++ [key].
Proof.
  unfold dict_keys, mem. induction d as [| [k v] d IH]; [reflexivity |].
  simpl. rewrite (String.eqb_sym key k). destruct (String.eqb k key); [reflexivity |].
  simpl. rewrite IH. destruct (existsb (String.eqb key) (map fst d)); reflexivity.
Qed.

Lemma dict_set_in {V : Type} (d : list (string * V)) (key : string) (value : V)
    (k : string) (v : V) :
  In (k, v) (dict_set d key value) -> (k = key /\ v = value) \/ In (k, v) d.
Proof.
  induction d as [| [k0 v0] d IH]; simpl.
  - intros [E | []]. inversion E. left. split; reflexivity.
  - destruct (String.eqb k0 key) eqn:E.
    + apply String.eqb_eq in E. subst k0. intros [H | H].
      * inversion H. left. split; reflexivity.
      * right. right. exact H.
    + intros [H | H]; [right; left; exact H |].
      destruct (IH H) as [Hl | Hr]; [left; exact Hl | right; right; exact Hr].
Qed.

Lemma dict_set_keeps_nodup {V : Type} (d : list (string * V)) (key : string) (value : V) :
  NoDup (dict_keys d) -> NoDup (dict_keys (dict_set d key value)).
Proof.
  intros H. rewrite dict_set_keys. destruct (mem key (dict_keys d)) eqn:E; [exact H |].
  apply NoDup_app; [exact H | repeat constructor; intros [] |].
  intros k Hk [<- | []]. apply mem_In in Hk. congruence.
Qed.

Lemma dict_set_has_key {V : Type} (d : list (string * V)) (key : string) (value : V)
    (k : string) :
  In k (dict_keys (dict_set d key value)) <-> k = key \/ In k (dict_keys d).
Proof.
  rewrite dict_set_keys. destruct (mem key (dict_keys d)) eqn:E.
  - apply mem_In in E. split; [intros H; right; exact H |].
    intros [-> | H]; assumption.
  - rewrite in_app_iff. simpl. split.
    + intros [H | [<- | []]]; [right; exact H | left; reflexivity].
    + intros [-> | H]; [right; left; reflexivity | left; exact H].
Qed.

Import GenVP8.

Lemma bitstream_name (file : string) :
  is_test_vector file = true ->
  (splitext_root file ++ ".ivf")%string = file \/ splitext_root file = file.
Proof.
  unfold is_test_vector, BITSTREAM_EXT. intros H.
  destruct (endswith_suffix _ _ H) as [pre E].
  pose proof (splitext_rebuilds file) as Hre.
  pose proof (ext_scan_bitstream pre false EmptyString) as Hext.
  simpl in Hext. rewrite <- E in Hext. fold (splitext_ext file) in Hext.
  destruct Hext as [Hx | [Hx | [_ Hx]]]; rewrite Hx in Hre.
  - left. exact Hre.
  - right. rewrite append_empty_r in Hre. exact Hre.
  - right. rewrite append_empty_r in Hre. exact Hre.
Qed.

Lemma collected_vectors (contents : list string) :
  let vectors := fold_left add_content contents [] in
  NoDup (dict_keys vectors) /\
  (forall file, In file contents -> is_test_vector file = true ->
     In (splitext_root file) (dict_keys vectors)) /\
  (forall k v, In (k, v) vectors ->
     exists file, In file contents /\ is_test_vector file = true /\
       k = splitext_root file /\ v = listed_vector file).
Proof.
  induction contents as [| file contents IH] using rev_ind.
  - simpl. split; [constructor |]. split; [intros ? [] | intros ? ? []].
  - cbv zeta in *. rewrite fold_left_app. simpl.
    destruct IH as [Hnd [Hall Hfrom]].
    set (vectors := fold_left add_content contents []) in *.
    assert (Hadd : add_content vectors file
                   = if is_test_vector file
                     then dict_set vectors (splitext_root file) (listed_vector file)
                     else vectors)
      by (unfold add_content; destruct (is_test_vector file); reflexivity).
    rewrite Hadd. clear Hadd.
    destruct (is_test_vector file) eqn:Hv.
    + split; [apply dict_set_keeps_nodup; exact Hnd |]. split.
      * intros f Hf Hfv. apply dict_set_has_key.
        apply in_app_or in Hf. destruct Hf as [Hf | [<- | []]].
        -- right. exact (Hall f Hf Hfv).
        -- left. reflexivity.
      * intros k v Hin. apply dict_set_in in Hin. destruct Hin as [[-> ->] | Hin].
        -- exists file. split; [apply in_or_app; right; left; reflexivity |].
           split; [exact Hv |]. split; reflexivity.
        -- destruct (Hfrom k v Hin) as [f [Hf Hrest]].
           exists f. split; [apply in_or_app; left; exact Hf | exact Hrest].
    + split; [exact Hnd |]. split.
      * intros f Hf Hfv. apply in_app_or in Hf. destruct Hf as [Hf | [<- | []]].
        -- exact (Hall f Hf Hfv).
        -- congruence.
      * intros k v Hin. destruct (Hfrom k v Hin) as [f [Hf Hrest]].
        exists f. split; [apply in_or_app; left; exact Hf | exact Hrest].
Qed.

Section Generated.

Variable World : Type.
Variable repo_contents : World -> string -> list string.
Variable suite_download :
  TestSuite -> Z -> string -> bool -> bool -> bool -> World -> World.
Variable file_checksum : World -> string -> string.
Variable to_json_file : TestSuite -> string -> World -> World.

Local Abbreviation generate :=
  (GenVP8.generate World repo_contents suite_download file_checksum to_json_file).

(** X15: the generated suite has one vector for each stem of a listed
    file that ends in [.ivf] and none for any other file.  A vector is
    keyed and named by the stem of its file, which is the file name
    without [.ivf] (the whole name when only dots come before [.ivf]); its
    source is the raw base URL followed by the file name, its input file
    the file name, and its format yuv420p. *)
Theorem generated_suite_lists_the_bitstreams (self : VP8Generator) (download : bool)
    (jobs : Z) (w : World) :
  let contents := repo_contents w (gen_github_mirror self) in
  let suite := fst (fst (generate self download jobs w)) in
  let vectors := ts_test_vectors suite in
  ts_name suite = gen_suite_name self /\ ts_codec suite = gen_codec self /\
  ts_filename suite = (gen_suite_name self ++ ".json")%string /\
  NoDup (dict_keys vectors) /\
  (forall file, In file contents -> is_test_vector file = true ->
     In (splitext_root file) (dict_keys vectors)) /\
  (forall k v, In (k, v) vectors ->
     exists file, In file contents /\ is_test_vector file = true /\
       k = splitext_root file /\
       ((k ++ ".ivf")%string = file \/ k = file) /\
       tv_name v = k /\ tv_input_file v = file /\
       tv_source v = (GITHUB_RAW_BASE_URL ++ file)%string /\
       tv_output_format v = yuv420p /\ tv_result v = EmptyString /\ tv_errors v = []).
Proof.
  intros contents suite vectors.
  destruct (collected_vectors contents) as [Hnd [Hall Hfrom]].
  set (collected := fold_left add_content contents []) in *.
  assert (Hkeys : dict_keys vectors = dict_keys collected).
  { unfold vectors, suite, GenVP8.generate. simpl. fold contents. fold collected.
    unfold dict_keys. rewrite map_map. reflexivity. }
  split; [reflexivity |]. split; [reflexivity |]. split; [reflexivity |].
  split; [rewrite Hkeys; exact Hnd |].
  split; [intros file Hf Hv; rewrite Hkeys; exact (Hall file Hf Hv) |].
  intros k v Hin.
  unfold vectors, suite, GenVP8.generate in Hin. simpl in Hin.
  fold contents in Hin. fold collected in Hin.
  apply in_map_iff in Hin. destruct Hin as [[k0 v0] [E Hin0]].
  simpl in E. inversion E; subst k v. clear E.
  destruct (Hfrom k0 v0 Hin0) as [file [Hf [Hv [Hk Hv0]]]].
  exists file. split; [exact Hf |]. split; [exact Hv |]. split; [exact Hk |].
  split; [rewrite Hk; apply bitstream_name; exact Hv |].
  rewrite Hv0, Hk. repeat split; reflexivity.
Qed.

(** X16: the checksum of each vector is computed after the download, if
    one was asked for, and before the suite is written: it is the
    checksum of [resources/<suite>/<vector>/<file>] in the world the
    download leaves, or in the initial world without a download.  The
    download runs once, with verification off, extraction and keeping
    of files on, on the suite whose checksums are still empty; the file
    written is [<suite>.json] and holds the suite returned. *)
Theorem checksums_are_taken_after_the_download (self : VP8Generator) (download : bool)
    (jobs : Z) (w : World) :
  let r := generate self download jobs w in
  let suite := fst (fst r) in
  exists before w1,
    snd r
      = (if download then [Downloaded before jobs "resources" false true true] else [])
        ++ [Written suite (gen_suite_name self ++ ".json");
            Printed ("Generate new test suite: " ++ gen_suite_name self ++ ".json")] /\
    w1 = (if download
          then suite_download before jobs "resources" false true true w else w) /\
    snd (fst r) = to_json_file suite (gen_suite_name self ++ ".json") w1 /\
    ts_name before = gen_suite_name self /\
    dict_keys (ts_test_vectors before) = dict_keys (ts_test_vectors suite) /\
    (forall v, In v (dict_values (ts_test_vectors before)) ->
       tv_source_checksum v = EmptyString) /\
    (forall k v, In (k, v) (ts_test_vectors suite) ->
       tv_source_checksum v
       = file_checksum w1
           (path_join (path_join (path_join "resources" (gen_suite_name self)) k)
                      (basename (tv_input_file v)))).
Proof.
  intros r suite.
  set (contents := repo_contents w (gen_github_mirror self)).
  destruct (collected_vectors contents) as [_ [_ Hfrom]].
  set (collected := fold_left add_content contents []) in *.
  set (before := set_vectors
                   (TestSuite_new (gen_suite_name self ++ ".json") "resources"
                      (gen_suite_name self) (gen_codec self) (gen_description self) [])
                   collected).
  set (w1 := if download
             then suite_download before jobs "resources" false true true w else w).
  assert (Hvectors : ts_test_vectors suite
                     = map (fun kv => (fst kv, checksum_vector World file_checksum w1 before (snd kv)))
                           collected)
    by (unfold suite, r, GenVP8.generate; destruct download; reflexivity).
  exists before, w1.
  split; [unfold r, GenVP8.generate; destruct download; reflexivity |].
  split; [reflexivity |].
  split; [unfold suite, r, GenVP8.generate; destruct download; reflexivity |].
  split; [reflexivity |].
  split; [rewrite Hvectors; unfold dict_keys; rewrite map_map; reflexivity |].
  split.
  - intros v Hv. unfold dict_values in Hv. apply in_map_iff in Hv.
    destruct Hv as [[k v0] [E Hin]]. simpl in E. subst v0.
    destruct (Hfrom k v Hin) as [file [_ [_ [_ ->]]]]. reflexivity.
  - intros k v Hin. rewrite Hvectors in Hin. apply in_map_iff in Hin.
    destruct Hin as [[k0 v0] [E Hin0]]. simpl in E. inversion E; subst k v. clear E.
    destruct (Hfrom k0 v0 Hin0) as [file [_ [_ [Hk ->]]]].
    unfold checksum_vector, listed_vector. cbn [set_source_checksum TestVector_new tv_source_checksum tv_name tv_source tv_input_file ts_resources_dir ts_name before set_vectors TestSuite_new]. rewrite <- Hk. reflexivity.
Qed.

End Generated.

(** ** The sample installation, again *)

Local Abbreviation sample_run :=
  (run_test_suites lower_ascii Sample.os_walk Sample.from_json_file Sample.suite_run).
Local Abbreviation sample_load :=
  (_load_test_suites Sample.os_walk Sample.from_json_file).

Ltac by_position := vm_compute; repeat (first [left; reflexivity | right]).

(** With the vector filter [V1], the first run, of suite [Dummy-A] with
    decoder [A], gets the filter [v1]. *)
Lemma suite_run_settings_sample :
  In (SuiteRun Sample.suiteA Cases.upper_vector_context
        (fst (Sample.suite_run Sample.suiteA Cases.upper_vector_context 0)))
     (since Cases.upper_vector (snd (sample_run Cases.upper_vector))) /\
  In Sample.suiteA (fl_test_suites (self (snd (sample_load Cases.upper_vector)))) /\
  In (sc_decoder Cases.upper_vector_context) (fl_decoders (self Cases.upper_vector)) /\
  Cases.upper_vector_context
  = to_test_suite_context (ctx Cases.upper_vector) (sc_decoder Cases.upper_vector_context)
      (fl_results_dir (self Cases.upper_vector))
      (option_map (map lower_ascii) (cx_test_vectors (ctx Cases.upper_vector))).
Proof.
  assert (H : In (SuiteRun Sample.suiteA Cases.upper_vector_context
                    (fst (Sample.suite_run Sample.suiteA Cases.upper_vector_context 0)))
                 (since Cases.upper_vector (snd (sample_run Cases.upper_vector))))
    by by_position.
  exact (conj H (every_suite_run_gets_the_callers_settings Sample.World lower_ascii
                   Sample.os_walk Sample.from_json_file Sample.suite_run
                   Cases.upper_vector Sample.suiteA Cases.upper_vector_context
                   (fst (Sample.suite_run Sample.suiteA Cases.upper_vector_context 0)) H)).
Defined.

(** Reference mode with one decoder and summaries off: the line printed
    after the loading is the announcement. *)
Lemma reference_line_sample :
  cx_summary (ctx Cases.reference_A) = false /\
  In (Print "Reference mode")
     (since (snd (sample_load Cases.reference_A)) (snd (sample_run Cases.reference_A))) /\
  "Reference mode"%string = "Reference mode"%string /\
  cx_reference (ctx Cases.reference_A) = true.
Proof.
  assert (H : In (Print "Reference mode")
                 (since (snd (sample_load Cases.reference_A))
                        (snd (sample_run Cases.reference_A))))
    by by_position.
  exact (conj eq_refl
           (conj H (run_without_summary_prints_no_table Sample.World lower_ascii
                      Sample.os_walk Sample.from_json_file Sample.suite_run
                      Cases.reference_A "Reference mode" eq_refl H))).
Defined.

(** Fail-fast over the whole sample: the two pairs executed start the
    list of the selected pairs. *)
Lemma executed_prefix_sample :
  _normalize_context lower_ascii (snd (sample_load Cases.failing))
  = (Return tt, snd (_normalize_context lower_ascii (snd (sample_load Cases.failing)))) /\
  cx_test_suites (ctx (snd (_normalize_context lower_ascii (snd (sample_load Cases.failing)))))
  = Objects [Sample.suiteA; Sample.suiteB; Sample.suiteH] /\
  cx_decoders (ctx (snd (_normalize_context lower_ascii (snd (sample_load Cases.failing)))))
  = Objects Sample.DECODERS /\
  (let executed := pairs_of (since Cases.failing (snd (sample_run Cases.failing))) in
   (exists tail,
      matching_pairs [Sample.suiteA; Sample.suiteB; Sample.suiteH] Sample.DECODERS
      = executed ++ tail) /\
   (fst (sample_run Cases.failing) = Return tt ->
      executed = matching_pairs [Sample.suiteA; Sample.suiteB; Sample.suiteH] Sample.DECODERS /\
      existsb failed_run (since Cases.failing (snd (sample_run Cases.failing))) = false) /\
   (fst (sample_run Cases.failing) = SysExit 1%Z ->
      existsb failed_run (since Cases.failing (snd (sample_run Cases.failing))) = true)).
Proof.
  assert (H1 : _normalize_context lower_ascii (snd (sample_load Cases.failing))
               = (Return tt, snd (_normalize_context lower_ascii (snd (sample_load Cases.failing)))))
    by by_run.
  assert (H2 : cx_test_suites
                 (ctx (snd (_normalize_context lower_ascii (snd (sample_load Cases.failing)))))
               = Objects [Sample.suiteA; Sample.suiteB; Sample.suiteH]) by by_run.
  assert (H3 : cx_decoders
                 (ctx (snd (_normalize_context lower_ascii (snd (sample_load Cases.failing)))))
               = Objects Sample.DECODERS) by by_run.
  exact (conj H1 (conj H2 (conj H3
           (executed_pairs_are_a_prefix Sample.World lower_ascii
              Sample.os_walk Sample.from_json_file Sample.suite_run
              Cases.failing _ _ _ H1 H2 H3)))).
Defined.

(** After the run of the H.264 suite alone, which returns, a second run
    with the same context raises [AttributeError]. *)
Lemma used_context_sample :
  fst (sample_run Cases.h264_only) = Return tt /\
  (cx_test_suites (ctx (snd (sample_run Cases.h264_only))) <> Objects [] \/
   cx_decoders (ctx (snd (sample_run Cases.h264_only))) <> Objects []) /\
  fst (sample_run (snd (sample_run Cases.h264_only))) = Raise AttributeError /\
  trace (snd (sample_run (snd (sample_run Cases.h264_only))))
  = trace (snd (sample_run Cases.h264_only)) /\
  world (snd (sample_run (snd (sample_run Cases.h264_only))))
  = world (snd (sample_run Cases.h264_only)).
Proof.
  assert (H1 : fst (sample_run Cases.h264_only) = Return tt) by by_run.
  assert (H2 : cx_test_suites (ctx (snd (sample_run Cases.h264_only))) <> Objects [] \/
               cx_decoders (ctx (snd (sample_run Cases.h264_only))) <> Objects [])
    by (left; vm_compute; intros E; discriminate E).
  exact (conj H1 (conj H2
           (a_used_context_cannot_run_again Sample.World lower_ascii
              Sample.os_walk Sample.from_json_file Sample.suite_run
              Cases.h264_only H1 H2))).
Defined.

(** The filters [DUMMY-A], [A] and [V1] give the run of [dummy-a], [a]
    and [v1]. *)
Lemma letter_case_sample :
  cx_test_suites (ctx Cases.lower_filters) = Names (Some ["dummy-a"%string]) /\
  cx_decoders (ctx Cases.lower_filters) = Names (Some ["a"%string]) /\
  sample_run
    (with_ctx
       (set_test_vectors
          (set_decoders
             (set_test_suites (ctx Cases.lower_filters) (Names (Some ["DUMMY-A"%string])))
             (Names (Some ["A"%string])))
          (Some ["V1"%string]))
       Cases.lower_filters)
  = sample_run Cases.lower_filters.
Proof.
  exact (conj eq_refl (conj eq_refl
           (filters_ignore_letter_case Sample.World lower_ascii
              Sample.os_walk Sample.from_json_file Sample.suite_run
              Cases.lower_filters (Some ["dummy-a"%string]) (Some ["a"%string])
              (Some ["DUMMY-A"%string]) (Some ["A"%string]) (Some ["V1"%string])
              eq_refl eq_refl eq_refl eq_refl eq_refl))).
Defined.


(** The download of the sample without a filter takes the three
    suites. *)
Lemma download_everything_sample :
  truthy None = false /\
  (let p1 := snd (sample_load Cases.plain) in
   let catalogue := fl_test_suites (self p1) in
   let r := download_test_suites Sample.os_walk Sample.from_json_file
              Sample.suite_download None 2 false Cases.plain in
   fst r = Return tt /\
   since p1 (snd r)
     = map (fun t => SuiteDownload t 2 (fl_resources_dir (self Cases.plain)) true false)
           catalogue /\
   world (snd r)
     = fold_left (fun w t => Sample.suite_download t 2
                               (fl_resources_dir (self Cases.plain)) true false w)
         catalogue (world Cases.plain) /\
   fl_test_suites (self (snd r)) = catalogue).
Proof.
  exact (conj eq_refl
           (download_without_filter_takes_every_suite Sample.World
              Sample.os_walk Sample.from_json_file Sample.suite_download
              Cases.plain None 2%Z false eq_refl)).
Defined.

(** The file [README.md] of the sample tree is passed over. *)
Lemma skipped_file_sample :
  (endswith "README.md" ".json" = false \/ "README.md"%string = ".json"%string) /\
  load_file Sample.from_json_file "test_suites" "README.md" Cases.plain
  = (Return tt, Cases.plain).
Proof.
  exact (conj (or_introl eq_refl)
           (loader_skips_files_that_are_not_json Sample.World Sample.from_json_file
              "test_suites" "README.md" Cases.plain (or_introl eq_refl))).
Defined.

(** A suite filter that names no loaded suite: the run raises before
    anything but the loading has happened. *)
Lemma unmatched_suite_filter_sample :
  cx_test_suites (Sample.only (Some ["Nothing"]) None None) = Names (Some ["Nothing"]) /\
  fst (Sample.run (Sample.only (Some ["Nothing"]) None None))
    = Raise (NoMatch "test suite" ["nothing"]) /\
  since (snd (_load_test_suites Sample.os_walk Sample.from_json_file
                (Sample.start Sample.fluster (Sample.only (Some ["Nothing"]) None None))))
        (snd (Sample.run (Sample.only (Some ["Nothing"]) None None))) = [] /\
  world (snd (Sample.run (Sample.only (Some ["Nothing"]) None None))) = 0.
Proof.
  unfold Sample.run, Sample.download.
  split; [reflexivity |].
  apply (proj1 (unmatched_filter_fails_before_any_run Sample.World lower_ascii
                  Sample.os_walk Sample.from_json_file Sample.suite_run
                  (Sample.start Sample.fluster (Sample.only (Some ["Nothing"]) None None))
                  (Some ["Nothing"]) None eq_refl eq_refl) ["Nothing"] eq_refl).
  - discriminate.
  - intros t Ht [n [Hn E]]. destruct Hn as [Hn | []]. subst n.
    vm_compute in Ht.
    destruct Ht as [Ht | [Ht | [Ht | []]]]; subst t; discriminate E.
Defined.



(** With an oracle whose results for one suite do not name the same
    vectors, the summary of the first suite raises [KeyError] for the
    vector that decoder [B] did not report, and the pairs of the later
    suites never run, fail-fast or not. *)
Lemma summary_failure_cuts_the_run_short :
  cx_failfast (ctx Cases.summaries) = false /\
  fst (run_test_suites lower_ascii Sample.os_walk Sample.from_json_file Cases.partial_run
         Cases.summaries) = Raise (KeyError "v2") /\
  pairs_of (trace (snd (run_test_suites lower_ascii Sample.os_walk Sample.from_json_file
                          Cases.partial_run Cases.summaries)))
    = [(Sample.suiteA, Sample.decA); (Sample.suiteA, Sample.decB)] /\
  In (Sample.suiteB, Sample.decA)
     (matching_pairs [Sample.suiteA; Sample.suiteB; Sample.suiteH] Sample.DECODERS) /\
  ~ consistent_results Cases.partial_run.
Proof.
  split; [reflexivity |]. split; [by_run |]. split; [by_run |].
  split; [vm_compute; right; right; left; reflexivity |].
  intros Hcons.
  pose proof (Hcons Sample.suiteA (ctx Cases.summaries) "results" None
                Sample.decA Sample.decB 0 0 _ _ eq_refl eq_refl
                (Sample.vector "v2" []) (or_intror (or_introl eq_refl))) as Hin.
  vm_compute in Hin. destruct Hin as [Hin | []]. discriminate Hin.
Qed.
